(** * Quantio: calculator engine and unit converter

    A shallow embedding of the computation core of the Quantio widget
    (js/components/calculator.js and js/components/converter.js) together
    with the part of the JavaScript runtime these two files rely on:
    IEEE-754 binary64 arithmetic, the Number <-> String conversions and
    property lookup on object literals. *)

From Stdlib Require Import ZArith Bool List Lia.
From Stdlib Require Import Ascii String DecimalString DecimalPos.
From Stdlib Require Import SpecFloat.
Import ListNotations.

Local Open Scope string_scope.
Local Open Scope Z_scope.

(* ================================================================== *)
(** * Numbers: IEEE-754 binary64 *)
(* ================================================================== *)

Module Number.

(** A JavaScript Number is a binary64 value; NaN carries no payload. *)
Definition number := spec_float.

Definition prec : Z := 53.
Definition emax : Z := 1024.

Definition NaN : number := S754_nan.
Definition Infinity : number := S754_infinity false.
Definition zero : number := S754_zero false.
Definition negzero : number := S754_zero true.

Definition add : number -> number -> number := SFadd prec emax.
Definition sub : number -> number -> number := SFsub prec emax.
Definition mul : number -> number -> number := SFmul prec emax.
Definition div : number -> number -> number := SFdiv prec emax.

(** [x === y] on two Numbers: IEEE equality, so [+0 === -0] holds and
    [NaN === NaN] does not. *)
Definition strictEq (x y : number) : bool := SFeqb x y.

(** The global [isNaN] applied to a Number. *)
Definition isNaN (x : number) : bool :=
  match x with S754_nan => true | _ => false end.

Definition isFinite (x : number) : bool :=
  match x with S754_zero _ | S754_finite _ _ _ => true | _ => false end.

(** A well-formed binary64: the mantissa has at most 53 bits and the
    exponent is the canonical one. *)
Definition wellFormed (x : number) : bool := valid_binary prec emax x.

(** Bitwise identity of two Numbers (tells [+0] from [-0]). *)
Definition same (x y : number) : bool :=
  match x, y with
  | S754_nan, S754_nan => true
  | S754_zero s, S754_zero s' => Bool.eqb s s'
  | S754_infinity s, S754_infinity s' => Bool.eqb s s'
  | S754_finite s m e, S754_finite s' m' e' =>
      Bool.eqb s s' && Pos.eqb m m' && Z.eqb e e'
  | _, _ => false
  end.

(** The Number nearest to [(-1)^s * m * 10^e] (ties to even): the value
    of a decimal literal and of a parsed decimal string. *)
Definition ofDecimal (s : bool) (m : N) (e : Z) : number :=
  match m with
  | N0 => S754_zero s
  | Npos p =>
      if 0 <=? e
      then binary_round prec emax s (p * Z.to_pos (10 ^ e)) 0
      else
        let '(mz, ez, lz) :=
          SFdiv_core_binary prec emax (Zpos p) 0 (10 ^ (- e)) 0 in
        binary_round_aux prec emax s mz ez lz
  end.

(** Integer literals. *)
Definition ofZ (n : Z) : number := binary_normalize prec emax n 0 false.

(** [Math.round]: the nearest integer, halves going up; the sign of a
    zero result is the sign of the argument. *)
Definition round (x : number) : number :=
  match x with
  | S754_finite s m e =>
      if 0 <=? e then x
      else
        let d := 2 ^ (- e) in
        let n := (2 * (if s then Z.neg m else Z.pos m) + d) / (2 * d) in
        if n =? 0 then S754_zero s else ofZ n
  | _ => x
  end.

(** The exact value of a positive finite Number as a fraction. *)
Definition fraction (m : positive) (e : Z) : Z * Z :=
  if 0 <=? e then (Z.pos m * 2 ^ e, 1) else (Z.pos m, 2 ^ (- e)).

End Number.
Export Number.

Declare Scope number_scope.
Delimit Scope number_scope with num.
Infix "+" := Number.add : number_scope.
Infix "-" := Number.sub : number_scope.
Infix "*" := Number.mul : number_scope.
Infix "/" := Number.div : number_scope.

(* ================================================================== *)
(** * Strings *)
(* ================================================================== *)

(** A JavaScript string is a sequence of UTF-16 code units.  Every string
    the two components build themselves lies in the Latin-1 range (the
    largest code units are those of the operator signs and of the degree
    sign), so such a string is modelled as a [string] whose characters are
    the code units U+0000 .. U+00FF.  Literals outside ASCII are written by
    code.  The text a user puts into the input field of the converter is
    any sequence of code units; [UTF16] below has these texts. *)
Module JSString.

Definition codeUnit (c : ascii) : N := N_of_ascii c.

Definition MULTIPLY : string := String "215"%char "".   (* U+00D7 *)
Definition DIVIDE : string := String "247"%char "".     (* U+00F7 *)
Definition PLUSMINUS : string := String "177"%char "".  (* U+00B1 *)
Definition DEGREE : string := String "176"%char "".     (* U+00B0 *)
Definition MICRO : string := String "181"%char "".      (* U+00B5 *)
Definition CUBED : string := String "179"%char "".      (* U+00B3 *)

(** [s.startsWith(p)] *)
Definition startsWith (s p : string) : bool := String.prefix p s.

(** [s.includes(sub)] *)
Fixpoint includes (s sub : string) : bool :=
  String.prefix sub s
  || match s with
     | EmptyString => false
     | String _ rest => includes rest sub
     end.

(** [s.slice(1)] *)
Definition sliceFrom1 (s : string) : string :=
  substring 1 (String.length s - 1) s.

(** [s.slice(0, -1)] *)
Definition sliceDropLast (s : string) : string :=
  substring 0 (String.length s - 1) s.

(** [s.substring(0, n)] *)
Definition substringTo (n : nat) (s : string) : string := substring 0 n s.

(** [s.split(sep)] for a separator of one code unit. *)
Fixpoint split (sep : ascii) (s : string) : list string :=
  match s with
  | EmptyString => [""]
  | String c rest =>
      if Ascii.eqb c sep then "" :: split sep rest
      else match split sep rest with
           | [] => [String c ""]
           | piece :: pieces => String c piece :: pieces
           end
  end.

(** The size of [new Blob([s])] for a string of the Latin-1 range: the
    length of the UTF-8 encoding.  A code unit below U+0080 takes one
    byte, the others of the range two.  [UTF16.byteLength] is the size for
    texts of any code units. *)
Definition utf8Size (c : ascii) : nat :=
  if (codeUnit c <? 128)%N then 1%nat else 2%nat.

Fixpoint byteLength (s : string) : nat :=
  match s with
  | EmptyString => 0%nat
  | String c rest => (utf8Size c + byteLength rest)%nat
  end.

Definition isAscii (c : ascii) : bool := (codeUnit c <? 128)%N.

Fixpoint allAscii (s : string) : bool :=
  match s with
  | EmptyString => true
  | String c rest => isAscii c && allAscii rest
  end.

Definition isDigit (c : ascii) : bool :=
  ((48 <=? codeUnit c) && (codeUnit c <=? 57))%N.

Definition digitValue (c : ascii) : N := (codeUnit c - 48)%N.

(** White space and line terminators of the Latin-1 range. *)
Definition isWhiteSpace (c : ascii) : bool :=
  let u := codeUnit c in
  (((9 <=? u) && (u <=? 13)) || (u =? 32) || (u =? 160))%N.

Fixpoint trimStart (s : string) : string :=
  match s with
  | String c rest => if isWhiteSpace c then trimStart rest else s
  | EmptyString => s
  end.

Fixpoint zeros (k : nat) : string :=
  match k with
  | O => ""
  | S k' => String "0" (zeros k')
  end.

(** The decimal digits of a natural number, ["0"] for zero. *)
Definition digitsOf (n : Z) : string :=
  NilEmpty.string_of_uint (N.to_uint (Z.to_N n)).

(** [s.trimEnd()] and [s.trim()] *)
Fixpoint trimEnd (s : string) : string :=
  match s with
  | EmptyString => EmptyString
  | String c rest =>
      match trimEnd rest with
      | EmptyString => if isWhiteSpace c then EmptyString else String c ""
      | kept => String c kept
      end
  end.

Definition trim (s : string) : string := trimEnd (trimStart s).

End JSString.
Export JSString.

(* ================================================================== *)
(** * Number <-> String conversions of the runtime *)
(* ================================================================== *)

Module Conversions.

Definition len (s : string) : Z := Z.of_nat (String.length s).

(** [floor (log10 (p / q))] for positive [p] and [q]. *)
Definition ilog10 (p q : Z) : Z :=
  if q <=? p then len (digitsOf (p / q)) - 1
  else - len (digitsOf ((q - 1) / p)).

(** [(p / q) / 10^t] as a fraction. *)
Definition scaled (p q t : Z) : Z * Z :=
  if 0 <=? t then (p, q * 10 ^ t) else (p * 10 ^ (- t), q).

(** The nearest integer to [a / b], halves going up. *)
Definition nearest (a b : Z) : Z := (2 * a + b) / (2 * b).

(** The [k]-digit decimals [s * 10^t] next to [p / q] that read back as
    [v]; of two, the closer one, and the even one on a tie. *)
Definition candidate (v : number) (p q E k : Z) : option (Z * Z) :=
  let t := E - k + 1 in
  let '(a, b) := scaled p q t in
  let lo := a / b in
  let hi := lo + 1 in
  let pick (s : Z) := if s =? 10 ^ k then (s / 10, t + 1) else (s, t) in
  match same (ofDecimal false (Z.to_N lo) t) v,
        same (ofDecimal false (Z.to_N hi) t) v with
  | true, false => Some (pick lo)
  | false, true => Some (pick hi)
  | true, true =>
      match 2 * (a mod b) ?= b with
      | Lt => Some (pick lo)
      | Gt => Some (pick hi)
      | Eq => Some (pick (if Z.even lo then lo else hi))
      end
  | false, false => None
  end.

(** The shortest decimal that reads back as [v], trying 1, 2, ... digits;
    17 digits always identify a binary64. *)
Fixpoint shortest (fuel : nat) (v : number) (p q E k : Z) : Z * Z :=
  match fuel with
  | O => let t := E - k + 1 in
         let '(a, b) := scaled p q t in (nearest a b, t)
  | S fuel' =>
      match candidate v p q E k with
      | Some st => st
      | None => shortest fuel' v p q E (k + 1)
      end
  end.

Definition exponentPart (c : Z) : string :=
  "e" ++ (if 0 <=? c then "+" else "-") ++ digitsOf (Z.abs c).

(** Number::toString for a positive finite value [m * 2^e]. *)
Definition toStringPositive (m : positive) (e : Z) : string :=
  let '(p, q) := fraction m e in
  let '(s, t) := shortest 17 (S754_finite false m e) p q (ilog10 p q) 1 in
  let ds := digitsOf s in
  let k := len ds in
  let n := k + t in
  if (-5 <=? n) && (n <=? 21) then
    if k <=? n then ds ++ zeros (Z.to_nat (n - k))
    else if 0 <? n then
      substring 0 (Z.to_nat n) ds ++ "."
        ++ substring (Z.to_nat n) (Z.to_nat (k - n)) ds
    else "0." ++ zeros (Z.to_nat (- n)) ++ ds
  else if k =? 1 then ds ++ exponentPart (n - 1)
  else substring 0 1 ds ++ "." ++ substring 1 (Z.to_nat (k - 1)) ds
         ++ exponentPart (n - 1).

(** [x.toString()] *)
Definition toString (x : number) : string :=
  match x with
  | S754_nan => "NaN"
  | S754_zero _ => "0"
  | S754_infinity s => if s then "-Infinity" else "Infinity"
  | S754_finite s m e =>
      (if s then "-" else "") ++ toStringPositive m e
  end.

(** The digits of [n / 10^f] with [f] fraction digits. *)
Definition fixedDigits (n f : Z) : string :=
  let m := digitsOf n in
  if f =? 0 then m
  else
    let m := if len m <=? f then zeros (Z.to_nat (f + 1 - len m)) ++ m
             else m in
    let k := len m in
    substring 0 (Z.to_nat (k - f)) m ++ "."
      ++ substring (Z.to_nat (k - f)) (Z.to_nat f) m.

(** [x.toFixed(f)] for [0 <= f <= 100]. *)
Definition toFixed (x : number) (f : Z) : string :=
  match x with
  | S754_zero _ => fixedDigits 0 f
  | S754_finite s m e =>
      let '(p, q) := fraction m e in
      (if s then "-" else "")
      ++ (if 10 ^ 21 * q <=? p then toStringPositive m e
          else fixedDigits (nearest (p * 10 ^ f) q) f)
  | _ => toString x
  end.

(** [x.toExponential(f)] for [0 <= f <= 100]. *)
Definition toExponential (x : number) (f : Z) : string :=
  let render (m : string) (e : Z) :=
    (if f =? 0 then m
     else substring 0 1 m ++ "." ++ substring 1 (Z.to_nat f) m)
    ++ exponentPart e in
  match x with
  | S754_zero _ => render (zeros (Z.to_nat (f + 1))) 0
  | S754_finite s m e =>
      let '(p, q) := fraction m e in
      let E := ilog10 p q in
      let '(a, b) := scaled p q (E - f) in
      let n := nearest a b in
      (if s then "-" else "")
      ++ (if n =? 10 ^ (f + 1) then render (digitsOf (10 ^ f)) (E + 1)
          else render (digitsOf n) E)
  | _ => toString x
  end.

(** Reads decimal digits: the accumulated value, how many digits were
    read, and the rest of the string. *)
Fixpoint scanDigits (s : string) (acc : N) (count : nat)
  : N * nat * string :=
  match s with
  | String c rest =>
      if isDigit c
      then scanDigits rest (10 * acc + digitValue c)%N (S count)
      else (acc, count, s)
  | EmptyString => (acc, count, s)
  end.

(** An optional sign: whether it is a minus, and the text after it. *)
Definition scanSign (s : string) : bool * string :=
  match s with
  | String c rest =>
      if Ascii.eqb c "-" then (true, rest)
      else if Ascii.eqb c "+" then (false, rest)
      else (false, s)
  | EmptyString => (false, s)
  end.

(** An exponent part [e], [e+] or [e-] followed by digits, if present. *)
Definition scanExponent (s : string) : Z * string :=
  match s with
  | String c rest =>
      if Ascii.eqb c "e" || Ascii.eqb c "E" then
        let '(neg, rest') := scanSign rest in
        let '(v, count, rest'') := scanDigits rest' 0%N 0%nat in
        match count with
        | O => (0, s)
        | S _ => (if neg then - Z.of_N v else Z.of_N v, rest'')
        end
      else (0, s)
  | EmptyString => (0, s)
  end.

(** Digits with an optional fraction, or a fraction alone: the digits read
    as one integer, the number of fraction digits, and the text after. *)
Definition scanMantissa (body : string) : option (N * Z * string) :=
  let '(ip, ni, r1) := scanDigits body 0%N 0%nat in
  let whole :=
    match ni with
    | O => None
    | S _ => Some (ip, 0, r1)
    end in
  match r1 with
  | String c r1' =>
      if Ascii.eqb c "." then
        let '(m, nf, r2) := scanDigits r1' ip 0%nat in
        match (ni + nf)%nat with
        | O => None
        | S _ => Some (m, Z.of_nat nf, r2)
        end
      else whole
  | EmptyString => whole
  end.

(** The longest prefix that is a StrUnsignedDecimalLiteral, read with the
    sign [neg]. *)
Definition scanUnsigned (neg : bool) (body : string)
  : option (number * string) :=
  if String.prefix "Infinity" body
  then Some (S754_infinity neg, substring 8 (String.length body - 8) body)
  else
    match scanMantissa body with
    | None => None
    | Some (m, nf, r2) =>
        let '(ex, r3) := scanExponent r2 in
        Some (ofDecimal neg m (ex - nf), r3)
    end.

(** The longest prefix that is a StrDecimalLiteral, with its value and
    the text after it. *)
Definition scanDecimalLiteral (s : string) : option (number * string) :=
  let '(neg, body) := scanSign s in scanUnsigned neg body.

(** The global [parseFloat]. *)
Definition parseFloat (s : string) : number :=
  match scanDecimalLiteral (trimStart s) with
  | Some (v, _) => v
  | None => NaN
  end.

(** The value of a hexadecimal digit. *)
Definition hexDigitValue (c : ascii) : option N :=
  let u := codeUnit c in
  if isDigit c then Some (u - 48)%N
  else if ((97 <=? u) && (u <=? 102))%N then Some (u - 87)%N
  else if ((65 <=? u) && (u <=? 70))%N then Some (u - 55)%N
  else None.

(** Reads hexadecimal digits: the accumulated value and how many digits
    were read. *)
Fixpoint scanHexDigits (s : string) (acc : N) (count : nat) : N * nat :=
  match s with
  | String c rest =>
      match hexDigitValue c with
      | Some d => scanHexDigits rest (16 * acc + d)%N (S count)
      | None => (acc, count)
      end
  | EmptyString => (acc, count)
  end.

(** The global [parseInt] called with no radix: an optional sign, then
    hexadecimal digits after [0x] or [0X], decimal digits otherwise; the
    digits are read exactly and the integer rounded to the nearest
    Number. *)
Definition parseInt (s : string) : number :=
  let '(neg, body) := scanSign (trimStart s) in
  let '(magnitude, count) :=
    if String.prefix "0x" body || String.prefix "0X" body
    then scanHexDigits (substring 2 (String.length body - 2) body) 0%N 0%nat
    else let '(v, c, _) := scanDigits body 0%N 0%nat in (v, c) in
  match count with
  | O => NaN
  | S _ => ofDecimal neg magnitude 0
  end.

(** The whole string is a numeric literal. *)
Definition isNumericLiteral (s : string) : bool :=
  match scanDecimalLiteral s with
  | Some (_, EmptyString) => true
  | _ => false
  end.

End Conversions.
Export Conversions.

(* ================================================================== *)
(** * Texts of any code units *)
(* ================================================================== *)

(** The value of a form field and the key of a key press are sequences of
    arbitrary UTF-16 code units.  [widen] takes the strings above into
    them. *)
Module UTF16.

(** A code unit, as its high and its low byte. *)
Definition unit16 : Type := (ascii * ascii)%type.

Definition text : Type := list unit16.

Definition highByte (u : unit16) : N := codeUnit (fst u).

Definition lowByte (u : unit16) : N := codeUnit (snd u).

Fixpoint widen (s : string) : text :=
  match s with
  | EmptyString => []
  | String c rest => (Ascii.zero, c) :: widen rest
  end.

(** The longest prefix of code units below U+0100, as a string. *)
Fixpoint narrowPrefix (t : text) : string :=
  match t with
  | u :: rest =>
      if (highByte u =? 0)%N then String (snd u) (narrowPrefix rest)
      else EmptyString
  | [] => EmptyString
  end.

(** [a === b] on texts. *)
Fixpoint eqb (a b : text) : bool :=
  match a, b with
  | [], [] => true
  | u :: a', v :: b' =>
      Ascii.eqb (fst u) (fst v) && Ascii.eqb (snd u) (snd v) && eqb a' b'
  | _, _ => false
  end.

(** White space and line terminators: U+0009 .. U+000D, U+0020, U+00A0,
    U+1680, U+2000 .. U+200A, U+2028, U+2029, U+202F, U+205F, U+3000 and
    U+FEFF. *)
Definition isWhiteSpace (u : unit16) : bool :=
  let h := highByte u in
  let l := lowByte u in
  (if h =? 0 then JSString.isWhiteSpace (snd u)
   else if h =? 22 then l =? 128
   else if h =? 32
   then (l <=? 10) || (l =? 40) || (l =? 41) || (l =? 47) || (l =? 95)
   else if h =? 48 then l =? 0
   else if h =? 254 then l =? 255
   else false)%N.

Fixpoint trimStart (t : text) : text :=
  match t with
  | u :: rest => if isWhiteSpace u then trimStart rest else t
  | [] => t
  end.

Fixpoint trimEnd (t : text) : text :=
  match t with
  | [] => []
  | u :: rest =>
      match trimEnd rest with
      | [] => if isWhiteSpace u then [] else [u]
      | kept => u :: kept
      end
  end.

Definition trim (t : text) : text := trimEnd (trimStart t).

Definition isHighSurrogate (u : unit16) : bool :=
  ((216 <=? highByte u) && (highByte u <=? 219))%N.

Definition isLowSurrogate (u : unit16) : bool :=
  ((220 <=? highByte u) && (highByte u <=? 223))%N.

(** The size of [new Blob([t])]: the length of the UTF-8 encoding.  A
    code unit below U+0080 takes one byte, one below U+0800 two, a
    surrogate pair four, and every other code unit three, a surrogate
    without its partner being encoded as U+FFFD. *)
Fixpoint byteLength (t : text) : nat :=
  match t with
  | [] => 0%nat
  | u :: rest =>
      if isHighSurrogate u then
        match rest with
        | v :: rest' =>
            if isLowSurrogate v then (4 + byteLength rest')%nat
            else (3 + byteLength rest)%nat
        | [] => 3%nat
        end
      else if ((highByte u =? 0) && (lowByte u <? 128))%N
      then (1 + byteLength rest)%nat
      else if (highByte u <? 8)%N then (2 + byteLength rest)%nat
      else (3 + byteLength rest)%nat
  end.

(** The global [parseFloat] on a text: after the white space in front, the
    longest decimal literal.  The characters of a literal are below
    U+0100, so the scan is that of the string before the first code unit
    from U+0100 on. *)
Definition parseFloat (t : text) : number :=
  match scanDecimalLiteral (narrowPrefix (trimStart t)) with
  | Some (v, _) => v
  | None => NaN
  end.

End UTF16.

(* ================================================================== *)
(** * Values and object literals *)
(* ================================================================== *)

Module Runtime.

(** The values the two components hand around.  [VBuiltin name] is the
    function or object that [Object.prototype] holds under [name]. *)
Inductive value :=
| VUndefined
| VNull
| VNumber (n : number)
| VString (s : string)
| VBuiltin (name : string).

(** The outcome of [object[key]] on an object literal. *)
Inductive property (A : Type) :=
| Own (a : A)
| Inherited (name : string)
| Absent.
Arguments Own {A} a.
Arguments Inherited {A} name.
Arguments Absent {A}.

(** The properties every object literal inherits from
    [Object.prototype]. *)
Definition objectPrototype : list string :=
  [ "constructor"; "hasOwnProperty"; "isPrototypeOf";
    "propertyIsEnumerable"; "toLocaleString"; "toString"; "valueOf";
    "__proto__"; "__defineGetter__"; "__defineSetter__";
    "__lookupGetter__"; "__lookupSetter__" ].

Fixpoint ownProperty {A : Type} (own : list (string * A)) (key : string)
  : option A :=
  match own with
  | [] => None
  | (k, a) :: rest => if String.eqb k key then Some a else ownProperty rest key
  end.

(** [object[key]]: the object's own properties first, then the
    prototype's. *)
Definition getProperty {A : Type} (own : list (string * A)) (key : string)
  : property A :=
  match ownProperty own key with
  | Some a => Own a
  | None =>
      if existsb (String.eqb key) objectPrototype then Inherited key
      else Absent
  end.

(** [String(member)] for the members of [Object.prototype], as V8 prints
    them (Node, on which the tests of the repository run): the built-in
    functions by name, and the prototype object itself, which is what
    [__proto__] gives. *)
Definition memberText (name : string) : string :=
  (if name =? "__proto__" then "[object Object]"
   else "function " ++ (if name =? "constructor" then "Object" else name)
        ++ "() { [native code] }")%string.

End Runtime.
Export Runtime.

(* ================================================================== *)
(** * js/components/calculator.js *)
(* ================================================================== *)

Module Calculator.

Local Open Scope string_scope.

(** The display of the page, as far as the engine uses it.
    [fitsDisplayLines] is the measurement of [canFitInDisplay] on the
    result element: whether a text, laid out at the font size its length
    gives, stays within [MAX_DISPLAY_LINES] lines
    ([scrollHeight <= maxHeight]).  [fitsMember name shown] is the same
    measurement when [canFitInDisplay] is handed the member [name] of
    [Object.prototype] in place of a text: the element shows the text of
    the member at the font size the [length] property of the member gives,
    or, where that is no size, at the one left by the text [shown] so far.
    [expressionElement] tells whether [initCalculator] found the
    expression element, [displayExpression], as well. *)
Record Display := {
  fitsDisplayLines : string -> bool;
  fitsMember : string -> string -> bool;
  expressionElement : bool
}.

(** A display that measures texts with [fits], has room for no member of
    [Object.prototype], and comes with its expression element. *)
Definition displayOf (fits : string -> bool) : Display :=
  {| fitsDisplayLines := fits;
     fitsMember := fun _ _ => false;
     expressionElement := true |}.

(** The module-level variables [currentInput], [expression] and
    [shouldResetInput]. *)
Record CalculatorSession := mkSession {
  currentInput : string;
  expression : string;
  shouldResetInput : bool
}.

Definition initialSession : CalculatorSession :=
  mkSession "0" "" false.

Definition withInput (input : string) (st : CalculatorSession) :=
  mkSession input (expression st) (shouldResetInput st).

Definition withReset (flag : bool) (st : CalculatorSession) :=
  mkSession (currentInput st) (expression st) flag.

Definition evaluateOperation (firstNum : number) (operator : string)
    (secondNum : number) : value :=
  if operator =? "+" then VNumber (firstNum + secondNum)%num
  else if operator =? "-" then VNumber (firstNum - secondNum)%num
  else if operator =? MULTIPLY then VNumber (firstNum * secondNum)%num
  else if operator =? DIVIDE then
    if negb (strictEq secondNum zero)
    then VNumber (firstNum / secondNum)%num
    else VString "Error"
  else VNumber NaN.

Definition keyMap : list (string * string) :=
  [ ("0", "0"); ("1", "1"); ("2", "2"); ("3", "3"); ("4", "4");
    ("5", "5"); ("6", "6"); ("7", "7"); ("8", "8"); ("9", "9");
    (".", "."); (",", ".");
    ("+", "+"); ("-", "-");
    ("*", MULTIPLY); ("x", MULTIPLY); ("X", MULTIPLY);
    ("/", DIVIDE);
    ("Enter", "="); ("=", "=");
    ("Escape", "C"); ("c", "C"); ("C", "C"); ("Delete", "C");
    ("%", "%");
    ("Backspace", "Backspace") ].

(** [keyMap[key] || null] *)
Definition mapKeyToValue (key : string) : value :=
  match getProperty keyMap key with
  | Own v => if v =? "" then VNull else VString v
  | Inherited name => VBuiltin name
  | Absent => VNull
  end.

Section Session.

(** [displayResult] is [null] until [initCalculator] has found the
    element. *)
Variable displayResult : option Display.

Definition canFitInDisplay (input : string) : bool :=
  match displayResult with
  | None => true
  | Some element => fitsDisplayLines element input
  end.

(** [updateDisplay] writes to [displayResult] and to [displayExpression];
    when one of them is [null] it throws a TypeError, which ends the
    handler that called it.  The three variables of the session keep what
    was assigned before. *)
Definition updateDisplayThrows : bool :=
  match displayResult with
  | None => true
  | Some element => negb (expressionElement element)
  end.

Definition inputNumber (st : CalculatorSession) (num : string)
  : CalculatorSession :=
  let '(newInput, st) :=
    if shouldResetInput st then (Some num, withReset false st)
    else if (currentInput st =? "0") && negb (num =? ".")
    then (Some num, st)
    else if (num =? ".") && includes (currentInput st) "."
    then (None, st)
    else (Some (currentInput st ++ num), st) in
  match newInput with
  | None => st
  | Some newInput =>
      if negb (canFitInDisplay newInput) then st
      else withInput newInput st
  end.

(** The loop of [calculate] that drops trailing characters until the
    text fits; it runs at most once per character. *)
Fixpoint truncateToFit (fuel : nat) (truncated : string) : string :=
  match fuel with
  | O => truncated
  | S fuel' =>
      if (0 <? String.length truncated)%nat
         && negb (canFitInDisplay truncated)
      then truncateToFit fuel' (sliceDropLast truncated)
      else truncated
  end.

Definition calculate (st : CalculatorSession) : CalculatorSession :=
  if expression st =? "" then st
  else
    let parts := split " " (expression st) in
    let firstNum := parseFloat (hd "" parts) in
    let secondNum := parseFloat (currentInput st) in
    let result :=
      match nth_error parts 1 with
      | Some operator => evaluateOperation firstNum operator secondNum
      | None => VNumber NaN
      end in
    let input :=
      match result with
      | VNumber result =>
          let roundedResult :=
            (round (result * ofZ 1000000000) / ofZ 1000000000)%num in
          let resultString := toString roundedResult in
          if negb (canFitInDisplay resultString) then
            let truncated :=
              truncateToFit (String.length resultString) resultString in
            if truncated =? "" then "0" else truncated
          else resultString
      | VString text => text
      | _ => currentInput st  (* no other kind of value comes back *)
      end in
    mkSession input "" true.

(** [calculate], called with a pending expression, ends in
    [updateDisplay]; when that throws, [inputOperator] is left at the call
    and the new expression is not stored. *)
Definition inputOperator (st : CalculatorSession) (op : string)
  : CalculatorSession :=
  if negb (expression st =? "") && negb (shouldResetInput st) then
    let st := calculate st in
    if updateDisplayThrows then st
    else mkSession (currentInput st) (currentInput st ++ " " ++ op) true
  else mkSession (currentInput st) (currentInput st ++ " " ++ op) true.

Definition clear (st : CalculatorSession) : CalculatorSession :=
  mkSession "0" "" false.

Definition toggleSign (st : CalculatorSession) : CalculatorSession :=
  if negb (currentInput st =? "0") then
    let newInput :=
      if startsWith (currentInput st) "-"
      then sliceFrom1 (currentInput st)
      else "-" ++ currentInput st in
    if negb (canFitInDisplay newInput) then st
    else withInput newInput st
  else st.

Definition percentage (st : CalculatorSession) : CalculatorSession :=
  let num := parseFloat (currentInput st) in
  withInput (toString (num / ofZ 100)%num) st.

Definition backspace (st : CalculatorSession) : CalculatorSession :=
  if (1 <? String.length (currentInput st))%nat
  then withInput (sliceDropLast (currentInput st)) st
  else withInput "0" st.

Definition handleButtonClick (st : CalculatorSession) (value : string)
  : CalculatorSession :=
  if value =? "C" then clear st
  else if value =? PLUSMINUS then toggleSign st
  else if value =? "%" then percentage st
  else if (value =? "+") || (value =? "-")
          || (value =? MULTIPLY) || (value =? DIVIDE)
  then inputOperator st value
  else if value =? "=" then calculate st
  else inputNumber st value.

(** What the page sends to the engine: a click on a button
    ([handleButtonClick] with the text of the button), or the Backspace
    key, which [handleKeyboard] hands to [backspace]. *)
Inductive Action :=
| Click (value : string)
| BackspaceKey.

Definition step (st : CalculatorSession) (a : Action)
  : CalculatorSession :=
  match a with
  | Click value => handleButtonClick st value
  | BackspaceKey => backspace st
  end.

Definition run (st : CalculatorSession) (actions : list Action)
  : CalculatorSession :=
  fold_left step actions st.

(** A [keydown] event, as far as [handleKeyboard] reads it: the tag name
    of the target element, if there is one, and the key. *)
Record KeyboardEvent := mkKeyboardEvent {
  targetTagName : option string;
  key : string
}.

(** What [handleKeyboard] does with an event: nothing; or
    [preventDefault] and a call that leaves the session [st]; or
    [preventDefault] and a call that leaves the member [name] of
    [Object.prototype], which is no text, in [currentInput], beside the
    expression given and a cleared reset flag. *)
Inductive KeyOutcome :=
| Ignored
| Updated (st : CalculatorSession)
| MemberStored (name : string) (expression : string).

(** [handleButtonClick(member)] for a member of [Object.prototype]: no
    case of the switch is strictly equal to it, so it goes to
    [inputNumber], where it is no ".": it takes the place of the current
    input after a reset and of "0", and its text is appended
    otherwise. *)
Definition inputMember (st : CalculatorSession) (name : string)
  : KeyOutcome :=
  if shouldResetInput st || (currentInput st =? "0") then
    let fits :=
      match displayResult with
      | None => true
      | Some element => fitsMember element name (currentInput st)
      end in
    if negb fits then Updated (withReset false st)
    else MemberStored name (expression st)
  else
    let newInput := currentInput st ++ memberText name in
    if negb (canFitInDisplay newInput) then Updated st
    else Updated (withInput newInput st).

Definition handleKeyboard (st : CalculatorSession) (event : KeyboardEvent)
  : KeyOutcome :=
  let inField :=
    match targetTagName event with
    | Some tagName =>
        (tagName =? "INPUT") || (tagName =? "TEXTAREA")
        || (tagName =? "SELECT")
    | None => false
    end in
  if inField then Ignored
  else
    match mapKeyToValue (key event) with
    | VNull => Ignored
    | VString value =>
        if value =? "Backspace" then Updated (backspace st)
        else Updated (handleButtonClick st value)
    | VBuiltin name => inputMember st name
    | _ => Ignored  (* no other kind of value comes back *)
    end.

End Session.

(** The texts of the buttons of the calculator. *)
Definition buttons : list string :=
  [ "0"; "1"; "2"; "3"; "4"; "5"; "6"; "7"; "8"; "9"; ".";
    "+"; "-"; MULTIPLY; DIVIDE; "C"; PLUSMINUS; "%"; "=" ].

Definition inVocabulary (a : Action) : Prop :=
  match a with
  | Click value => In value buttons
  | BackspaceKey => True
  end.

End Calculator.

(* ================================================================== *)
(** * The earlier listing of the calculator *)
(* ================================================================== *)

(** The listing of the component before [evaluateOperation] was split
    off: [calculate] switches on the operator itself and returns at once
    on any other operator. *)
Module Earlier.

Local Open Scope string_scope.

Section Session.

Variable displayResult : option Calculator.Display.

Definition calculate (st : Calculator.CalculatorSession)
  : Calculator.CalculatorSession :=
  if Calculator.expression st =? "" then st
  else
    let parts := split " " (Calculator.expression st) in
    let firstNum := parseFloat (hd "" parts) in
    let secondNum := parseFloat (Calculator.currentInput st) in
    let result :=
      match nth_error parts 1 with
      | Some operator =>
          if operator =? "+" then Some (VNumber (firstNum + secondNum)%num)
          else if operator =? "-"
          then Some (VNumber (firstNum - secondNum)%num)
          else if operator =? MULTIPLY
          then Some (VNumber (firstNum * secondNum)%num)
          else if operator =? DIVIDE then
            Some (if negb (strictEq secondNum zero)
                  then VNumber (firstNum / secondNum)%num
                  else VString "Error")
          else None
      | None => None
      end in
    match result with
    | None => st
    | Some (VNumber result) =>
        let result :=
          (round (result * ofZ 1000000000) / ofZ 1000000000)%num in
        let resultString := toString result in
        let input :=
          if negb (Calculator.canFitInDisplay displayResult resultString)
          then
            let truncated :=
              Calculator.truncateToFit displayResult
                (String.length resultString) resultString in
            if truncated =? "" then "0" else truncated
          else resultString in
        Calculator.mkSession input "" true
    | Some (VString text) => Calculator.mkSession text "" true
    | Some _ => st  (* no other kind of value is built above *)
    end.

End Session.

End Earlier.

(* ================================================================== *)
(** * js/components/converter.js *)
(* ================================================================== *)

Module Converter.

Local Open Scope string_scope.

(** A decimal literal of the source: [digits * 10^exp10], rounded to the
    nearest Number. *)
Definition literal (digits : N) (exp10 : Z) : number :=
  ofDecimal false digits exp10.

(** An entry of a unit list; the temperature units have no [factor]. *)
Record UnitDefinition := mkUnit {
  name : string;
  abbr : string;
  factor : option number
}.

Definition linearUnit (name abbr : string) (digits : N) (exp10 : Z) :=
  mkUnit name abbr (Some (literal digits exp10)).

Definition UNIT_DEFINITIONS : list (string * list UnitDefinition) :=
  [ ("length",
      [ linearUnit "Millimeter" "mm" 1 (-3);
        linearUnit "Centimeter" "cm" 1 (-2);
        linearUnit "Decimeter" "dm" 1 (-1);
        linearUnit "Meter" "m" 1 0;
        linearUnit "Decameter" "dam" 10 0;
        linearUnit "Hectometer" "hm" 100 0;
        linearUnit "Kilometer" "km" 1000 0;
        linearUnit "Inch" "in" 254 (-4);
        linearUnit "Foot" "ft" 3048 (-4);
        linearUnit "Yard" "yd" 9144 (-4);
        linearUnit "Mile" "mi" 1609344 (-3);
        linearUnit "Nautical Mile" "nmi" 1852 0 ]);
    ("mass",
      [ linearUnit "Milligram" "mg" 1 (-3);
        linearUnit "Centigram" "cg" 1 (-2);
        linearUnit "Decigram" "dg" 1 (-1);
        linearUnit "Gram" "g" 1 0;
        linearUnit "Decagram" "dag" 10 0;
        linearUnit "Hectogram" "hg" 100 0;
        linearUnit "Kilogram" "kg" 1000 0;
        linearUnit "Metric Ton" "t" 1000000 0;
        linearUnit "Ounce" "oz" 283495 (-4);
        linearUnit "Pound" "lb" 453592 (-3);
        linearUnit "Stone" "st" 635029 (-2) ]);
    ("temperature",
      [ mkUnit "Celsius" (DEGREE ++ "C") None;
        mkUnit "Fahrenheit" (DEGREE ++ "F") None;
        mkUnit "Kelvin" "K" None ]);
    ("volume",
      [ linearUnit "Milliliter" "ml" 1 (-3);
        linearUnit "Centiliter" "cl" 1 (-2);
        linearUnit "Deciliter" "dl" 1 (-1);
        linearUnit "Liter" "L" 1 0;
        linearUnit "Decaliter" "dal" 10 0;
        linearUnit "Hectoliter" "hl" 100 0;
        linearUnit "Cubic Meter" ("m" ++ CUBED) 1000 0;
        linearUnit "Fluid Ounce" "fl oz" 295735 (-7);
        linearUnit "Cup" "cup" 236588 (-6);
        linearUnit "Pint" "pt" 473176 (-6);
        linearUnit "Quart" "qt" 946353 (-6);
        linearUnit "Gallon" "gal" 378541 (-5) ]);
    ("time",
      [ linearUnit "Nanosecond" "ns" 1 (-9);
        linearUnit "Microsecond" (MICRO ++ "s") 1 (-6);
        linearUnit "Millisecond" "ms" 1 (-3);
        linearUnit "Second" "s" 1 0;
        linearUnit "Minute" "min" 60 0;
        linearUnit "Hour" "h" 3600 0;
        linearUnit "Day" "d" 86400 0;
        linearUnit "Week" "wk" 604800 0;
        linearUnit "Month" "mo" 2629746 0;
        linearUnit "Year" "yr" 31556952 0 ]) ].

(** The integer a Number denotes as an array index: the Number must be a
    non-negative integer ([-0] reads as [0]). *)
Definition arrayIndex (x : number) : option Z :=
  match x with
  | S754_zero _ => Some 0%Z
  | S754_finite false m e =>
      if (0 <=? e)%Z then Some (Z.pos m * 2 ^ e)%Z
      else if (Z.pos m mod 2 ^ (- e) =? 0)%Z
      then Some (Z.pos m / 2 ^ (- e))%Z
      else None
  | _ => None
  end.

(** [units[index]]; [None] stands for [undefined]. *)
Definition elementAt {A : Type} (units : list A) (index : number)
  : option A :=
  match arrayIndex index with
  | Some i =>
      if (i <? Z.of_nat (List.length units))%Z
      then nth_error units (Z.to_nat i)
      else None
  | None => None
  end.

(** [undefined] in arithmetic is [NaN]. *)
Definition toNumber (x : option number) : number :=
  match x with
  | Some n => n
  | None => NaN
  end.

Definition convertValue (value fromIndex toIndex : number)
    (category : string) : Runtime.value :=
  if isNaN value then VNumber zero
  else
    match getProperty UNIT_DEFINITIONS category with
    | Absent => VNumber zero
    | Inherited _ =>
        (* a member of Object.prototype is truthy, but has no element
           at a numeric index *)
        VNumber zero
    | Own units =>
        match elementAt units fromIndex, elementAt units toIndex with
        | Some fromUnit, Some toUnit =>
            let standard :=
              let baseValue := (value * toNumber (factor fromUnit))%num in
              VNumber (baseValue / toNumber (factor toUnit))%num in
            if category =? "temperature" then
              let celsius :=
                if abbr fromUnit =? DEGREE ++ "C" then Some value
                else if abbr fromUnit =? DEGREE ++ "F"
                then Some ((value - ofZ 32) * ofZ 5 / ofZ 9)%num
                else if abbr fromUnit =? "K"
                then Some (value - literal 27315 (-2))%num
                else None in
              if abbr toUnit =? DEGREE ++ "C" then
                match celsius with
                | Some c => VNumber c
                | None => VUndefined
                end
              else if abbr toUnit =? DEGREE ++ "F"
              then VNumber ((toNumber celsius * ofZ 9 / ofZ 5) + ofZ 32)%num
              else if abbr toUnit =? "K"
              then VNumber (toNumber celsius + literal 27315 (-2))%num
              else standard
            else standard
        | _, _ => VNumber zero
        end
    end.

(** [getByteSize] on the strings the component builds; on the text of
    the input field it is [FieldText.getByteSize]. *)
Definition getByteSize (str : string) : nat := byteLength str.

(** The loop of [limitOutputSize] over [precision = 10, 9, ..., 0];
    [count] is [precision + 1]. *)
Fixpoint reducePrecision (count : nat) (value : number)
    (valueString : string) : string :=
  match count with
  | O => valueString
  | S precision =>
      if (8 <? getByteSize valueString)%nat
      then reducePrecision precision value
             (toString (parseFloat (toFixed value (Z.of_nat precision))))
      else valueString
  end.

Definition limitOutputSize (value : number) : string :=
  if isNaN value then ""
  else
    let valueString := toString value in
    if (8 <? getByteSize valueString)%nat then
      let valueString := reducePrecision 11 value valueString in
      if (8 <? getByteSize valueString)%nat then
        let valueString := toExponential value 2 in
        if (8 <? getByteSize valueString)%nat
        then substringTo 7 valueString
        else valueString
      else valueString
    else valueString.

(** [validateAndLimitInput], as a function of the text of the input
    field, for a text of the Latin-1 range; [FieldText.validateAndLimitInput]
    is the function on every text. *)
Definition validateAndLimitInput (inputText : string) : string :=
  let inputString := trim inputText in
  if (inputString =? "") || (inputString =? "-") || (inputString =? ".")
  then inputString
  else
    let numValue := parseFloat inputString in
    if isNaN numValue then
      if (getByteSize inputString <=? 8)%nat then inputString else ""
    else
      let numString := toString numValue in
      if (8 <? getByteSize numString)%nat then
        let numString := reducePrecision 11 numValue numString in
        if (8 <? getByteSize numString)%nat then
          let numString := toExponential numValue 2 in
          if (8 <? getByteSize numString)%nat
          then substringTo 7 numString
          else numString
        else numString
      else numString.

(** [updateConversion], as a function of the text of the input field, the
    two selected indices and the current category; it returns the texts it
    leaves in the input field and in the output field. *)
Definition updateConversion (inputText : string)
    (fromIndex toIndex : number) (currentCategory : string)
  : string * string :=
  let validatedInput := validateAndLimitInput inputText in
  if validatedInput =? "" then (validatedInput, "")
  else
    let value := parseFloat validatedInput in
    let result :=
      match convertValue value fromIndex toIndex currentCategory with
      | VNumber result => result
      | _ => NaN  (* [undefined] in arithmetic *)
      end in
    let roundedResult :=
      (round (result * ofZ 1000000000) / ofZ 1000000000)%num in
    (validatedInput, limitOutputSize roundedResult).

Definition allowedKeys : list string :=
  [ "Backspace"; "Delete"; "ArrowLeft"; "ArrowRight"; "ArrowUp";
    "ArrowDown"; "Tab"; "Enter"; "Home"; "End" ].

(** An [option] element of a unit selector. *)
Record OptionElement := mkOption {
  optionValue : string;
  textContent : string
}.

(** What [populateUnitSelectors] leaves in the two selectors: their
    options and the values it assigns to them, if it assigns any. *)
Record UnitSelectors := mkSelectors {
  inputOptions : list OptionElement;
  outputOptions : list OptionElement;
  inputUnitValue : option string;
  outputUnitValue : option string
}.

(** The options [units.forEach] appends to a selector, from [index] on. *)
Fixpoint unitOptions (index : Z) (units : list UnitDefinition)
  : list OptionElement :=
  match units with
  | [] => []
  | unit :: rest =>
      mkOption (toString (ofZ index)) (abbr unit ++ " (" ++ name unit ++ ")")
      :: unitOptions (index + 1) rest
  end.

(** [populateUnitSelectors] for the current category; [None] stands for
    the TypeError of [units.forEach] when the catalog has no list under
    that name. *)
Definition populateUnitSelectors (currentCategory : string)
  : option UnitSelectors :=
  match getProperty UNIT_DEFINITIONS currentCategory with
  | Own units =>
      let '(inputUnit, outputUnit) :=
        if (2 <=? List.length units)%nat then (Some "0", Some "1")
        else if (List.length units =? 1)%nat then (Some "0", Some "0")
        else (None, None) in
      Some (mkSelectors (unitOptions 0 units) (unitOptions 0 units)
              inputUnit outputUnit)
  | _ => None
  end.

(** ** On the text of the input field

    The input field holds any text.  [validateAndLimitInput] above is the
    function on the texts below U+0100; here it is on all texts, with the
    [keydown] listener of the field. *)
Module FieldText.

Import UTF16.

Definition getByteSize (str : text) : nat := UTF16.byteLength str.

Definition validateAndLimitInput (inputText : text) : text :=
  let inputString := UTF16.trim inputText in
  if UTF16.eqb inputString (widen "") || UTF16.eqb inputString (widen "-")
     || UTF16.eqb inputString (widen ".")
  then inputString
  else
    let numValue := UTF16.parseFloat inputString in
    if isNaN numValue then
      if (getByteSize inputString <=? 8)%nat then inputString else widen ""
    else
      let numString := toString numValue in
      if (8 <? getByteSize (widen numString))%nat then
        let numString := reducePrecision 11 numValue numString in
        if (8 <? getByteSize (widen numString))%nat then
          let numString := toExponential numValue 2 in
          if (8 <? getByteSize (widen numString))%nat
          then widen (substringTo 7 numString)
          else widen numString
        else widen numString
      else widen numString.

(** The text the input field would hold after [key] replaces the
    selection. *)
Definition testValue (currentValue : text)
    (selectionStart selectionEnd : nat) (key : text) : text :=
  let beforeSelection := firstn selectionStart currentValue in
  let afterSelection := skipn selectionEnd currentValue in
  (beforeSelection ++ key ++ afterSelection)%list.

(** The [keydown] listener of the input field: whether it calls
    [preventDefault]. *)
Definition keydownPrevented (currentValue : text)
    (selectionStart selectionEnd : nat) (key : text) : bool :=
  if existsb (fun allowed => UTF16.eqb (widen allowed) key) allowedKeys
  then false
  else
    let testValue := testValue currentValue selectionStart selectionEnd key in
    if (8 <? getByteSize testValue)%nat then true
    else
      let testNum := UTF16.parseFloat testValue in
      if negb (isNaN testNum)
      then (8 <? getByteSize (widen (toString testNum)))%nat
      else false.

End FieldText.

End Converter.

(* ================================================================== *)
(** * Vocabulary of the properties *)
(* ================================================================== *)

Import Calculator.
Import Converter.

Module Vocabulary.

Local Open Scope string_scope.

(** The four operator signs of the calculator. *)
Definition operators : list string := ["+"; "-"; MULTIPLY; DIVIDE].

(** The IEEE-754 binary64 operation an operator sign stands for, rounding
    to nearest, ties to even. *)
Definition ieee754 (op : string) : number -> number -> number :=
  if op =? "+" then SFadd 53 1024
  else if op =? "-" then SFsub 53 1024
  else if op =? MULTIPLY then SFmul 53 1024
  else SFdiv 53 1024.

(** The keys [keyMap] lists. *)
Definition mappedKeys : list string := map fst keyMap.

(** The digit buttons. *)
Definition digitTokens : list string :=
  ["0"; "1"; "2"; "3"; "4"; "5"; "6"; "7"; "8"; "9"].

(** The session right after an equals that divided by zero. *)
Definition errorSession : CalculatorSession := mkSession "Error" "" true.

(** What the data model allows as current input: a numeric literal, the
    fallback "0" or the error marker. *)
Definition validInput (s : string) : Prop :=
  isNumericLiteral s = true \/ s = "0" \/ s = "Error".

Fixpoint allDigits (s : string) : bool :=
  match s with
  | EmptyString => true
  | String c rest => isDigit c && allDigits rest
  end.

(** Digits, then possibly a point and more digits. *)
Fixpoint digitsThenFraction (s : string) : bool :=
  match s with
  | EmptyString => true
  | String c rest =>
      if isDigit c then digitsThenFraction rest
      else Ascii.eqb c "." && allDigits rest
  end.

(** At least one digit, then possibly a point and more digits. *)
Definition unsignedDecimal (s : string) : bool :=
  match s with
  | EmptyString => false
  | String c rest => isDigit c && digitsThenFraction rest
  end.

(** An unsigned decimal, possibly after a minus sign: the texts that digit
    and decimal entry and the sign toggle build. *)
Definition signedDecimal (s : string) : bool :=
  match s with
  | EmptyString => false
  | String c rest =>
      if Ascii.eqb c "-" then unsignedDecimal rest else unsignedDecimal s
  end.

(** The buttons that edit the operand: digits, decimal point, sign toggle,
    clear, and equals. *)
Definition editingTokens : list string :=
  digitTokens ++ ["."; PLUSMINUS; "C"; "="].

Definition editing (a : Action) : Prop :=
  match a with
  | Click value => In value editingTokens
  | BackspaceKey => False
  end.

(** No operator is pending, no reset is due, and the current input is a
    signed decimal. *)
Definition plainOperand (st : CalculatorSession) : Prop :=
  expression st = ""
  /\ shouldResetInput st = false
  /\ signedDecimal (currentInput st) = true.

(** The Number 1. *)
Definition one : number := ofZ 1.

(** The unit list the catalog has for a category. *)
Definition unitList (category : string) : option (list UnitDefinition) :=
  ownProperty UNIT_DEFINITIONS category.

Definition categories : list string :=
  ["length"; "mass"; "temperature"; "volume"; "time"].

(** The index is a position of the list: an integer from 0 up to, and not
    including, the length. *)
Definition inRange {A : Type} (units : list A) (index : number) : bool :=
  match arrayIndex index with
  | Some i => (i <? Z.of_nat (List.length units))%Z
  | None => false
  end.

(** The unit a category is expressed in: Celsius, or the unit of factor 1
    (meter, gram, liter, second). *)
Definition referenceUnit (u : UnitDefinition) : Prop :=
  abbr u = DEGREE ++ "C" \/ factor u = Some one.

(** [limitOutputSize] takes its last branch, the cut to 7 characters:
    neither the reduced precisions nor the exponential form fit. *)
Definition hardTruncated (value : number) : bool :=
  negb (isNaN value)
  && (8 <? getByteSize (reducePrecision 11 value (toString value)))%nat
  && (8 <? getByteSize (toExponential value 2))%nat.

(** How often the code unit [c] occurs in [s]. *)
Fixpoint occurrences (c : ascii) (s : string) : nat :=
  match s with
  | EmptyString => 0%nat
  | String a rest =>
      ((if Ascii.eqb c a then 1 else 0) + occurrences c rest)%nat
  end.

(** The text typed digit by digit: leading zeros give way, and "0" is what
    is left of zeros alone. *)
Fixpoint dropLeadingZeros (s : string) : string :=
  match s with
  | String c rest => if Ascii.eqb c "0" then dropLeadingZeros rest else s
  | EmptyString => s
  end.

Definition typedNumber (digits : string) : string :=
  match dropLeadingZeros digits with
  | EmptyString => "0"
  | text => text
  end.

(** One click per character of a text. *)
Fixpoint clicks (text : string) : list Action :=
  match text with
  | EmptyString => []
  | String c rest => Click (String c "") :: clicks rest
  end.

(** The pending expression is empty, or an operand without spaces, a
    space and one of the four operator signs. *)
Definition wellFormedExpression (expression : string) : Prop :=
  expression = ""
  \/ exists operand op,
       expression = operand ++ " " ++ op
       /\ occurrences " " operand = 0%nat
       /\ In op operators.

(** What every session the page can reach keeps: no space and at most one
    decimal point in the current input, and a well-formed expression. *)
Definition sessionInvariant (st : CalculatorSession) : Prop :=
  occurrences " " (currentInput st) = 0%nat
  /\ (occurrences "." (currentInput st) <= 1)%nat
  /\ wellFormedExpression (expression st).

(** A text with its leading minus sign taken off or put on. *)
Definition signToggled (text : string) : string :=
  if startsWith text "-" then sliceFrom1 text else "-" ++ text.

(** The action a key value of [keyMap] stands for. *)
Definition actionOf (value : string) : Action :=
  if value =? "Backspace" then BackspaceKey else Click value.

(** The target of the event is a form field. *)
Definition inFormField (event : KeyboardEvent) : bool :=
  match targetTagName event with
  | Some tagName =>
      existsb (String.eqb tagName) ["INPUT"; "TEXTAREA"; "SELECT"]
  | None => false
  end.

(** A finite Number other than zero. *)
Definition finiteNonzero (x : number) : bool :=
  match x with
  | S754_finite _ _ _ => true
  | _ => false
  end.

(** A finite Number above zero. *)
Definition finitePositive (x : number) : bool :=
  match x with
  | S754_finite false _ _ => true
  | _ => false
  end.

(** The categories that convert by factors. *)
Definition factorCategories : list string :=
  ["length"; "mass"; "volume"; "time"].

(** A run of clicks for the examples: 7.5 times 2. *)
Definition pressed : list Action :=
  [Click "7"; Click "."; Click "5"; Click MULTIPLY; Click "2"; Click "="].

(** The actions that ask the display before they change the text: all of
    the vocabulary but the percent button. *)
Definition checkedAction (a : Action) : Prop :=
  inVocabulary a /\ a <> Click "%".

(** Displays with room for twelve characters and for one character, each
    with its expression element, for the examples. *)
Definition twelveCharacters : option Display :=
  Some (displayOf (fun s => (String.length s <=? 12)%nat)).

Definition oneCharacter : option Display :=
  Some (displayOf (fun s => (String.length s <=? 1)%nat)).

End Vocabulary.
Export Vocabulary.

(* ================================================================== *)
(** * Properties of the calculator engine *)
(* ================================================================== *)

Section EvaluateOperation.

Local Open Scope string_scope.

Lemma operator_cases (op : string) :
  In op operators ->
  op = "+" \/ op = "-" \/ op = MULTIPLY \/ op = DIVIDE.
Proof.
  unfold operators; simpl; intuition auto.
Qed.

Lemma not_operator_eqb (op : string) :
  ~ In op operators ->
  (op =? "+") = false /\ (op =? "-") = false
  /\ (op =? MULTIPLY) = false /\ (op =? DIVIDE) = false.
Proof.
  intros H; repeat split; apply String.eqb_neq; intros ->;
    apply H; unfold operators; simpl; auto.
Qed.

(** C1: for every pair of operands and every operator sign among +, -,
    multiply and divide (the divisor not being zero for divide),
    [evaluateOperation] returns the IEEE-754 binary64 result of that
    operation. *)
Theorem evaluateOperation_ieee754 (a b : number) (op : string) :
  In op operators ->
  (op = DIVIDE -> strictEq b zero = false) ->
  evaluateOperation a op b = VNumber (ieee754 op a b).
Proof.
  intros Hop Hb.
  destruct (operator_cases op Hop) as [-> | [-> | [-> | ->]]];
    try reflexivity.
  unfold evaluateOperation, ieee754; simpl.
  rewrite (Hb eq_refl); reflexivity.
Qed.

Lemma evaluateOperation_ieee754_witness :
  In DIVIDE operators
  /\ strictEq (ofZ 2) zero = false
  /\ evaluateOperation (ofZ 7) DIVIDE (ofZ 2)
     = VNumber (ieee754 DIVIDE (ofZ 7) (ofZ 2)).
Proof.
  assert (Hop : In DIVIDE operators) by (unfold operators; simpl; auto).
  assert (Hb : strictEq (ofZ 2) zero = false) by reflexivity.
  split; [exact Hop | split; [exact Hb |]].
  apply (evaluateOperation_ieee754 (ofZ 7) (ofZ 2) DIVIDE Hop).
  intros _; exact Hb.
Defined.

(** Seven halves make 3.5, four times five makes twenty. *)
Example evaluateOperation_examples :
  evaluateOperation (ofZ 7) DIVIDE (ofZ 2)
  = VNumber (ofDecimal false 35 (-1))
  /\ evaluateOperation (ofZ 4) MULTIPLY (ofZ 5) = VNumber (ofZ 20).
Proof. split; vm_compute; reflexivity. Qed.

(** C2: [evaluateOperation] returns the text "Error" exactly when the
    operator is the division sign and the divisor equals zero, whatever
    the dividend; for every operator outside the four signs it returns
    NaN.  Being a total function, it has a result on every input. *)
Theorem evaluateOperation_error_marker (a b : number) (op : string) :
  (evaluateOperation a op b = VString "Error"
   <-> op = DIVIDE /\ strictEq b zero = true)
  /\ (~ In op operators -> evaluateOperation a op b = VNumber NaN).
Proof.
  split.
  - unfold evaluateOperation.
    destruct (op =? "+") eqn:E1; [split; [discriminate|] |].
    { intros [-> _]; discriminate E1. }
    destruct (op =? "-") eqn:E2; [split; [discriminate|] |].
    { intros [-> _]; discriminate E2. }
    destruct (op =? MULTIPLY) eqn:E3; [split; [discriminate|] |].
    { intros [-> _]; discriminate E3. }
    destruct (op =? DIVIDE) eqn:E4.
    + apply String.eqb_eq in E4; subst op.
      destruct (strictEq b zero); simpl; split; try discriminate; auto.
      intros [_ H]; discriminate H.
    + split; [discriminate|].
      intros [-> _]; discriminate E4.
  - intros H.
    destruct (not_operator_eqb op H) as (E1 & E2 & E3 & E4).
    unfold evaluateOperation; rewrite E1, E2, E3, E4; reflexivity.
Qed.

(** Division by either zero gives the marker, also for a zero dividend. *)
Example divide_by_zero_examples :
  evaluateOperation (ofZ 10) DIVIDE zero = VString "Error"
  /\ evaluateOperation zero DIVIDE zero = VString "Error"
  /\ evaluateOperation zero DIVIDE negzero = VString "Error"
  /\ evaluateOperation (ofZ 1) "%" (ofZ 2) = VNumber NaN.
Proof. repeat split. Qed.

End EvaluateOperation.


Section KeyMapping.

Local Open Scope string_scope.

(** Every listed key is sent to the token [keyMap] gives for it: the digits
    to themselves, the comma to the decimal point, the three multiplication
    keys and the slash to the operator signs, Enter and [=] to equals,
    Escape, [c], [C] and Delete to clear. *)
Lemma mapKeyToValue_mapped :
  Forall (fun entry => mapKeyToValue (fst entry) = VString (snd entry)) keyMap.
Proof.
  unfold keyMap; repeat constructor.
Qed.

Lemma ownProperty_absent {A : Type} (own : list (string * A)) (key : string) :
  ~ In key (map fst own) -> ownProperty own key = None.
Proof.
  induction own as [| [k a] rest IH]; simpl; intros H; [reflexivity|].
  destruct (String.eqb_spec k key) as [-> | _].
  - exfalso; apply H; left; reflexivity.
  - apply IH; intros Hin; apply H; right; exact Hin.
Qed.

(** A key that is neither listed nor the name of a member of
    [Object.prototype] has no mapping. *)
Lemma mapKeyToValue_unmapped (key : string) :
  ~ In key mappedKeys ->
  ~ In key objectPrototype ->
  mapKeyToValue key = VNull.
Proof.
  intros Hmap Hproto.
  unfold mapKeyToValue, getProperty.
  rewrite (ownProperty_absent keyMap key Hmap).
  destruct (existsb (String.eqb key) objectPrototype) eqn:E; [|reflexivity].
  apply existsb_exists in E; destruct E as (name & Hin & Heq).
  apply String.eqb_eq in Heq; subst name; contradiction.
Qed.

(** C9: a key outside the mapped vocabulary should have no mapping, but
    [keyMap] is an object literal and [keyMap[key]] also finds what
    [Object.prototype] holds: for the key "toString" the function of that
    name comes back, not [null]. *)
Theorem mapKeyToValue_inherited_member :
  ~ In "toString" mappedKeys
  /\ mapKeyToValue "toString" = VBuiltin "toString"
  /\ mapKeyToValue "toString" <> VNull.
Proof.
  split; [| split].
  - unfold mappedKeys, keyMap; simpl.
    intros H; repeat (destruct H as [H | H]; [discriminate H |]); exact H.
  - reflexivity.
  - discriminate.
Qed.

End KeyMapping.

Section CalculatorSession.

Local Open Scope string_scope.

Variable displayResult : option Display.

Lemma handleButtonClick_digit (st : CalculatorSession) (digit : string) :
  In digit digitTokens ->
  handleButtonClick displayResult st digit
  = inputNumber displayResult st digit.
Proof.
  unfold digitTokens; simpl; intros H.
  repeat (destruct H as [<- | H]; [reflexivity |]); contradiction.
Qed.

(** C10, as the code has it: after a division by zero the reset flag is
    set, so the next digit does not extend the text "Error": it takes its
    place when the display has room for it, and the flag is cleared. *)
Theorem digit_after_error_replaces (digit : string) :
  In digit digitTokens ->
  let st := handleButtonClick displayResult errorSession digit in
  (canFitInDisplay displayResult digit = true -> st = mkSession digit "" false)
  /\ currentInput st <> "Error" ++ digit
  /\ shouldResetInput st = false.
Proof.
  intros Hdigit; rewrite (handleButtonClick_digit errorSession digit Hdigit).
  unfold inputNumber, errorSession; simpl.
  destruct (canFitInDisplay displayResult digit); simpl.
  - repeat split.
    intros E.
    apply (f_equal String.length) in E; simpl in E; lia.
  - repeat split; [discriminate |].
    unfold digitTokens in Hdigit; simpl in Hdigit.
    repeat (destruct Hdigit as [<- | Hdigit]; [discriminate |]); contradiction.
Qed.

End CalculatorSession.

Lemma digit_after_error_replaces_witness :
  In "7" digitTokens
  /\ handleButtonClick None errorSession "7" = mkSession "7" "" false.
Proof.
  assert (H : In "7" digitTokens) by (unfold digitTokens; simpl; tauto).
  split; [exact H |].
  exact (proj1 (digit_after_error_replaces None "7" H) eq_refl).
Defined.

(** C10, as stated, fails: five divided by zero leaves "Error" with the
    reset flag set, and the digit 7 pressed next leaves "7", not
    "Error7". *)
Lemma digit_after_error_appends_counterexample :
  let st :=
    run None initialSession [Click "5"; Click DIVIDE; Click "0"; Click "="] in
  st = mkSession "Error" "" true
  /\ currentInput (step None st (Click "7")) = "7"
  /\ currentInput (step None st (Click "7")) <> "Error" ++ "7".
Proof.
  vm_compute; repeat split; discriminate.
Qed.


Lemma length_substringTo (n : nat) (s : string) :
  (String.length (substringTo n s) <= n)%nat.
Proof.
  unfold substringTo; revert n; induction s as [| c s IH]; intros [| n];
    simpl; try lia.
  specialize (IH n); lia.
Qed.

Section Truncation.

Variable displayResult : option Display.

(** The truncation loop of [calculate] ends with a text that fits or with
    the empty text. *)
Lemma truncateToFit_exit (fuel : nat) (s : string) :
  (String.length s <= fuel)%nat ->
  truncateToFit displayResult fuel s = ""
  \/ canFitInDisplay displayResult (truncateToFit displayResult fuel s)
     = true.
Proof.
  revert s; induction fuel as [| fuel IH]; intros s Hlen.
  - left; destruct s; [reflexivity | simpl in Hlen; lia].
  - cbn [truncateToFit].
    destruct (0 <? String.length s)%nat eqn:Hpos; cbn [andb].
    + destruct (canFitInDisplay displayResult s) eqn:Hfit; cbn [negb].
      * right; exact Hfit.
      * apply IH.
        pose proof (length_substringTo (String.length s - 1) s) as L.
        unfold substringTo in L; unfold sliceDropLast; lia.
    + left; apply Nat.ltb_ge in Hpos.
      destruct s; [reflexivity | simpl in Hpos; lia].
Qed.

End Truncation.

Section ChainEvaluation.

Local Open Scope string_scope.

Variable displayResult : option Display.

(** Both display elements were found, so [updateDisplay] completes. *)
Hypothesis complete : updateDisplayThrows displayResult = false.

(** The display has room for texts of one or two characters. *)
Hypothesis room :
  forall s, (String.length s <= 2)%nat -> canFitInDisplay displayResult s = true.

Lemma fits_short (s : string) :
  (String.length s <=? 2)%nat = true -> canFitInDisplay displayResult s = true.
Proof.
  intros H; apply room; apply Nat.leb_le; exact H.
Qed.

(** C3, as the code has it: on a page with both display elements, whose
    result element has room for texts of one and two characters, 5 + 3 + 2 =
    from the cleared session leaves "10" as the current input: the second +
    evaluates 5 + 3 to 8, the equals 8 + 2 to 10. *)
Theorem chain_evaluation :
  currentInput
    (run displayResult initialSession
       [Click "5"; Click "+"; Click "3"; Click "+"; Click "2"; Click "="])
  = "10".
Proof.
  unfold run; cbn [fold_left].
  assert (S1 : step displayResult initialSession (Click "5")
               = mkSession "5" "" false).
  { cbv -[canFitInDisplay]; rewrite (fits_short "5" eq_refl); reflexivity. }
  rewrite S1.
  assert (S2 : step displayResult (mkSession "5" "" false) (Click "+")
               = mkSession "5" "5 +" true) by reflexivity.
  rewrite S2.
  assert (S3 : step displayResult (mkSession "5" "5 +" true) (Click "3")
               = mkSession "3" "5 +" false).
  { cbv -[canFitInDisplay]; rewrite (fits_short "3" eq_refl); reflexivity. }
  rewrite S3.
  assert (S4 : step displayResult (mkSession "3" "5 +" false) (Click "+")
               = mkSession "8" "8 +" true).
  { cbv -[canFitInDisplay updateDisplayThrows].
    rewrite (fits_short "8" eq_refl), complete; reflexivity. }
  rewrite S4.
  assert (S5 : step displayResult (mkSession "8" "8 +" true) (Click "2")
               = mkSession "2" "8 +" false).
  { cbv -[canFitInDisplay]; rewrite (fits_short "2" eq_refl); reflexivity. }
  rewrite S5.
  cbv -[canFitInDisplay]; rewrite (fits_short "10" eq_refl); reflexivity.
Qed.

End ChainEvaluation.

Lemma chain_evaluation_witness :
  updateDisplayThrows twelveCharacters = false
  /\ (forall s, (String.length s <= 2)%nat
                -> canFitInDisplay twelveCharacters s = true)
  /\ currentInput
       (run twelveCharacters initialSession
          [Click "5"; Click "+"; Click "3"; Click "+"; Click "2"; Click "="])
     = "10"%string.
Proof.
  assert (C : updateDisplayThrows twelveCharacters = false) by reflexivity.
  assert (H : forall s, (String.length s <= 2)%nat
                        -> canFitInDisplay twelveCharacters s = true).
  { intros s L; unfold twelveCharacters, displayOf, canFitInDisplay.
    cbn [fitsDisplayLines]; apply Nat.leb_le; lia. }
  split; [exact C | split; [exact H |]].
  exact (chain_evaluation twelveCharacters C H).
Defined.

(** C3, as the claim has it, on every page: it fails where the result
    element has room for one character only, since equals cuts "10" down
    to "1". *)
Lemma chain_evaluation_counterexample :
  ~ (forall display : option Display,
        currentInput
          (run display initialSession
             [Click "5"; Click "+"; Click "3"; Click "+"; Click "2";
              Click "="])
        = "10"%string).
Proof.
  intros H; specialize (H oneCharacter); vm_compute in H; discriminate H.
Qed.

(** The chain on three pages.  With both display elements and room for
    twelve characters the second + leaves 8 and the expression "8 +".  With
    room for one character the chain ends in "1".  With no display element
    the second + is left when [updateDisplay] throws inside [calculate]:
    the expression stays empty, and the chain ends in "2". *)
Example chain_evaluation_trace :
  run twelveCharacters initialSession
    [Click "5"; Click "+"; Click "3"; Click "+"]
  = mkSession "8" "8 +" true
  /\ run oneCharacter initialSession
       [Click "5"; Click "+"; Click "3"; Click "+"; Click "2"; Click "="]
     = mkSession "1" "" true
  /\ run None initialSession [Click "5"; Click "+"; Click "3"; Click "+"]
     = mkSession "8" "" true
  /\ run None initialSession
       [Click "5"; Click "+"; Click "3"; Click "+"; Click "2"; Click "="]
     = mkSession "2" "" false
  /\ run None initialSession [Click "1"; Click "2"; Click "3"]
     = mkSession "123" "" false
  /\ run None initialSession [Click "5"; Click "0"; Click "%"]
     = mkSession "0.5" "" false.
Proof. vm_compute; repeat split. Qed.


Section OperandShape.

Local Open Scope string_scope.

Lemma digit_is_no_sign (c : ascii) :
  isDigit c = true ->
  Ascii.eqb c "-" = false /\ Ascii.eqb c "+" = false
  /\ Ascii.eqb c "." = false /\ c <> "I"%char.
Proof.
  intros H; split; [| split; [| split]].
  - apply Ascii.eqb_neq; intros ->; discriminate H.
  - apply Ascii.eqb_neq; intros ->; discriminate H.
  - apply Ascii.eqb_neq; intros ->; discriminate H.
  - intros ->; discriminate H.
Qed.

Lemma allDigits_append (a b : string) :
  allDigits (a ++ b) = allDigits a && allDigits b.
Proof.
  induction a as [| c a IH]; simpl; [reflexivity|].
  rewrite IH, andb_assoc; reflexivity.
Qed.

Lemma digitsThenFraction_append_digit (s : string) (c : ascii) :
  digitsThenFraction s = true -> isDigit c = true ->
  digitsThenFraction (s ++ String c "") = true.
Proof.
  intros Hs Hc; induction s as [| a s IH]; simpl in *.
  - rewrite Hc; reflexivity.
  - destruct (isDigit a); [exact (IH Hs)|].
    apply andb_true_iff in Hs; destruct Hs as [Ha Hr].
    rewrite Ha, allDigits_append, Hr; simpl; rewrite Hc; reflexivity.
Qed.

Lemma unsignedDecimal_append_digit (s : string) (c : ascii) :
  unsignedDecimal s = true -> isDigit c = true ->
  unsignedDecimal (s ++ String c "") = true.
Proof.
  destruct s as [| a s]; simpl; [discriminate|].
  intros H Hc; apply andb_true_iff in H; destruct H as [Ha Hs].
  rewrite Ha, (digitsThenFraction_append_digit s c Hs Hc); reflexivity.
Qed.

Lemma signedDecimal_append_digit (s : string) (c : ascii) :
  signedDecimal s = true -> isDigit c = true ->
  signedDecimal (s ++ String c "") = true.
Proof.
  destruct s as [| a s]; [discriminate|].
  intros H Hc; change ((String a s) ++ String c "")
    with (String a (s ++ String c "")).
  unfold signedDecimal in *.
  destruct (Ascii.eqb a "-").
  - apply unsignedDecimal_append_digit; assumption.
  - change (String a (s ++ String c "")) with ((String a s) ++ String c "").
    apply unsignedDecimal_append_digit; assumption.
Qed.

Lemma prefix_single (c a : ascii) (r : string) :
  String.prefix (String c "") (String a r) = Ascii.eqb c a.
Proof.
  simpl; destruct (ascii_dec c a) as [-> | Hne].
  - rewrite Ascii.eqb_refl; destruct r; reflexivity.
  - symmetry; apply Ascii.eqb_neq; exact Hne.
Qed.

Lemma digitsThenFraction_append_point (s : string) :
  digitsThenFraction s = true -> includes s "." = false ->
  digitsThenFraction (s ++ ".") = true.
Proof.
  induction s as [| a s IH]; [reflexivity|].
  intros Hs Hi; cbn [includes] in Hi.
  apply orb_false_iff in Hi; destruct Hi as [Hp Hi].
  rewrite prefix_single in Hp.
  cbn [append digitsThenFraction] in *.
  destruct (isDigit a); [exact (IH Hs Hi)|].
  rewrite Ascii.eqb_sym, Hp in Hs; discriminate Hs.
Qed.

Lemma signedDecimal_append_point (s : string) :
  signedDecimal s = true -> includes s "." = false ->
  signedDecimal (s ++ ".") = true.
Proof.
  assert (U : forall u, unsignedDecimal u = true -> includes u "." = false ->
                        unsignedDecimal (u ++ ".") = true).
  { intros [| a u]; [discriminate|].
    intros H Hi; cbn [includes] in Hi.
    apply orb_false_iff in Hi; destruct Hi as [_ Hi].
    cbn [append unsignedDecimal] in *.
    apply andb_true_iff in H; destruct H as [Ha Hu].
    rewrite Ha, (digitsThenFraction_append_point u Hu Hi); reflexivity. }
  destruct s as [| a s]; [discriminate|].
  intros H Hi.
  change ((String a s) ++ ".") with (String a (s ++ ".")).
  unfold signedDecimal in *.
  destruct (Ascii.eqb a "-").
  - cbn [includes] in Hi; apply orb_false_iff in Hi.
    apply U; [exact H | exact (proj2 Hi)].
  - apply (U (String a s) H Hi).
Qed.

Lemma substring_whole (s : string) : substring 0 (String.length s) s = s.
Proof.
  induction s as [| a s IH]; simpl; [reflexivity | rewrite IH; reflexivity].
Qed.

Lemma unsignedDecimal_signedDecimal (s : string) :
  unsignedDecimal s = true -> signedDecimal s = true.
Proof.
  destruct s as [| a s]; [discriminate|].
  intros H; unfold signedDecimal.
  assert (Ha : isDigit a = true)
    by (simpl in H; apply andb_true_iff in H; tauto).
  rewrite (proj1 (digit_is_no_sign a Ha)); exact H.
Qed.

(** Toggling the sign of a signed decimal gives a signed decimal. *)
Lemma signedDecimal_toggle (s : string) :
  signedDecimal s = true ->
  signedDecimal (if startsWith s "-" then sliceFrom1 s else "-" ++ s) = true.
Proof.
  destruct s as [| a s]; [discriminate|].
  intros H; unfold startsWith; rewrite prefix_single.
  unfold signedDecimal in H.
  destruct (Ascii.eqb_spec a "-") as [-> | Hne].
  - rewrite Ascii.eqb_refl.
    unfold sliceFrom1; simpl; rewrite Nat.sub_0_r, substring_whole.
    apply unsignedDecimal_signedDecimal; exact H.
  - rewrite Ascii.eqb_sym; apply Ascii.eqb_neq in Hne; rewrite Hne.
    exact H.
Qed.


Lemma scanDigits_allDigits (s : string) (acc : N) (count : nat) :
  allDigits s = true ->
  exists v, scanDigits s acc count = (v, (count + String.length s)%nat, "").
Proof.
  revert acc count; induction s as [| a s IH]; intros acc count H;
    cbn [scanDigits allDigits String.length] in *.
  - exists acc; rewrite Nat.add_0_r; reflexivity.
  - apply andb_true_iff in H; destruct H as [Ha Hs]; rewrite Ha.
    destruct (IH (10 * acc + digitValue a)%N (S count) Hs) as [v Hv].
    exists v; rewrite Hv, Nat.add_succ_r; reflexivity.
Qed.

Lemma scanDigits_digitsThenFraction (s : string) (acc : N) (count : nat) :
  digitsThenFraction s = true ->
  exists v k rest,
    scanDigits s acc count = (v, k, rest)
    /\ (count <= k)%nat
    /\ (rest = "" \/ exists f, rest = String "." f /\ allDigits f = true).
Proof.
  revert acc count; induction s as [| a s IH]; intros acc count H;
    cbn [scanDigits digitsThenFraction] in *.
  - exists acc, count, ""; auto.
  - destruct (isDigit a).
    + destruct (IH (10 * acc + digitValue a)%N (S count) H)
        as (v & k & rest & E & Hk & Hrest).
      exists v, k, rest; repeat split; [exact E | lia | exact Hrest].
    + apply andb_true_iff in H; destruct H as [Ha Hs].
      apply Ascii.eqb_eq in Ha; subst a.
      exists acc, count, (String "." s); repeat split; [lia |].
      right; exists s; auto.
Qed.

Lemma scanMantissa_unsignedDecimal (s : string) :
  unsignedDecimal s = true ->
  exists m nf, scanMantissa s = Some (m, nf, "").
Proof.
  destruct s as [| a s]; [discriminate|].
  intros H; simpl in H; apply andb_true_iff in H; destruct H as [Ha Hs].
  unfold scanMantissa; cbn [scanDigits]; rewrite Ha.
  destruct (scanDigits_digitsThenFraction s (10 * 0 + digitValue a)%N 1 Hs)
    as (v & k & rest & E & Hk & Hrest).
  rewrite E.
  destruct Hrest as [-> | (f & -> & Hf)].
  - destruct k; [lia|]; eauto.
  - rewrite Ascii.eqb_refl.
    destruct (scanDigits_allDigits f v 0 Hf) as [m Hm]; rewrite Hm.
    destruct k; [lia|]; simpl; eauto.
Qed.

Lemma scanUnsigned_unsignedDecimal (neg : bool) (s : string) :
  unsignedDecimal s = true ->
  exists v, scanUnsigned neg s = Some (v, "").
Proof.
  intros H; unfold scanUnsigned.
  destruct (scanMantissa_unsignedDecimal s H) as (m & nf & E); rewrite E.
  destruct s as [| a s]; [discriminate|].
  simpl in H; apply andb_true_iff in H; destruct H as [Ha _].
  cbn [String.prefix].
  destruct (ascii_dec "I" a) as [<- | _]; [discriminate Ha|].
  cbn [scanExponent]; eauto.
Qed.

(** A signed decimal is a numeric literal. *)
Lemma signedDecimal_numeric (s : string) :
  signedDecimal s = true -> isNumericLiteral s = true.
Proof.
  destruct s as [| a s]; [discriminate|].
  unfold signedDecimal, isNumericLiteral, scanDecimalLiteral, scanSign.
  destruct (Ascii.eqb a "-") eqn:Em; intros H.
  - destruct (scanUnsigned_unsignedDecimal true s H) as [v E].
    rewrite E; reflexivity.
  - assert (Ha : isDigit a = true)
      by (simpl in H; apply andb_true_iff in H; tauto).
    rewrite (proj1 (proj2 (digit_is_no_sign a Ha))).
    destruct (scanUnsigned_unsignedDecimal false (String a s) H) as [v E].
    rewrite E; reflexivity.
Qed.

End OperandShape.

Section OperandInvariant.

Local Open Scope string_scope.

Variable displayResult : option Display.

(** Splits a goal [plainOperand] of a session built by [withInput] into
    its three parts and closes those that are hypotheses. *)
Ltac plain_parts :=
  cbn [negb]; unfold plainOperand, withInput;
  cbn [currentInput expression shouldResetInput]; repeat split; auto.

Lemma digitTokens_digit (value : string) :
  In value digitTokens ->
  exists c, value = String c "" /\ isDigit c = true.
Proof.
  unfold digitTokens; simpl; intros H.
  repeat (destruct H as [<- | H]; [eexists; split; reflexivity |]).
  contradiction.
Qed.

Lemma inputNumber_digit_plain (st : CalculatorSession) (c : ascii) :
  plainOperand st -> isDigit c = true ->
  plainOperand (inputNumber displayResult st (String c "")).
Proof.
  intros (He & Hr & Hs) Hc.
  assert (Hp : (String c "" =? ".") = false).
  { simpl; rewrite (proj1 (proj2 (proj2 (digit_is_no_sign c Hc)))).
    reflexivity. }
  unfold inputNumber; rewrite Hr, Hp; cbn [negb andb].
  rewrite andb_true_r.
  destruct (currentInput st =? "0");
    destruct (canFitInDisplay displayResult _); plain_parts.
  - unfold signedDecimal, unsignedDecimal.
    rewrite (proj1 (digit_is_no_sign c Hc)), Hc; reflexivity.
  - apply signedDecimal_append_digit; assumption.
Qed.

Lemma inputNumber_point_plain (st : CalculatorSession) :
  plainOperand st -> plainOperand (inputNumber displayResult st ".").
Proof.
  intros (He & Hr & Hs).
  unfold inputNumber; rewrite Hr.
  change ("." =? ".") with true; cbn [negb andb].
  rewrite andb_false_r.
  destruct (includes (currentInput st) ".") eqn:Hi;
    [repeat split; assumption|].
  destruct (canFitInDisplay displayResult _); plain_parts.
  apply signedDecimal_append_point; assumption.
Qed.

Lemma toggleSign_plain (st : CalculatorSession) :
  plainOperand st -> plainOperand (toggleSign displayResult st).
Proof.
  intros (He & Hr & Hs).
  unfold toggleSign.
  destruct (currentInput st =? "0"); cbn [negb]; [repeat split; assumption|].
  destruct (canFitInDisplay displayResult _); plain_parts.
  apply signedDecimal_toggle; assumption.
Qed.

Lemma calculate_plain (st : CalculatorSession) :
  plainOperand st -> calculate displayResult st = st.
Proof.
  intros (He & _); unfold calculate; rewrite He; reflexivity.
Qed.

Lemma step_plain (st : CalculatorSession) (a : Action) :
  plainOperand st -> editing a -> plainOperand (step displayResult st a).
Proof.
  intros Hst Ha; destruct a as [value |]; [| contradiction].
  unfold editing, editingTokens in Ha; apply in_app_or in Ha.
  destruct Ha as [Hd | Ho].
  - cbn [step]; rewrite (handleButtonClick_digit displayResult st value Hd).
    destruct (digitTokens_digit value Hd) as (c & -> & Hc).
    apply inputNumber_digit_plain; assumption.
  - simpl in Ho; destruct Ho as [<- | [<- | [<- | [<- | []]]]]; cbn [step].
    + change (handleButtonClick displayResult st ".")
        with (inputNumber displayResult st ".").
      apply inputNumber_point_plain; assumption.
    + change (handleButtonClick displayResult st PLUSMINUS)
        with (toggleSign displayResult st).
      apply toggleSign_plain; assumption.
    + repeat split.
    + change (handleButtonClick displayResult st "=")
        with (calculate displayResult st).
      rewrite calculate_plain; assumption.
Qed.

Lemma run_plain (actions : list Action) (st : CalculatorSession) :
  plainOperand st -> Forall editing actions ->
  plainOperand (run displayResult st actions).
Proof.
  revert st; induction actions as [| a actions IH]; intros st Hst Hall.
  - exact Hst.
  - inversion Hall as [| ? ? Ha Hrest]; subst.
    apply IH; [apply step_plain; assumption | exact Hrest].
Qed.

(** C4, as the code has it: while only digits, the decimal point, the sign
    toggle, clear and equals are pressed, starting from the initial
    session, the current input is a numeric literal: digits with an
    optional fraction after an optional minus sign. *)
Theorem currentInput_numeric_while_editing (actions : list Action) :
  Forall editing actions ->
  isNumericLiteral (currentInput (run displayResult initialSession actions))
  = true.
Proof.
  intros Hall; apply signedDecimal_numeric.
  apply (run_plain actions initialSession); [repeat split | exact Hall].
Qed.

End OperandInvariant.

Lemma currentInput_numeric_while_editing_witness :
  Forall editing [Click "0"; Click "."; Click "5"; Click PLUSMINUS]
  /\ isNumericLiteral
       (currentInput
          (run None initialSession
             [Click "0"; Click "."; Click "5"; Click PLUSMINUS]))
     = true.
Proof.
  assert (H : Forall editing
                [Click "0"; Click "."; Click "5"; Click PLUSMINUS]).
  { repeat constructor; unfold editing, editingTokens, digitTokens; simpl;
      tauto. }
  split; [exact H |].
  exact (currentInput_numeric_while_editing None _ H).
Defined.

(** C4, as stated, fails: 5, sign toggle, Backspace are in the vocabulary
    and leave the lone minus sign as current input. *)
Lemma currentInput_invariant_counterexample :
  ~ (forall (display : option Display) (actions : list Action),
        Forall inVocabulary actions ->
        validInput (currentInput (run display initialSession actions))).
Proof.
  intros H.
  specialize (H None [Click "5"; Click PLUSMINUS; BackspaceKey]).
  assert (V : Forall inVocabulary
                [Click "5"; Click PLUSMINUS; BackspaceKey]).
  { repeat constructor; unfold inVocabulary, buttons; simpl; tauto. }
  specialize (H V); vm_compute in H.
  destruct H as [H | [H | H]]; discriminate H.
Qed.

(** Further current inputs outside the three allowed forms: through
    backspace, through an operator, after a division by zero, and through
    the percentage. *)
Example currentInput_other_texts :
  currentInput
    (run None initialSession [Click "5"; Click PLUSMINUS; BackspaceKey;
                              Click PLUSMINUS]) = ""
  /\ currentInput (run None initialSession [Click "1"; Click "+"; Click "."])
     = "."
  /\ currentInput
       (run None initialSession
          [Click "5"; Click DIVIDE; Click "0"; Click "="; BackspaceKey])
     = "Erro"
  /\ currentInput
       (run None initialSession
          [Click "5"; Click DIVIDE; Click "0"; Click "="; Click "%"])
     = "NaN"
  /\ currentInput
       (run None initialSession
          [Click "1"; Click "%"; Click "%"; Click "%"; Click "%"; Click "."])
     = "1e-8.".
Proof. vm_compute; repeat split. Qed.

(* ================================================================== *)
(** * Properties of the converter *)
(* ================================================================== *)

Section ExactUnit.

Lemma bounded_canonical (m : positive) (e : Z) :
  bounded prec emax m e = true ->
  fexp prec emax (Z.pos (digits2_pos m) + e) = e /\ e <= emax - prec.
Proof.
  unfold bounded, canonical_mantissa; intros H.
  apply andb_true_iff in H; destruct H as [Hc He].
  apply Z.eqb_eq in Hc; apply Z.leb_le in He; auto.
Qed.

Lemma round_canonical (s : bool) (m : positive) (e : Z) :
  bounded prec emax m e = true ->
  binary_round_aux prec emax s (Z.pos m) e loc_Exact = S754_finite s m e.
Proof.
  intros H; destruct (bounded_canonical m e H) as [Hc He].
  unfold binary_round_aux, shr_fexp; cbn [Zdigits2].
  rewrite Hc, Z.sub_diag.
  cbn [shr shr_record_of_loc shr_m loc_of_shr_record round_nearest_even
       Zdigits2].
  rewrite Hc, Z.sub_diag; cbn [shr shr_record_of_loc shr_m].
  apply Z.leb_le in He; rewrite He; reflexivity.
Qed.

Lemma round_shifted_52 (s : bool) (m : positive) (e : Z) :
  bounded prec emax m e = true ->
  binary_round_aux prec emax s (Z.pos (m * 4503599627370496)) (e + -52)
    loc_Exact
  = S754_finite s m e.
Proof.
  intros H; destruct (bounded_canonical m e H) as [Hc He].
  rewrite Pos.mul_comm.
  unfold binary_round_aux at 1, shr_fexp at 1.
  cbn [Pos.mul Zdigits2 digits2_pos].
  match goal with
  | |- context [fexp prec emax ?x] =>
      replace x with (Z.pos (digits2_pos m) + e) by lia
  end.
  rewrite Hc.
  replace (e - (e + -52)) with 52 by lia.
  cbn [shr iter_pos shr_1 shr_record_of_loc shr_m loc_of_shr_record
       round_nearest_even orb].
  replace (e + -52 + 52) with e by lia.
  unfold shr_fexp; cbn [Zdigits2]; rewrite Hc, Z.sub_diag.
  cbn [shr shr_record_of_loc shr_m].
  apply Z.leb_le in He; rewrite He; reflexivity.
Qed.

Lemma mul_one (x : number) :
  wellFormed x = true -> mul x one = x.
Proof.
  destruct x as [s | s | | s m e]; intros H; try reflexivity.
  - destruct s; reflexivity.
  - destruct s; reflexivity.
  - unfold mul, one; cbn [SFmul ofZ binary_normalize].
    change (binary_round prec emax false 1 0)
      with (S754_finite false 4503599627370496 (-52)).
    cbn [SFmul]; rewrite xorb_false_r.
    apply round_shifted_52; exact H.
Qed.


Lemma div_eucl_exact (a b : Z) :
  0 < b -> Z.div_eucl (a * b) b = (a, 0).
Proof.
  intros Hb.
  pose proof (Z.div_mul a b ltac:(lia)) as Q.
  pose proof (Z.mod_mul a b ltac:(lia)) as R.
  unfold Z.div in Q; unfold Z.modulo in R.
  destruct (Z.div_eucl (a * b) b) as [q r]; subst; reflexivity.
Qed.

Lemma div_one (x : number) :
  wellFormed x = true -> div x one = x.
Proof.
  destruct x as [s | s | | s m e]; intros H; try reflexivity.
  - destruct s; reflexivity.
  - destruct s; reflexivity.
  - unfold div, one; cbn [ofZ binary_normalize].
    change (binary_round prec emax false 1 0)
      with (S754_finite false 4503599627370496 (-52)).
    cbn [SFdiv]; rewrite xorb_false_r.
    destruct (bounded_canonical m e H) as [Hc He].
    unfold SFdiv_core_binary.
    cbn [Zdigits2 digits2_pos Pos.succ].
    set (F := fexp prec emax (Z.pos (digits2_pos m) + e - (53 + -52))).
    assert (HF : (F = e - 1 /\ fexp prec emax (Z.pos (digits2_pos m) + e) = e)
                 \/ F = e).
    { subst F; revert Hc; unfold fexp, SpecFloat.emin, prec, emax; lia. }
    assert (Hmin : Z.min F (e - -52) = F) by lia.
    change (IntDef.Z.min F (e - -52)) with (Z.min F (e - -52)).
    rewrite Hmin.
    destruct HF as [[-> _] | ->].
    + replace (e - -52 - (e - 1)) with 53 by lia.
      change (IntDef.Z.shiftl (Z.pos m) 53)
        with (Z.pos (4503599627370496 * m~0)).
      rewrite Pos.mul_comm, Pos2Z.inj_mul.
      change (IntDef.Z.div_eucl (Z.pos m~0 * 4503599627370496)
                4503599627370496)
        with (Z.div_eucl (Z.pos m~0 * 4503599627370496) 4503599627370496).
      rewrite div_eucl_exact by lia.
      change (new_location 4503599627370496 0) with loc_Exact.
      unfold binary_round_aux, shr_fexp.
      cbn [Zdigits2 digits2_pos].
      replace (Z.pos (Pos.succ (digits2_pos m)) + (e - 1))
        with (Z.pos (digits2_pos m) + e) by lia.
      rewrite Hc.
      replace (e - (e - 1)) with 1 by lia.
      cbn [shr iter_pos shr_1 shr_record_of_loc shr_m loc_of_shr_record
           round_nearest_even orb Zdigits2].
      replace (e - 1 + 1) with e by lia.
      rewrite Hc, Z.sub_diag; cbn [shr shr_m].
      apply Z.leb_le in He; rewrite He; reflexivity.
    + replace (e - -52 - e) with 52 by lia.
      change (IntDef.Z.shiftl (Z.pos m) 52)
        with (Z.pos (4503599627370496 * m)).
      rewrite Pos.mul_comm, Pos2Z.inj_mul.
      change (IntDef.Z.div_eucl (Z.pos m * 4503599627370496)
                4503599627370496)
        with (Z.div_eucl (Z.pos m * 4503599627370496) 4503599627370496).
      rewrite div_eucl_exact by lia.
      change (new_location 4503599627370496 0) with loc_Exact.
      apply round_canonical; exact H.
Qed.

End ExactUnit.

Section Conversion.

Lemma elementAt_out_of_range {A : Type} (units : list A) (index : number) :
  inRange units index = false -> elementAt units index = None.
Proof.
  unfold inRange, elementAt.
  destruct (arrayIndex index) as [i |]; [| reflexivity].
  intros ->; reflexivity.
Qed.

Lemma arrayIndex_nonneg (index : number) (i : Z) :
  arrayIndex index = Some i -> 0 <= i.
Proof.
  destruct index as [s | s | | [] m e]; cbn [arrayIndex]; try discriminate.
  - intros H; assert (i = 0) by congruence; lia.
  - destruct (0 <=? e) eqn:He.
    + intros H; assert (Hi : i = Z.pos m * 2 ^ e) by congruence.
      rewrite Hi; apply Z.leb_le in He.
      apply Z.mul_nonneg_nonneg; [lia |].
      apply Z.pow_nonneg; lia.
    + destruct (Z.pos m mod 2 ^ (- e) =? 0); [| discriminate].
      intros H; assert (Hi : i = Z.pos m / 2 ^ (- e)) by congruence.
      rewrite Hi; apply Z.div_pos; [lia |].
      apply Z.leb_gt in He; apply Z.pow_pos_nonneg; lia.
Qed.

Lemma elementAt_in_range {A : Type} (units : list A) (index : number) :
  inRange units index = true -> exists u, elementAt units index = Some u.
Proof.
  unfold inRange, elementAt.
  destruct (arrayIndex index) as [i |] eqn:E; [| discriminate].
  intros H; rewrite H.
  pose proof (arrayIndex_nonneg index i E) as Hi.
  apply Z.ltb_lt in H.
  destruct (nth_error units (Z.to_nat i)) as [u |] eqn:N; [eauto |].
  apply nth_error_None in N; lia.
Qed.

Lemma elementAt_In {A : Type} (units : list A) (index : number) (u : A) :
  elementAt units index = Some u -> In u units.
Proof.
  unfold elementAt.
  destruct (arrayIndex index) as [i |]; [| discriminate].
  destruct (i <? Z.of_nat (List.length units)); [| discriminate].
  apply nth_error_In.
Qed.

Lemma getProperty_unitList (category : string) :
  getProperty UNIT_DEFINITIONS category
  = match unitList category with
    | Some units => Own units
    | None =>
        if existsb (String.eqb category) objectPrototype
        then Inherited category else Absent
    end.
Proof.
  reflexivity.
Qed.

(** C5: [convertValue] returns 0 when the value is NaN, when the catalog
    has no unit list for the category, and when one of the two indices is
    not a position of the category's unit list.  Being a total function,
    it has a result on every input. *)
Theorem convertValue_silent_zero
    (value fromIndex toIndex : number) (category : string) :
  isNaN value = true
  \/ unitList category = None
  \/ (exists units, unitList category = Some units
        /\ (inRange units fromIndex = false
            \/ inRange units toIndex = false)) ->
  convertValue value fromIndex toIndex category = VNumber zero.
Proof.
  intros H; unfold convertValue.
  destruct (isNaN value); [reflexivity |].
  rewrite getProperty_unitList.
  destruct H as [H | [H | (units & Hl & H)]]; [discriminate H | |].
  - rewrite H.
    destruct (existsb (String.eqb category) objectPrototype); reflexivity.
  - rewrite Hl.
    destruct H as [H | H]; rewrite (elementAt_out_of_range units _ H).
    + reflexivity.
    + destruct (elementAt units fromIndex); reflexivity.
Qed.

End Conversion.

Lemma convertValue_silent_zero_witness :
  (isNaN (ofZ 1) = true
   \/ unitList "length" = None
   \/ (exists units, unitList "length" = Some units
         /\ (inRange units (ofZ 12) = false
             \/ inRange units (ofZ 0) = false)))
  /\ convertValue (ofZ 1) (ofZ 12) (ofZ 0) "length" = VNumber zero.
Proof.
  assert (H : isNaN (ofZ 1) = true
              \/ unitList "length" = None
              \/ (exists units, unitList "length" = Some units
                    /\ (inRange units (ofZ 12) = false
                        \/ inRange units (ofZ 0) = false))).
  { right; right; eexists; split; [reflexivity | left; reflexivity]. }
  split; [exact H |].
  exact (convertValue_silent_zero (ofZ 1) (ofZ 12) (ofZ 0) "length" H).
Defined.

(** Indices that are no positions, a category the catalog lacks, a name
    that [Object.prototype] answers to, and NaN. *)
Example convertValue_zero_examples :
  convertValue (ofZ 1) NaN (ofZ 0) "length" = VNumber zero
  /\ convertValue (ofZ 1) (ofDecimal false 15 (-1)) (ofZ 0) "length"
     = VNumber zero
  /\ convertValue (ofZ 1) (ofZ (-1)) (ofZ 0) "length" = VNumber zero
  /\ convertValue (ofZ 1) (ofZ 0) (ofZ 3) "temperature" = VNumber zero
  /\ convertValue (ofZ 1) (ofZ 0) (ofZ 0) "area" = VNumber zero
  /\ convertValue (ofZ 1) (ofZ 0) (ofZ 0) "toString" = VNumber zero
  /\ convertValue NaN (ofZ 0) (ofZ 1) "length" = VNumber zero.
Proof. vm_compute; repeat split. Qed.

(** C6: in the temperature list Celsius, Fahrenheit and Kelvin are at the
    indices 0, 1 and 2; 0 Celsius are exactly 32 Fahrenheit, 100 Celsius
    exactly 212 Fahrenheit, and 0 Celsius exactly 273.15 Kelvin. *)
Theorem temperature_fixed_points :
  option_map (map name) (unitList "temperature")
  = Some ["Celsius"; "Fahrenheit"; "Kelvin"]%string
  /\ convertValue (ofZ 0) (ofZ 0) (ofZ 1) "temperature" = VNumber (ofZ 32)
  /\ convertValue (ofZ 100) (ofZ 0) (ofZ 1) "temperature"
     = VNumber (ofZ 212)
  /\ convertValue (ofZ 0) (ofZ 0) (ofZ 2) "temperature"
     = VNumber (literal 27315 (-2)).
Proof.
  vm_compute; repeat split.
Qed.

Section ConversionIdentity.

Lemma unitList_category (category : string) (units : list UnitDefinition) :
  unitList category = Some units -> In category categories.
Proof.
  unfold unitList, UNIT_DEFINITIONS, categories; cbn [ownProperty].
  repeat match goal with
         | |- context [String.eqb ?k category] =>
             destruct (String.eqb_spec k category) as [<- | _];
             [intros _; simpl; tauto |]
         end.
  discriminate.
Qed.

Lemma celsius_only_temperature
    (category : string) (units : list UnitDefinition) (u : UnitDefinition) :
  unitList category = Some units -> In u units ->
  abbr u = (DEGREE ++ "C")%string ->
  category = "temperature"%string /\ u = mkUnit "Celsius" (DEGREE ++ "C") None.
Proof.
  intros Hl Hin Habbr.
  pose proof (unitList_category category units Hl) as Hc.
  unfold categories in Hc; simpl in Hc.
  destruct Hc as [<- | [<- | [<- | [<- | [<- | []]]]]];
    vm_compute in Hl; injection Hl as <-; simpl in Hin;
    repeat (destruct Hin as [<- | Hin];
            [try (vm_compute in Habbr; discriminate Habbr) |]);
    try contradiction.
  split; reflexivity.
Qed.

Lemma factor_not_temperature
    (units : list UnitDefinition) (u : UnitDefinition) (f : number) :
  unitList "temperature" = Some units -> In u units ->
  factor u = Some f -> False.
Proof.
  intros Hl Hin Hf.
  vm_compute in Hl; injection Hl as <-; simpl in Hin.
  repeat (destruct Hin as [<- | Hin]; [discriminate Hf |]).
  contradiction.
Qed.

(** C7, as the code has it: converting a unit to itself gives back the
    value exactly when the unit is the one its category is expressed in:
    Celsius is returned as it came, and multiplying and dividing by the
    factor 1 is exact. *)
Theorem convertValue_identity_reference_unit
    (v index : number) (category : string)
    (units : list UnitDefinition) (u : UnitDefinition) :
  wellFormed v = true ->
  isFinite v = true ->
  unitList category = Some units ->
  elementAt units index = Some u ->
  referenceUnit u ->
  convertValue v index index category = VNumber v.
Proof.
  intros Hwf Hfin Hl Hu Href.
  pose proof (elementAt_In units index u Hu) as Hin.
  unfold convertValue.
  assert (Hnan : isNaN v = false) by (destruct v; auto; discriminate Hfin).
  rewrite Hnan, getProperty_unitList, Hl, Hu.
  destruct Href as [Habbr | Hfac].
  - destruct (celsius_only_temperature category units u Hl Hin Habbr)
      as [-> ->].
    reflexivity.
  - destruct (String.eqb_spec category "temperature") as [-> | _].
    + exfalso; exact (factor_not_temperature units u one Hl Hin Hfac).
    + rewrite Hfac; cbn [toNumber].
      change (v * one)%num with (mul v one).
      rewrite (mul_one v Hwf).
      change (v / one)%num with (div v one).
      rewrite (div_one v Hwf); reflexivity.
Qed.

End ConversionIdentity.

Lemma convertValue_identity_reference_unit_witness :
  wellFormed (literal 1 (-1)) = true
  /\ isFinite (literal 1 (-1)) = true
  /\ referenceUnit (mkUnit "Meter" "m" (Some (literal 1 0)))
  /\ convertValue (literal 1 (-1)) (ofZ 3) (ofZ 3) "length"
     = VNumber (literal 1 (-1)).
Proof.
  assert (Hw : wellFormed (literal 1 (-1)) = true) by reflexivity.
  assert (Hf : isFinite (literal 1 (-1)) = true) by reflexivity.
  assert (Hr : referenceUnit (mkUnit "Meter" "m" (Some (literal 1 0))))
    by (right; reflexivity).
  split; [exact Hw | split; [exact Hf | split; [exact Hr |]]].
  refine (convertValue_identity_reference_unit
            (literal 1 (-1)) (ofZ 3) "length" _ _ Hw Hf _ _ Hr);
    reflexivity.
Defined.

(** C7, as stated, fails: 0.1 degrees Fahrenheit converted to Fahrenheit
    goes through Celsius and comes back as 0.10000000000000142. *)
Lemma convertValue_identity_counterexample :
  ~ (forall (v index : number) (category : string)
            (units : list UnitDefinition),
        wellFormed v = true -> isFinite v = true ->
        unitList category = Some units -> inRange units index = true ->
        convertValue v index index category = VNumber v).
Proof.
  intros H.
  specialize (H (literal 1 (-1)) (ofZ 1) "temperature"%string _
                eq_refl eq_refl eq_refl eq_refl).
  vm_compute in H; discriminate H.
Qed.

(** The factor units lose the value to rounding as well: 7 centimeters
    converted to centimeters are 7 * 0.01 / 0.01, which is not 7. *)
Example convertValue_identity_linear_example :
  convertValue (ofZ 7) (ofZ 1) (ofZ 1) "length" <> VNumber (ofZ 7)
  /\ convertValue (ofZ 3) (ofZ 2) (ofZ 2) "length" <> VNumber (ofZ 3).
Proof. split; vm_compute; discriminate. Qed.

(** At the ends of the range the result is not even near the value: 1e308
    kilometers converted to kilometers overflow to Infinity, and 5e-324
    millimeters converted to millimeters are 0. *)
Example convertValue_identity_range_ends :
  convertValue (literal 1 308) (ofZ 6) (ofZ 6) "length" = VNumber Infinity
  /\ convertValue (literal 5 (-324)) (ofZ 0) (ofZ 0) "length" = VNumber zero.
Proof. split; vm_compute; reflexivity. Qed.

Section OutputSize.

Lemma allAscii_append (a b : string) :
  allAscii (a ++ b) = allAscii a && allAscii b.
Proof.
  induction a as [| c a IH]; simpl; [reflexivity |].
  rewrite IH, andb_assoc; reflexivity.
Qed.

Lemma allAscii_substring (n m : nat) (s : string) :
  allAscii s = true -> allAscii (substring n m s) = true.
Proof.
  revert n m; induction s as [| c s IH]; intros n m H.
  - destruct n, m; reflexivity.
  - simpl in H; apply andb_true_iff in H; destruct H as [Hc Hs].
    destruct n as [| n]; [destruct m as [| m] |]; simpl.
    + reflexivity.
    + rewrite Hc, (IH 0%nat m Hs); reflexivity.
    + apply IH; exact Hs.
Qed.

Lemma allAscii_uint (d : Decimal.uint) :
  allAscii (NilEmpty.string_of_uint d) = true.
Proof.
  induction d; simpl; auto.
Qed.

Lemma allAscii_digitsOf (n : Z) : allAscii (digitsOf n) = true.
Proof.
  apply allAscii_uint.
Qed.

Lemma allAscii_zeros (k : nat) : allAscii (zeros k) = true.
Proof.
  induction k; simpl; auto.
Qed.

Lemma allAscii_exponentPart (c : Z) : allAscii (exponentPart c) = true.
Proof.
  unfold exponentPart; rewrite !allAscii_append, allAscii_digitsOf.
  destruct (0 <=? c); reflexivity.
Qed.

(** The text [toExponential] builds is made of digits, the point, the
    letter e and signs, or is one of "NaN", "Infinity", "-Infinity". *)
Lemma allAscii_toExponential (x : number) (f : Z) :
  allAscii (toExponential x f) = true.
Proof.
  assert (R : forall m e, allAscii m = true ->
            allAscii
              ((if f =? 0 then m
                else substring 0 1 m ++ "." ++ substring 1 (Z.to_nat f) m)
               ++ exponentPart e) = true).
  { intros m e Hm; rewrite allAscii_append, allAscii_exponentPart.
    destruct (f =? 0); [rewrite Hm; reflexivity |].
    rewrite !allAscii_append, !allAscii_substring by exact Hm; reflexivity. }
  unfold toExponential; destruct x as [s | s | | s m e].
  - apply R, allAscii_zeros.
  - destruct s; reflexivity.
  - reflexivity.
  - destruct (fraction m e) as [p q].
    destruct (scaled p q (ilog10 p q - f)) as [a b].
    rewrite allAscii_append.
    destruct (nearest a b =? 10 ^ (f + 1));
      rewrite R by apply allAscii_digitsOf; destruct s; reflexivity.
Qed.

Lemma byteLength_ascii (s : string) :
  allAscii s = true -> byteLength s = String.length s.
Proof.
  induction s as [| c s IH]; simpl; [reflexivity |].
  intros H; apply andb_true_iff in H; destruct H as [Hc Hs].
  unfold utf8Size; unfold isAscii in Hc; rewrite Hc, (IH Hs); reflexivity.
Qed.

Lemma reducePrecision_fits (count : nat) (value : number) (s : string) :
  (8 <? getByteSize s)%nat = false -> reducePrecision count value s = s.
Proof.
  intros H; destruct count; cbn [reducePrecision]; [| rewrite H]; reflexivity.
Qed.

(** C8: the text [limitOutputSize] returns takes at most 8 bytes, for every
    Number, finite or not; when it falls back to cutting the exponential
    form, the text has at most 7 characters. *)
Theorem limitOutputSize_bound (value : number) :
  (getByteSize (limitOutputSize value) <= 8)%nat
  /\ (hardTruncated value = true ->
      (String.length (limitOutputSize value) <= 7)%nat).
Proof.
  unfold limitOutputSize, hardTruncated.
  destruct (isNaN value); cbn [negb andb]; [split; [simpl; lia | discriminate] |].
  destruct (8 <? getByteSize (toString value))%nat eqn:E1.
  - destruct (8 <? getByteSize (reducePrecision 11 value (toString value)))%nat
      eqn:E2.
    + destruct (8 <? getByteSize (toExponential value 2))%nat eqn:E3.
      * pose proof (length_substringTo 7 (toExponential value 2)) as L.
        split; [| intros _; exact L].
        unfold getByteSize, substringTo.
        rewrite byteLength_ascii
          by (apply allAscii_substring, allAscii_toExponential).
        unfold substringTo in L; lia.
      * apply Nat.ltb_ge in E3; split; [exact E3 | discriminate].
    + apply Nat.ltb_ge in E2; split; [exact E2 | discriminate].
  - rewrite (reducePrecision_fits 11 value _ E1), E1.
    apply Nat.ltb_ge in E1; split; [exact E1 | discriminate].
Qed.

End OutputSize.

(** What [limitOutputSize] makes of some Numbers; the last three take the
    cut to 7 characters. *)
Example limitOutputSize_examples :
  map (fun text => limitOutputSize (parseFloat text))
      ["0"; "42"; "3.14"; "123456789012345"; "0.1234567891234";
       "12345.6789123"; "-123456789"; "1.2345e-300";
       "1.23e100"; "-1.23e100"; "-Infinity"]%string
  = ["0"; "42"; "3.14"; "1.23e+14"; "0.123457";
     "12345.68"; "-1.23e+8"; "0";
     "1.23e+1"; "-1.23e+"; "-Infini"]%string
  /\ limitOutputSize NaN = ""%string.
Proof. vm_compute; split; reflexivity. Qed.

(* ================================================================== *)
(** * Further properties of the calculator engine *)
(* ================================================================== *)

Section StringFacts.

Lemma append_empty_r (s : string) : (s ++ "")%string = s.
Proof.
  induction s as [| c s IH]; simpl; [| rewrite IH]; reflexivity.
Qed.

Lemma append_assoc (a b c : string) :
  ((a ++ b) ++ c)%string = (a ++ (b ++ c))%string.
Proof.
  induction a as [| x a IH]; simpl; [| rewrite IH]; reflexivity.
Qed.

Lemma length_append (a b : string) :
  String.length (a ++ b) = (String.length a + String.length b)%nat.
Proof.
  induction a as [| x a IH]; simpl; [| rewrite IH]; reflexivity.
Qed.

Lemma occurrences_append (c : ascii) (a b : string) :
  occurrences c (a ++ b) = (occurrences c a + occurrences c b)%nat.
Proof.
  induction a as [| x a IH]; simpl; [reflexivity | rewrite IH; lia].
Qed.

Lemma occurrences_substring (c : ascii) (n m : nat) (s : string) :
  (occurrences c (substring n m s) <= occurrences c s)%nat.
Proof.
  revert n m; induction s as [| x s IH]; intros n m.
  - destruct n, m; simpl; lia.
  - destruct n as [| n]; [destruct m as [| m] |]; simpl.
    + lia.
    + specialize (IH 0%nat m); lia.
    + specialize (IH n m); lia.
Qed.

End StringFacts.

Section SessionOperations.

Local Open Scope string_scope.

Variable displayResult : option Display.

Lemma calculate_no_expression (st : CalculatorSession) :
  expression st = "" -> calculate displayResult st = st.
Proof.
  intros H; unfold calculate; rewrite H; reflexivity.
Qed.

Lemma expression_after_calculate (st : CalculatorSession) :
  expression (calculate displayResult st) = "".
Proof.
  unfold calculate.
  destruct (String.eqb_spec (expression st) "") as [E | _];
    [exact E | reflexivity].
Qed.

(** Equals leaves no expression pending, so a second equals changes
    nothing. *)
Theorem calculate_idempotent (st : CalculatorSession) :
  expression (calculate displayResult st) = ""
  /\ calculate displayResult (calculate displayResult st)
     = calculate displayResult st.
Proof.
  split; [apply expression_after_calculate |].
  apply calculate_no_expression, expression_after_calculate.
Qed.

Lemma inputOperator_resets (st : CalculatorSession) (op : string) :
  shouldResetInput (inputOperator displayResult st op) = true.
Proof.
  unfold inputOperator.
  destruct (negb (expression st =? "") && negb (shouldResetInput st)) eqn:C;
    [| reflexivity].
  destruct (updateDisplayThrows displayResult); [| reflexivity].
  apply andb_true_iff in C; destruct C as [C _].
  unfold calculate; apply negb_true_iff in C; rewrite C; reflexivity.
Qed.

(** On a page with both display elements, of two operators pressed one
    after the other the second replaces the first: the pending expression
    is evaluated at most once, by the first press. *)
Theorem inputOperator_last_wins (st : CalculatorSession) (op1 op2 : string) :
  updateDisplayThrows displayResult = false ->
  inputOperator displayResult (inputOperator displayResult st op1) op2
  = inputOperator displayResult st op2.
Proof.
  intros complete.
  unfold inputOperator at 1.
  rewrite inputOperator_resets, andb_false_r.
  unfold inputOperator; rewrite complete.
  destruct (negb (expression st =? "") && negb (shouldResetInput st));
    reflexivity.
Qed.

Lemma length_substring_prefix (n : nat) (s : string) :
  (n <= String.length s)%nat -> String.length (substring 0 n s) = n.
Proof.
  revert n; induction s as [| c s IH]; intros [| n] H; simpl in *;
    try reflexivity; try lia.
  rewrite IH by lia; reflexivity.
Qed.

Lemma sliceDropLast_last (s : string) :
  (1 <= String.length s)%nat ->
  exists c, s = sliceDropLast s ++ String c "".
Proof.
  unfold sliceDropLast.
  induction s as [| a s IH]; simpl; [lia |]; intros _.
  rewrite Nat.sub_0_r.
  destruct s as [| b s]; [exists a; reflexivity |].
  destruct IH as [c Hc]; [simpl; lia |].
  exists c; simpl in Hc; rewrite Nat.sub_0_r in Hc.
  change (substring 0 (String.length (String b s)) (String a (String b s)))
    with (String a (substring 0 (String.length s) (String b s))).
  simpl; f_equal; exact Hc.
Qed.

(** Backspace takes the last character off a text of two or more
    characters and puts "0" in place of a shorter one; it never leaves the
    current input empty and touches nothing else. *)
Theorem backspace_keeps_text (st : CalculatorSession) :
  let st' := backspace st in
  ((1 < String.length (currentInput st))%nat ->
     exists c, currentInput st = currentInput st' ++ String c "")
  /\ ((String.length (currentInput st) <= 1)%nat -> currentInput st' = "0")
  /\ currentInput st' <> ""
  /\ expression st' = expression st
  /\ shouldResetInput st' = shouldResetInput st.
Proof.
  unfold backspace.
  destruct (1 <? String.length (currentInput st))%nat eqn:E; cbn.
  - apply Nat.ltb_lt in E.
    repeat split; try lia.
    + intros _; apply sliceDropLast_last; lia.
    + intros H; apply (f_equal String.length) in H.
      unfold sliceDropLast in H.
      rewrite length_substring_prefix in H by lia; simpl in H; lia.
  - apply Nat.ltb_ge in E.
    repeat split; try lia; discriminate.
Qed.

Lemma withInput_same (st : CalculatorSession) :
  withInput (currentInput st) st = st.
Proof.
  destruct st; reflexivity.
Qed.

Lemma toggleSign_signToggled (st : CalculatorSession) :
  toggleSign displayResult st
  = if negb (currentInput st =? "0") then
      if negb (canFitInDisplay displayResult (signToggled (currentInput st)))
      then st
      else withInput (signToggled (currentInput st)) st
    else st.
Proof.
  reflexivity.
Qed.

Lemma sliceFrom1_cons (a : ascii) (r : string) :
  sliceFrom1 (String a r) = r.
Proof.
  unfold sliceFrom1; cbn [String.length Nat.sub substring].
  rewrite Nat.sub_0_r; apply substring_whole.
Qed.

Lemma signToggled_twice (text : string) :
  text <> "0" -> text <> "-0" -> startsWith text "--" = false ->
  signToggled text <> "0" /\ signToggled (signToggled text) = text.
Proof.
  intros H0 Hm0 Hmm; unfold signToggled, startsWith in *.
  destruct text as [| a r]; [split; [discriminate | reflexivity] |].
  rewrite prefix_single.
  destruct (Ascii.eqb_spec "-" a) as [<- | Hne].
  - rewrite sliceFrom1_cons.
    assert (Hr : String.prefix "-" r = false).
    { destruct r as [| b r']; [reflexivity |].
      rewrite prefix_single.
      cbn [String.prefix] in Hmm.
      destruct (ascii_dec "-" "-") as [_ | N]; [| contradiction].
      destruct (ascii_dec "-" b) as [<- | Hb].
      - destruct r'; discriminate Hmm.
      - apply Ascii.eqb_neq; exact Hb. }
    rewrite Hr; split; [| reflexivity].
    intros ->; apply Hm0; reflexivity.
  - change ("-" ++ String a r) with (String "-" (String a r)).
    rewrite prefix_single, Ascii.eqb_refl, sliceFrom1_cons.
    split; [discriminate | reflexivity].
Qed.

(** Toggling the sign twice gives the session back, for every current
    input that the display has room for, other than "-0" and the texts
    that begin with two minus signs. *)
Theorem toggleSign_involution (st : CalculatorSession) :
  currentInput st <> "-0" ->
  startsWith (currentInput st) "--" = false ->
  canFitInDisplay displayResult (currentInput st) = true ->
  toggleSign displayResult (toggleSign displayResult st) = st.
Proof.
  destruct st as [cur expr flag]; cbn [currentInput].
  intros Hm0 Hmm Hfit.
  rewrite (toggleSign_signToggled (mkSession cur expr flag)).
  cbn [currentInput].
  destruct (String.eqb_spec cur "0") as [E | H0]; cbn [negb].
  - rewrite toggleSign_signToggled; cbn [currentInput].
    rewrite E; reflexivity.
  - destruct (canFitInDisplay displayResult (signToggled cur)) eqn:Ft;
      cbn [negb].
    + destruct (signToggled_twice cur H0 Hm0 Hmm) as [Ht0 Htt].
      rewrite toggleSign_signToggled.
      unfold withInput; cbn [currentInput expression shouldResetInput].
      apply String.eqb_neq in Ht0; rewrite Ht0, Htt, Hfit; reflexivity.
    + rewrite toggleSign_signToggled; cbn [currentInput].
      apply String.eqb_neq in H0; rewrite H0, Ft; reflexivity.
Qed.

End SessionOperations.

Lemma inputOperator_last_wins_witness :
  updateDisplayThrows twelveCharacters = false
  /\ inputOperator twelveCharacters
       (inputOperator twelveCharacters (mkSession "3" "5 +" false) "-")
       MULTIPLY
     = mkSession "8" ("8 " ++ MULTIPLY) true.
Proof.
  assert (C : updateDisplayThrows twelveCharacters = false) by reflexivity.
  split; [exact C |].
  rewrite (inputOperator_last_wins twelveCharacters
             (mkSession "3" "5 +" false) "-" MULTIPLY C).
  vm_compute; reflexivity.
Defined.

(** With no display element the first press is left inside [calculate],
    and the second stores its operator: two presses then differ from
    one. *)
Example inputOperator_aborted :
  inputOperator None (mkSession "3" "5 +" false) "-"
  = mkSession "8" "" true
  /\ inputOperator None
       (inputOperator None (mkSession "3" "5 +" false) "-") MULTIPLY
     = mkSession "8" ("8 " ++ MULTIPLY) true.
Proof. vm_compute; split; reflexivity. Qed.

Lemma toggleSign_involution_witness :
  toggleSign None (mkSession "12.5" "7 +" false) = mkSession "-12.5" "7 +" false
  /\ toggleSign None (toggleSign None (mkSession "12.5" "7 +" false))
     = mkSession "12.5" "7 +" false.
Proof.
  split; [reflexivity |].
  refine (toggleSign_involution None (mkSession "12.5" "7 +" false) _ _ _).
  - discriminate.
  - reflexivity.
  - reflexivity.
Defined.

Section DigitEntry.

Local Open Scope string_scope.

Variable displayResult : option Display.

(** The display has room for every text. *)
Hypothesis room : forall s, canFitInDisplay displayResult s = true.

Lemma isDigit_token (c : ascii) :
  isDigit c = true -> In (String c "") digitTokens.
Proof.
  destruct c as [[] [] [] [] [] [] [] []]; intros H;
    try discriminate H; unfold digitTokens; simpl; tauto.
Qed.

Lemma click_digit_appends (cur : string) (c : ascii) :
  isDigit c = true -> cur <> "0" ->
  step displayResult (mkSession cur "" false) (Click (String c ""))
  = mkSession (cur ++ String c "") "" false.
Proof.
  intros Hc H0; cbn [step].
  rewrite (handleButtonClick_digit displayResult _ _ (isDigit_token c Hc)).
  unfold inputNumber; cbn [shouldResetInput currentInput].
  apply String.eqb_neq in H0; rewrite H0; cbn [andb].
  assert (Hp : (String c "" =? ".") = false).
  { simpl; rewrite (proj1 (proj2 (proj2 (digit_is_no_sign c Hc))));
      reflexivity. }
  rewrite Hp; cbn [andb]; rewrite room; reflexivity.
Qed.

Lemma click_digit_replaces_zero (c : ascii) :
  isDigit c = true ->
  step displayResult (mkSession "0" "" false) (Click (String c ""))
  = mkSession (String c "") "" false.
Proof.
  intros Hc; cbn [step].
  rewrite (handleButtonClick_digit displayResult _ _ (isDigit_token c Hc)).
  unfold inputNumber; cbn [shouldResetInput currentInput].
  assert (Hp : (String c "" =? ".") = false).
  { simpl; rewrite (proj1 (proj2 (proj2 (digit_is_no_sign c Hc))));
      reflexivity. }
  change ("0" =? "0") with true; rewrite Hp; cbn [negb andb].
  rewrite room; reflexivity.
Qed.

Lemma clicks_append_digits (text cur : string) :
  allDigits text = true -> cur <> "0" -> cur <> "" ->
  run displayResult (mkSession cur "" false) (clicks text)
  = mkSession (cur ++ text) "" false.
Proof.
  revert cur; induction text as [| c text IH]; intros cur Hd H0 He.
  - cbn; rewrite append_empty_r; reflexivity.
  - cbn [allDigits] in Hd; apply andb_true_iff in Hd; destruct Hd as [Hc Hd].
    cbn [clicks]; unfold run; cbn [fold_left].
    rewrite (click_digit_appends cur c Hc H0).
    fold (run displayResult (mkSession (cur ++ String c "") "" false)
            (clicks text)).
    rewrite IH; [| exact Hd | |].
    + rewrite append_assoc; reflexivity.
    + intros E; apply (f_equal String.length) in E.
      rewrite length_append in E; simpl in E.
      destruct cur; [contradiction | simpl in E; lia].
    + intros E; apply (f_equal String.length) in E.
      rewrite length_append in E; simpl in E; lia.
Qed.

(** Digits typed into the cleared session make up the current input;
    leading zeros are replaced, so that zeros alone leave "0". *)
Theorem digits_typed (text : string) :
  allDigits text = true ->
  run displayResult initialSession (clicks text)
  = mkSession (typedNumber text) "" false.
Proof.
  unfold initialSession, typedNumber.
  induction text as [| c text IH]; intros Hd; [reflexivity |].
  cbn [allDigits] in Hd; apply andb_true_iff in Hd; destruct Hd as [Hc Hd].
  cbn [clicks]; unfold run; cbn [fold_left].
  rewrite (click_digit_replaces_zero c Hc).
  fold (run displayResult (mkSession (String c "") "" false) (clicks text)).
  cbn [dropLeadingZeros].
  destruct (Ascii.eqb_spec c "0") as [-> | Hne].
  - exact (IH Hd).
  - rewrite clicks_append_digits; [reflexivity | exact Hd | | discriminate].
    intros E; apply Hne; congruence.
Qed.

End DigitEntry.

Lemma digits_typed_witness :
  (forall s, canFitInDisplay None s = true)
  /\ allDigits "00123" = true
  /\ run None initialSession (clicks "00123") = mkSession "123" "" false.
Proof.
  assert (R : forall s, canFitInDisplay None s = true)
    by (intros s; reflexivity).
  assert (D : allDigits "00123" = true) by reflexivity.
  split; [exact R | split; [exact D |]].
  exact (digits_typed None R "00123" D).
Defined.

Section NumberTexts.

Lemma nondigit_eqb (c d : ascii) :
  isDigit c = false -> isDigit d = true -> Ascii.eqb c d = false.
Proof.
  intros Hc Hd; apply Ascii.eqb_neq; intros ->; congruence.
Qed.

Lemma occurrences_uint (c : ascii) (d : Decimal.uint) :
  isDigit c = false -> occurrences c (NilEmpty.string_of_uint d) = 0%nat.
Proof.
  intros Hc; induction d; simpl; try reflexivity;
    rewrite IHd, nondigit_eqb by (exact Hc || reflexivity); reflexivity.
Qed.

Lemma occurrences_digitsOf (c : ascii) (n : Z) :
  isDigit c = false -> occurrences c (digitsOf n) = 0%nat.
Proof.
  apply occurrences_uint.
Qed.

Lemma occurrences_zeros (c : ascii) (k : nat) :
  isDigit c = false -> occurrences c (zeros k) = 0%nat.
Proof.
  intros Hc; induction k; simpl; [reflexivity |].
  rewrite IHk, nondigit_eqb by (exact Hc || reflexivity); reflexivity.
Qed.

Lemma occurrences_exponentPart (c : ascii) (x : Z) :
  isDigit c = false ->
  (occurrences c (exponentPart x) <= occurrences c "e+-")%nat.
Proof.
  intros Hc; unfold exponentPart.
  rewrite !occurrences_append, occurrences_digitsOf by exact Hc.
  destruct (0 <=? x); simpl; lia.
Qed.

(** A code unit that is no digit occurs in the text of a positive Number
    at most as often as in ".e+-": the point, the exponent mark and its
    sign are all there is beside digits. *)
Lemma occurrences_toStringPositive (c : ascii) (m : positive) (e : Z) :
  isDigit c = false ->
  (occurrences c (toStringPositive m e) <= occurrences c ".e+-")%nat.
Proof.
  intros Hc; unfold toStringPositive.
  destruct (fraction m e) as [p q].
  destruct (shortest 17 (S754_finite false m e) p q (ilog10 p q) 1) as [s t].
  set (ds := digitsOf s).
  assert (D : occurrences c ds = 0%nat) by (apply occurrences_digitsOf, Hc).
  pose proof (fun n k => occurrences_substring c n k ds) as S.
  pose proof (occurrences_exponentPart c (len ds + t - 1) Hc) as X.
  pose proof (nondigit_eqb c "0" Hc eq_refl) as Z0.
  repeat match goal with
         | |- context [if ?b then _ else _] => destruct b
         end;
    rewrite ?occurrences_append, ?occurrences_zeros, ?D by exact Hc;
    repeat match goal with
           | |- context [occurrences c (substring ?n ?k ds)] =>
               let H := fresh in
               pose proof (S n k) as H;
               generalize dependent (occurrences c (substring n k ds));
               intros
           end;
    simpl in *; rewrite ?Z0; lia.
Qed.

Lemma toString_no_space (x : number) : occurrences " " (toString x) = 0%nat.
Proof.
  destruct x as [s | s | | s m e]; try reflexivity.
  - destruct s; reflexivity.
  - pose proof (occurrences_toStringPositive " " m e eq_refl) as H.
    unfold toString; rewrite occurrences_append.
    destruct s; simpl in *; lia.
Qed.

Lemma toString_one_point (x : number) :
  (occurrences "." (toString x) <= 1)%nat.
Proof.
  destruct x as [s | s | | s m e]; try (simpl; lia).
  - destruct s; simpl; lia.
  - pose proof (occurrences_toStringPositive "." m e eq_refl) as H.
    unfold toString; rewrite occurrences_append.
    destruct s; simpl in *; lia.
Qed.

End NumberTexts.

Section SessionInvariant.

Local Open Scope string_scope.

Variable displayResult : option Display.

Lemma occurrences_truncateToFit (c : ascii) (fuel : nat) (s : string) :
  (occurrences c (truncateToFit displayResult fuel s) <= occurrences c s)%nat.
Proof.
  revert s; induction fuel as [| fuel IH]; intros s; cbn [truncateToFit];
    [lia |].
  destruct ((0 <? String.length s)%nat
            && negb (canFitInDisplay displayResult s)); [| lia].
  specialize (IH (sliceDropLast s)).
  pose proof (occurrences_substring c 0 (String.length s - 1) s) as H.
  unfold sliceDropLast in *; lia.
Qed.

Lemma includes_occurrences (c : ascii) (s : string) :
  includes s (String c "") = false -> occurrences c s = 0%nat.
Proof.
  induction s as [| a s IH]; [reflexivity |].
  cbn [includes occurrences]; rewrite prefix_single.
  intros H; apply orb_false_iff in H; destruct H as [Hc Hs].
  rewrite Hc, (IH Hs); reflexivity.
Qed.

Lemma evaluateOperation_kinds (a b : number) (op : string) :
  (exists r, evaluateOperation a op b = VNumber r)
  \/ evaluateOperation a op b = VString "Error".
Proof.
  unfold evaluateOperation.
  repeat match goal with
         | |- context [if ?c then _ else _] => destruct c
         end; eauto.
Qed.

Lemma shown_result_invariant (x : number) :
  let text := toString x in
  let shown :=
    if negb (canFitInDisplay displayResult text) then
      if truncateToFit displayResult (String.length text) text =? ""
      then "0"
      else truncateToFit displayResult (String.length text) text
    else text in
  occurrences " " shown = 0%nat /\ (occurrences "." shown <= 1)%nat.
Proof.
  cbv zeta.
  pose proof (toString_no_space x) as Hs.
  pose proof (toString_one_point x) as Hp.
  pose proof (occurrences_truncateToFit " "
                (String.length (toString x)) (toString x)).
  pose proof (occurrences_truncateToFit "."
                (String.length (toString x)) (toString x)).
  destruct (negb (canFitInDisplay displayResult (toString x)));
    [| split; lia].
  destruct (truncateToFit displayResult _ _ =? ""); split; simpl; lia.
Qed.

(** The text equals puts into the current input has no space and at most
    one decimal point. *)
Lemma calculate_invariant (st : CalculatorSession) :
  sessionInvariant st -> sessionInvariant (calculate displayResult st).
Proof.
  intros Hst; unfold calculate.
  destruct (expression st =? ""); [exact Hst |].
  cbv zeta.
  assert (W : wellFormedExpression "") by (left; reflexivity).
  destruct (nth_error (split " " (expression st)) 1) as [operator |].
  - destruct (evaluateOperation_kinds
                (parseFloat (hd "" (split " " (expression st))))
                (parseFloat (currentInput st)) operator)
      as [[r E] | E]; rewrite E.
    + destruct (shown_result_invariant
                  (round (r * ofZ 1000000000) / ofZ 1000000000)%num)
        as [Hs Hp].
      repeat split; assumption.
    + repeat split; simpl; auto.
  - destruct (shown_result_invariant
                (round (NaN * ofZ 1000000000) / ofZ 1000000000)%num)
      as [Hs Hp].
    repeat split; assumption.
Qed.

(** What a digit or the decimal point adds to the current input. *)
Lemma inputNumber_invariant (st : CalculatorSession) (num : string) :
  In num digitTokens \/ num = "." ->
  sessionInvariant st ->
  sessionInvariant (inputNumber displayResult st num).
Proof.
  intros Hnum (Hs & Hp & He).
  assert (N : occurrences " " num = 0%nat
              /\ (occurrences "." num <= 1)%nat
              /\ ((num =? ".") = false -> occurrences "." num = 0%nat)).
  { destruct Hnum as [Hd | ->]; [| repeat split; simpl; auto; discriminate].
    unfold digitTokens in Hd; simpl in Hd.
    repeat (destruct Hd as [<- | Hd]; [repeat split; simpl; auto |]).
    contradiction. }
  destruct N as (Ns & Np & Nd).
  unfold inputNumber.
  destruct (shouldResetInput st).
  - destruct (canFitInDisplay displayResult num); cbn [negb];
      repeat split; auto.
  - destruct ((currentInput st =? "0") && negb (num =? ".")).
    + destruct (canFitInDisplay displayResult num); cbn [negb];
        repeat split; auto.
    + destruct (num =? ".") eqn:Ep; cbn [andb].
      * destruct (includes (currentInput st) ".") eqn:Ei;
          [repeat split; auto |].
        apply (includes_occurrences "." (currentInput st)) in Ei.
        destruct (canFitInDisplay displayResult _); cbn [negb];
          repeat split; auto; cbn [currentInput withInput];
          rewrite occurrences_append; lia.
      * specialize (Nd eq_refl).
        destruct (canFitInDisplay displayResult _); cbn [negb];
          repeat split; auto; cbn [currentInput withInput];
          rewrite occurrences_append; lia.
Qed.

Lemma inputOperator_invariant (st : CalculatorSession) (op : string) :
  In op operators ->
  sessionInvariant st ->
  sessionInvariant (inputOperator displayResult st op).
Proof.
  intros Hop Hst.
  assert (K : forall st' : CalculatorSession,
    sessionInvariant st' ->
    sessionInvariant
      (mkSession (currentInput st') (currentInput st' ++ " " ++ op) true)).
  { intros st' (Hs & Hp & _); repeat split; auto.
    right; exists (currentInput st'), op; auto. }
  unfold inputOperator.
  destruct (negb (expression st =? "") && negb (shouldResetInput st));
    [| apply K; exact Hst].
  cbv zeta; destruct (updateDisplayThrows displayResult);
    [| apply K]; apply calculate_invariant; exact Hst.
Qed.

Lemma toggleSign_invariant (st : CalculatorSession) :
  sessionInvariant st -> sessionInvariant (toggleSign displayResult st).
Proof.
  intros (Hs & Hp & He); rewrite toggleSign_signToggled.
  destruct (negb (currentInput st =? "0")); [| repeat split; auto].
  destruct (negb (canFitInDisplay displayResult _)); [repeat split; auto |].
  assert (T : forall c, c <> "-"%char ->
              (occurrences c (signToggled (currentInput st))
               <= occurrences c (currentInput st))%nat).
  { intros c Hc; unfold signToggled.
    destruct (startsWith (currentInput st) "-").
    - apply occurrences_substring.
    - apply Ascii.eqb_neq in Hc. simpl; rewrite Hc; lia. }
  pose proof (T " "%char ltac:(discriminate)).
  pose proof (T "."%char ltac:(discriminate)).
  repeat split; cbn [currentInput withInput]; auto; lia.
Qed.

Lemma backspace_invariant (st : CalculatorSession) :
  sessionInvariant st -> sessionInvariant (backspace st).
Proof.
  intros (Hs & Hp & He); unfold backspace.
  destruct (1 <? String.length (currentInput st))%nat;
    [| repeat split; simpl; auto].
  pose proof (occurrences_substring " " 0
                (String.length (currentInput st) - 1) (currentInput st)).
  pose proof (occurrences_substring "." 0
                (String.length (currentInput st) - 1) (currentInput st)).
  repeat split; cbn [currentInput withInput]; auto;
    unfold sliceDropLast; lia.
Qed.

Lemma percentage_invariant (st : CalculatorSession) :
  sessionInvariant st -> sessionInvariant (percentage st).
Proof.
  intros (Hs & Hp & He); unfold percentage.
  repeat split; cbn [currentInput withInput expression]; auto.
  - apply toString_no_space.
  - apply toString_one_point.
Qed.

Lemma step_invariant (st : CalculatorSession) (a : Action) :
  inVocabulary a -> sessionInvariant st ->
  sessionInvariant (step displayResult st a).
Proof.
  intros Ha Hst; destruct a as [value |];
    [| apply backspace_invariant; exact Hst].
  cbn [step]; unfold inVocabulary, buttons in Ha; simpl in Ha.
  assert (D : forall digit, In digit digitTokens ->
              sessionInvariant (handleButtonClick displayResult st digit)).
  { intros digit Hd; rewrite (handleButtonClick_digit displayResult st _ Hd).
    apply inputNumber_invariant; auto. }
  assert (O : forall op, In op operators ->
              sessionInvariant (inputOperator displayResult st op))
    by (intros; apply inputOperator_invariant; auto).
  unfold digitTokens in D; unfold operators in O.
  repeat (destruct Ha as [<- | Ha];
          [solve [ apply D; simpl; tauto
                 | change (handleButtonClick displayResult st ".")
                     with (inputNumber displayResult st ".");
                   apply inputNumber_invariant; auto
                 | apply O; simpl; tauto
                 | repeat split; simpl; auto; left; reflexivity
                 | apply toggleSign_invariant; exact Hst
                 | apply percentage_invariant; exact Hst
                 | apply calculate_invariant; exact Hst ] |]).
  contradiction.
Qed.

Lemma run_invariant (actions : list Action) (st : CalculatorSession) :
  Forall inVocabulary actions -> sessionInvariant st ->
  sessionInvariant (run displayResult st actions).
Proof.
  revert st; induction actions as [| a actions IH]; intros st Hall Hst;
    [exact Hst |].
  inversion Hall as [| ? ? Ha Hrest]; subst.
  apply IH; [exact Hrest | apply step_invariant; assumption].
Qed.

Lemma initial_invariant : sessionInvariant initialSession.
Proof.
  repeat split; simpl; auto; left; reflexivity.
Qed.

End SessionInvariant.

Section PendingExpression.

Local Open Scope string_scope.

Variable displayResult : option Display.

Lemma split_no_space (s : string) :
  occurrences " " s = 0%nat -> split " " s = [s].
Proof.
  induction s as [| c s IH]; [reflexivity |].
  cbn [occurrences split]; rewrite (Ascii.eqb_sym c " ").
  destruct (Ascii.eqb " " c); [discriminate |].
  intros H; rewrite (IH H); reflexivity.
Qed.

Lemma split_at_space (a b : string) :
  occurrences " " a = 0%nat ->
  split " " (a ++ String " " b) = a :: split " " b.
Proof.
  induction a as [| c a IH]; [reflexivity |].
  cbn [occurrences split append]; rewrite (Ascii.eqb_sym c " ").
  destruct (Ascii.eqb " " c); [discriminate |].
  intros H; rewrite (IH H); reflexivity.
Qed.

Lemma operator_no_space (op : string) :
  In op operators -> occurrences " " op = 0%nat.
Proof.
  intros H; destruct (operator_cases op H) as [-> | [-> | [-> | ->]]];
    reflexivity.
Qed.

Lemma split_expression (operand op : string) :
  occurrences " " operand = 0%nat -> In op operators ->
  split " " (operand ++ " " ++ op) = [operand; op].
Proof.
  intros Ha Hop.
  change (operand ++ " " ++ op) with (operand ++ String " " op).
  rewrite (split_at_space operand op Ha).
  rewrite (split_no_space op (operator_no_space op Hop)); reflexivity.
Qed.

Lemma expression_not_empty (operand op : string) :
  (operand ++ " " ++ op =? "") = false.
Proof.
  apply String.eqb_neq; intros E; apply (f_equal String.length) in E.
  rewrite length_append in E; simpl in E; lia.
Qed.

(** Equals on a division whose divisor reads as zero puts "Error" into the
    current input, whatever the dividend and whatever the display has room
    for. *)
Theorem division_by_zero_shows_error
    (st : CalculatorSession) (operand : string) :
  expression st = operand ++ " " ++ DIVIDE ->
  occurrences " " operand = 0%nat ->
  strictEq (parseFloat (currentInput st)) zero = true ->
  calculate displayResult st = mkSession "Error" "" true.
Proof.
  intros He Ha Hz.
  assert (Hop : In DIVIDE operators) by (unfold operators; simpl; tauto).
  unfold calculate.
  rewrite He, expression_not_empty, (split_expression operand DIVIDE Ha Hop).
  cbn [nth_error hd]; unfold evaluateOperation.
  change (DIVIDE =? "+") with false; change (DIVIDE =? "-") with false.
  change (DIVIDE =? MULTIPLY) with false; change (DIVIDE =? DIVIDE) with true.
  cbv iota; rewrite Hz; reflexivity.
Qed.

Lemma calculate_same_as_earlier (st : CalculatorSession) :
  wellFormedExpression (expression st) ->
  Earlier.calculate displayResult st = calculate displayResult st.
Proof.
  intros [He | (operand & op & He & Ha & Hop)];
    unfold Earlier.calculate, calculate; rewrite He; [reflexivity |].
  rewrite expression_not_empty, (split_expression operand op Ha Hop).
  cbn [nth_error hd]; unfold evaluateOperation.
  destruct (op =? "+") eqn:E1; [reflexivity |].
  destruct (op =? "-") eqn:E2; [reflexivity |].
  destruct (op =? MULTIPLY) eqn:E3; [reflexivity |].
  destruct (op =? DIVIDE) eqn:E4.
  - destruct (negb (strictEq (parseFloat (currentInput st)) zero));
      reflexivity.
  - exfalso.
    destruct (operator_cases op Hop) as [-> | [-> | [-> | ->]]];
      discriminate.
Qed.

(** In every session the page can reach, on any display, the current input
    has no space in it and at most one decimal point. *)
Theorem currentInput_single_point (actions : list Action) :
  Forall inVocabulary actions ->
  let st := run displayResult initialSession actions in
  (occurrences "." (currentInput st) <= 1)%nat
  /\ occurrences " " (currentInput st) = 0%nat.
Proof.
  intros Hall.
  destruct (run_invariant displayResult actions initialSession Hall
              initial_invariant) as (Hs & Hp & _).
  split; assumption.
Qed.

(** In every session the page can reach, the pending expression is empty
    or splits at its space into an operand and one of the four operator
    signs: equals never meets an operator it does not know. *)
Theorem pending_expression_splits (actions : list Action) :
  Forall inVocabulary actions ->
  let st := run displayResult initialSession actions in
  expression st = ""
  \/ exists operand op,
       split " " (expression st) = [operand; op] /\ In op operators.
Proof.
  intros Hall.
  destruct (run_invariant displayResult actions initialSession Hall
              initial_invariant) as (_ & _ & [He | (a & op & He & Ha & Hop)]).
  - left; exact He.
  - right; exists a, op; split; [| exact Hop].
    cbv zeta; rewrite He; apply split_expression; assumption.
Qed.

(** On every session the page can reach, [calculate] of the earlier
    listing, which switches on the operator itself, and [calculate] built
    on [evaluateOperation] give the same session. *)
Theorem calculate_agrees_with_earlier (actions : list Action) :
  Forall inVocabulary actions ->
  let st := run displayResult initialSession actions in
  Earlier.calculate displayResult st = calculate displayResult st.
Proof.
  intros Hall; apply calculate_same_as_earlier.
  exact (proj2 (proj2 (run_invariant displayResult actions initialSession
                         Hall initial_invariant))).
Qed.

End PendingExpression.

Lemma division_by_zero_shows_error_witness :
  expression (mkSession "0" ("5 " ++ DIVIDE) false) = "5" ++ " " ++ DIVIDE
  /\ occurrences " " "5" = 0%nat
  /\ strictEq (parseFloat "0") zero = true
  /\ calculate None (mkSession "0" ("5 " ++ DIVIDE) false)
     = mkSession "Error" "" true.
Proof.
  assert (E : expression (mkSession "0" ("5 " ++ DIVIDE) false)
              = "5" ++ " " ++ DIVIDE) by reflexivity.
  assert (A : occurrences " " "5" = 0%nat) by reflexivity.
  assert (Z : strictEq (parseFloat "0") zero = true) by reflexivity.
  split; [exact E | split; [exact A | split; [exact Z |]]].
  exact (division_by_zero_shows_error None _ "5" E A Z).
Defined.

Lemma vocabulary_pressed : Forall inVocabulary pressed.
Proof.
  unfold pressed.
  repeat (apply Forall_cons; [unfold inVocabulary, buttons; simpl; tauto |]).
  apply Forall_nil.
Qed.

Lemma currentInput_single_point_witness :
  Forall inVocabulary pressed
  /\ (occurrences "." (currentInput (run None initialSession pressed)) <= 1)%nat.
Proof.
  split; [exact vocabulary_pressed |].
  exact (proj1 (currentInput_single_point None pressed vocabulary_pressed)).
Defined.

Lemma pending_expression_splits_witness :
  Forall inVocabulary pressed
  /\ (expression (run None initialSession pressed) = ""%string
      \/ exists operand op,
           split " " (expression (run None initialSession pressed))
           = [operand; op] /\ In op operators).
Proof.
  split; [exact vocabulary_pressed |].
  exact (pending_expression_splits None pressed vocabulary_pressed).
Defined.

Lemma calculate_agrees_with_earlier_witness :
  Forall inVocabulary pressed
  /\ Earlier.calculate None (run None initialSession pressed)
     = calculate None (run None initialSession pressed).
Proof.
  split; [exact vocabulary_pressed |].
  exact (calculate_agrees_with_earlier None pressed vocabulary_pressed).
Defined.

(** Off the sessions the page can reach the two listings differ: on an
    operator that is none of the four the earlier [calculate] returns at
    once, the later one shows NaN. *)
Example calculate_differs_from_earlier :
  Earlier.calculate None (mkSession "5" "3 ^" false)
  = mkSession "5" "3 ^" false
  /\ calculate None (mkSession "5" "3 ^" false) = mkSession "NaN" "" true.
Proof. vm_compute; split; reflexivity. Qed.

Section Keyboard.

Local Open Scope string_scope.

Variable displayResult : option Display.

Lemma existsb_In (value : string) (l : list string) :
  existsb (String.eqb value) l = true -> In value l.
Proof.
  intros H; apply existsb_exists in H; destruct H as (x & Hx & E).
  apply String.eqb_eq in E; subst x; exact Hx.
Qed.

Lemma ownProperty_In {A : Type} (own : list (string * A)) (key : string)
    (a : A) :
  ownProperty own key = Some a -> In (key, a) own.
Proof.
  induction own as [| [k x] rest IH]; simpl; [discriminate |].
  destruct (String.eqb_spec k key) as [-> | _].
  - intros H; injection H as ->; left; reflexivity.
  - intros H; right; exact (IH H).
Qed.

(** What [mapKeyToValue] answers for the keys [keyMap] lists, entry by
    entry, and that each answer is "Backspace" or the text of a button. *)
Lemma keyMap_entries :
  Forall (fun entry =>
            ownProperty keyMap (fst entry) = Some (snd entry)
            /\ mapKeyToValue (fst entry) = VString (snd entry)
            /\ inVocabulary (actionOf (snd entry)))
         keyMap.
Proof.
  unfold keyMap.
  repeat (apply Forall_cons;
          [split; [reflexivity | split; [reflexivity |]];
           unfold actionOf; cbn [snd];
           first [ exact I | apply existsb_In; reflexivity ] |]).
  apply Forall_nil.
Qed.

Lemma mapKeyToValue_text (key value : string) :
  mapKeyToValue key = VString value <-> In (key, value) keyMap.
Proof.
  split.
  - unfold mapKeyToValue, getProperty.
    destruct (ownProperty keyMap key) as [v |] eqn:E.
    + apply ownProperty_In in E.
      destruct (v =? ""); [discriminate |].
      intros H; injection H as <-; exact E.
    + destruct (existsb (String.eqb key) objectPrototype); discriminate.
  - intros H.
    exact (proj1 (proj2 (proj1 (Forall_forall _ _) keyMap_entries
                           (key, value) H))).
Qed.

Lemma mapKeyToValue_member (key name : string) :
  mapKeyToValue key = VBuiltin name -> In key objectPrototype.
Proof.
  unfold mapKeyToValue, getProperty.
  destruct (ownProperty keyMap key) as [v |];
    [destruct (v =? ""); discriminate |].
  destruct (existsb (String.eqb key) objectPrototype) eqn:E;
    [intros _; apply existsb_In; exact E | discriminate].
Qed.

Lemma handleKeyboard_cases (st : CalculatorSession) (event : KeyboardEvent) :
  handleKeyboard displayResult st event
  = if inFormField event then Ignored
    else match mapKeyToValue (key event) with
         | VString value => Updated (step displayResult st (actionOf value))
         | VBuiltin name => inputMember displayResult st name
         | _ => Ignored
         end.
Proof.
  unfold handleKeyboard, inFormField.
  destruct (targetTagName event) as [tagName |]; cbn [existsb].
  - rewrite orb_false_r, orb_assoc.
    destruct ((tagName =? "INPUT") || (tagName =? "TEXTAREA")
              || (tagName =? "SELECT")); [reflexivity |].
    destruct (mapKeyToValue (key event)) as [| | | value |]; try reflexivity.
    unfold actionOf; destruct (value =? "Backspace"); reflexivity.
  - destruct (mapKeyToValue (key event)) as [| | | value |]; try reflexivity.
    unfold actionOf; destruct (value =? "Backspace"); reflexivity.
Qed.

(** For a key that is not the name of a member of [Object.prototype], a
    key press updates the session exactly when its target is no form
    field and [keyMap] lists the key; the update is then the one of the
    listed button, or of backspace. *)
Theorem handleKeyboard_updates
    (st st' : CalculatorSession) (event : KeyboardEvent) :
  ~ In (key event) objectPrototype ->
  (handleKeyboard displayResult st event = Updated st'
   <-> inFormField event = false
       /\ exists value,
            In (key event, value) keyMap
            /\ st' = step displayResult st (actionOf value)).
Proof.
  intros Hproto; rewrite handleKeyboard_cases; split.
  - destruct (inFormField event); [discriminate |].
    destruct (mapKeyToValue (key event)) as [| | | value | name] eqn:E;
      try discriminate.
    + intros H; injection H as <-.
      split; [reflexivity |]; exists value; split; [| reflexivity].
      apply mapKeyToValue_text; exact E.
    + exfalso; exact (Hproto (mapKeyToValue_member _ _ E)).
  - intros (-> & value & Hin & ->).
    apply mapKeyToValue_text in Hin; rewrite Hin; reflexivity.
Qed.

(** For a key that is not the name of a member of [Object.prototype],
    whatever a key press does to the session, an action of the button
    vocabulary does as well: such keys reach no session the buttons and
    backspace do not reach. *)
Theorem keyboard_within_vocabulary
    (st st' : CalculatorSession) (event : KeyboardEvent) :
  ~ In (key event) objectPrototype ->
  handleKeyboard displayResult st event = Updated st' ->
  exists a, inVocabulary a /\ st' = step displayResult st a.
Proof.
  intros Hproto; rewrite handleKeyboard_cases.
  destruct (inFormField event); [discriminate |].
  destruct (mapKeyToValue (key event)) as [| | | value | name] eqn:E;
    try discriminate.
  - intros H; injection H as <-.
    exists (actionOf value); split; [| reflexivity].
    apply mapKeyToValue_text in E.
    exact (proj2 (proj2 (proj1 (Forall_forall _ _) keyMap_entries
                           (key event, value) E))).
  - exfalso; exact (Hproto (mapKeyToValue_member _ _ E)).
Qed.

(** A key press is ignored when its target is an input, a text area or a
    select element, whatever the key, and when the key is neither listed
    in [keyMap] nor the name of a member of [Object.prototype]. *)
Theorem handleKeyboard_ignores
    (st : CalculatorSession) (event : KeyboardEvent) :
  inFormField event = true
  \/ (~ In (key event) mappedKeys /\ ~ In (key event) objectPrototype) ->
  handleKeyboard displayResult st event = Ignored.
Proof.
  rewrite handleKeyboard_cases.
  intros [-> | [Hmap Hproto]]; [reflexivity |].
  rewrite (mapKeyToValue_unmapped (key event) Hmap Hproto).
  destruct (inFormField event); reflexivity.
Qed.

End Keyboard.

Lemma comma_no_member : ~ In ","%string objectPrototype.
Proof.
  unfold objectPrototype; simpl; intros H.
  repeat (destruct H as [H | H]; [discriminate H |]); exact H.
Qed.

Lemma handleKeyboard_updates_witness :
  ~ In (key (mkKeyboardEvent (Some "BODY") ",")) objectPrototype
  /\ inFormField (mkKeyboardEvent (Some "BODY") ",") = false
  /\ In (",", ".")%string keyMap
  /\ handleKeyboard twelveCharacters initialSession
       (mkKeyboardEvent (Some "BODY") ",")
     = Updated (mkSession "0." "" false).
Proof.
  assert (K : In (",", ".")%string keyMap) by (unfold keyMap; simpl; tauto).
  split; [exact comma_no_member | split; [reflexivity | split; [exact K |]]].
  apply (proj2 (handleKeyboard_updates twelveCharacters initialSession
                  (mkSession "0." "" false)
                  (mkKeyboardEvent (Some "BODY") ",") comma_no_member)).
  split; [reflexivity |].
  exists "."%string; split; [exact K | reflexivity].
Defined.

Lemma keyboard_within_vocabulary_witness :
  ~ In (key (mkKeyboardEvent (Some "BODY") ",")) objectPrototype
  /\ handleKeyboard None initialSession (mkKeyboardEvent (Some "BODY") ",")
     = Updated (mkSession "0." "" false)
  /\ exists a, inVocabulary a
               /\ mkSession "0." "" false = step None initialSession a.
Proof.
  assert (H : handleKeyboard None initialSession
                (mkKeyboardEvent (Some "BODY") ",")
              = Updated (mkSession "0." "" false)) by reflexivity.
  split; [exact comma_no_member | split; [exact H |]].
  exact (keyboard_within_vocabulary None initialSession _
           (mkKeyboardEvent (Some "BODY") ",") comma_no_member H).
Defined.

(** The key of a member name is not ignored.  After 5 the key "toString"
    appends the text of the function, which is more than twelve characters
    can show but what a page without display element takes; on the cleared
    session the function itself takes the place of "0". *)
Example handleKeyboard_member_key :
  handleKeyboard None (mkSession "5" "" false)
    (mkKeyboardEvent (Some "BODY") "toString")
  = Updated (mkSession "5function toString() { [native code] }" "" false)
  /\ handleKeyboard twelveCharacters (mkSession "5" "" false)
       (mkKeyboardEvent (Some "BODY") "toString")
     = Updated (mkSession "5" "" false)
  /\ handleKeyboard None initialSession
       (mkKeyboardEvent (Some "BODY") "toString")
     = MemberStored "toString" "".
Proof. vm_compute; repeat split. Qed.

Lemma handleKeyboard_ignores_witness :
  (inFormField (mkKeyboardEvent (Some "INPUT") "5") = true
   \/ (~ In (key (mkKeyboardEvent (Some "INPUT") "5")) mappedKeys
       /\ ~ In (key (mkKeyboardEvent (Some "INPUT") "5")) objectPrototype))
  /\ handleKeyboard None initialSession (mkKeyboardEvent (Some "INPUT") "5")
     = Ignored.
Proof.
  assert (H : inFormField (mkKeyboardEvent (Some "INPUT") "5") = true
              \/ (~ In (key (mkKeyboardEvent (Some "INPUT") "5")) mappedKeys
                  /\ ~ In (key (mkKeyboardEvent (Some "INPUT") "5"))
                          objectPrototype))
    by (left; reflexivity).
  split; [exact H |].
  exact (handleKeyboard_ignores None initialSession _ H).
Defined.

(* ================================================================== *)
(** * Further properties of the converter *)
(* ================================================================== *)

Section NumberResults.

Lemma iter_pos_invariant {A : Type} (P : A -> Prop) (f : A -> A) :
  (forall x, P x -> P (f x)) ->
  forall n x, P x -> P (iter_pos f n x).
Proof.
  intros Hf; induction n as [n IH | n IH |]; intros x Hx; cbn [iter_pos];
    auto.
Qed.

Lemma shr_1_nonneg (mrs : shr_record) :
  0 <= shr_m mrs -> 0 <= shr_m (shr_1 mrs).
Proof.
  destruct mrs as [m r s]; cbn [shr_m].
  destruct m as [| [p | p |] | p]; cbn; lia.
Qed.

Lemma shr_nonneg (mrs : shr_record) (e n : Z) :
  0 <= shr_m mrs -> 0 <= shr_m (fst (shr mrs e n)).
Proof.
  intros H; destruct n as [| p | p]; cbn [shr fst]; auto.
  apply (iter_pos_invariant (fun x => 0 <= shr_m x)); auto.
  apply shr_1_nonneg.
Qed.

Lemma shr_fexp_nonneg (m e : Z) (l : location) :
  0 <= m -> 0 <= shr_m (fst (shr_fexp prec emax m e l)).
Proof.
  intros H; unfold shr_fexp; apply shr_nonneg.
  destruct l as [| []]; cbn; exact H.
Qed.

(** Rounding a mantissa that is not negative gives a zero, a finite Number
    or an infinity. *)
Lemma binary_round_aux_number (s : bool) (m e : Z) (l : location) :
  0 <= m -> isNaN (binary_round_aux prec emax s m e l) = false.
Proof.
  intros H; unfold binary_round_aux.
  pose proof (shr_fexp_nonneg m e l H) as H1.
  destruct (shr_fexp prec emax m e l) as [mrs' e']; cbn [fst] in H1.
  assert (H2 : 0 <= round_nearest_even (shr_m mrs')
                      (loc_of_shr_record mrs')).
  { unfold round_nearest_even.
    destruct (loc_of_shr_record mrs') as [| []];
      try destruct (Z.even (shr_m mrs')); lia. }
  pose proof (shr_fexp_nonneg _ e' loc_Exact H2) as H3.
  destruct (shr_fexp prec emax _ e' loc_Exact) as [mrs'' e''];
    cbn [fst] in H3.
  destruct (shr_m mrs'') as [| p | p]; [reflexivity | | lia].
  destruct (e'' <=? emax - prec); reflexivity.
Qed.

Lemma binary_round_number (s : bool) (m : positive) (e : Z) :
  isNaN (binary_round prec emax s m e) = false.
Proof.
  unfold binary_round.
  destruct (shl_align m e _) as [mz ez].
  apply binary_round_aux_number; lia.
Qed.

Lemma binary_normalize_number (m e : Z) (s : bool) :
  isNaN (binary_normalize prec emax m e s) = false.
Proof.
  destruct m; cbn [binary_normalize]; [reflexivity | |];
    apply binary_round_number.
Qed.

Lemma add_number (x c : number) :
  isNaN x = false -> finiteNonzero c = true -> isNaN (x + c)%num = false.
Proof.
  destruct c as [| | | sc mc ec]; try discriminate; intros Hx _.
  destruct x as [s | s | | s m e]; try discriminate; try reflexivity.
  unfold add; cbn [SFadd]; apply binary_normalize_number.
Qed.

Lemma sub_number (x c : number) :
  isNaN x = false -> finiteNonzero c = true -> isNaN (x - c)%num = false.
Proof.
  destruct c as [| | | sc mc ec]; try discriminate; intros Hx _.
  destruct x as [s | s | | s m e]; try discriminate; try reflexivity.
  unfold sub; cbn [SFsub]; apply binary_normalize_number.
Qed.

Lemma mul_number (x c : number) :
  isNaN x = false -> finiteNonzero c = true -> isNaN (x * c)%num = false.
Proof.
  destruct c as [| | | sc mc ec]; try discriminate; intros Hx _.
  destruct x as [s | s | | s m e]; try discriminate; try reflexivity.
  unfold mul; cbn [SFmul]; apply binary_round_aux_number; lia.
Qed.

Lemma div_number (x c : number) :
  isNaN x = false -> finiteNonzero c = true -> isNaN (x / c)%num = false.
Proof.
  destruct c as [| | | sc mc ec]; try discriminate; intros Hx _.
  destruct x as [s | s | | s m e]; try discriminate; try reflexivity.
  unfold div; cbn [SFdiv]; unfold SFdiv_core_binary.
  set (e' := Z.min _ _).
  set (m' := match (e - ec - e') with
             | 0 => Z.pos m
             | Z.pos _ => Z.shiftl (Z.pos m) (e - ec - e')
             | Z.neg _ => 0
             end).
  assert (Hm : 0 <= m').
  { subst m'; destruct (e - ec - e') as [| p | p]; try lia.
    apply Z.shiftl_nonneg; lia. }
  pose proof (Z.div_eucl_eq m' (Z.pos mc) ltac:(lia)) as Eq.
  pose proof (Z.mod_pos_bound m' (Z.pos mc) ltac:(lia)) as Bd.
  unfold Z.modulo in Bd.
  change (IntDef.Z.div_eucl m' (Z.pos mc)) with (Z.div_eucl m' (Z.pos mc)).
  destruct (Z.div_eucl m' (Z.pos mc)) as [q r].
  apply binary_round_aux_number; nia.
Qed.

End NumberResults.

Section CatalogResults.

Lemma finitePositive_nonzero (x : number) :
  finitePositive x = true -> finiteNonzero x = true.
Proof.
  destruct x as [| | | [] m e]; auto.
Qed.

(** Every unit of a factor category has a factor, finite and above
    zero. *)
Lemma catalog_factor
    (category : string) (units : list UnitDefinition) (u : UnitDefinition) :
  unitList category = Some units -> In u units ->
  category <> "temperature"%string ->
  exists f, factor u = Some f /\ finitePositive f = true.
Proof.
  intros Hl Hin Hne.
  pose proof (unitList_category category units Hl) as Hc.
  unfold categories in Hc; simpl in Hc.
  destruct Hc as [<- | [<- | [<- | [<- | [<- | []]]]]];
    try contradiction;
    vm_compute in Hl; injection Hl as <-; simpl in Hin;
    repeat (destruct Hin as [<- | Hin];
            [eexists; split; reflexivity |]);
    contradiction.
Qed.

(** Every temperature unit is one of the three [convertValue] knows by
    abbreviation. *)
Lemma catalog_temperature (units : list UnitDefinition) (u : UnitDefinition) :
  unitList "temperature" = Some units -> In u units ->
  abbr u = (DEGREE ++ "C")%string \/ abbr u = (DEGREE ++ "F")%string
  \/ abbr u = "K"%string.
Proof.
  intros Hl Hin; vm_compute in Hl; injection Hl as <-; simpl in Hin.
  destruct Hin as [<- | [<- | [<- | []]]]; cbn; tauto.
Qed.

(** Closes a goal that the result of arithmetic with finite constants is
    no NaN. *)
Ltac number_steps :=
  repeat first [ assumption
               | apply div_number | apply mul_number
               | apply sub_number | apply add_number
               | reflexivity ].

Lemma temperature_route (value : number) (fromAbbr toAbbr : string) :
  isNaN value = false ->
  fromAbbr = (DEGREE ++ "C")%string \/ fromAbbr = (DEGREE ++ "F")%string
  \/ fromAbbr = "K"%string ->
  toAbbr = (DEGREE ++ "C")%string \/ toAbbr = (DEGREE ++ "F")%string
  \/ toAbbr = "K"%string ->
  forall standard,
  exists n,
    (let celsius :=
       if String.eqb fromAbbr (DEGREE ++ "C") then Some value
       else if String.eqb fromAbbr (DEGREE ++ "F")
       then Some ((value - ofZ 32) * ofZ 5 / ofZ 9)%num
       else if String.eqb fromAbbr "K"
       then Some (value - literal 27315 (-2))%num
       else None in
     if String.eqb toAbbr (DEGREE ++ "C") then
       match celsius with
       | Some c => VNumber c
       | None => VUndefined
       end
     else if String.eqb toAbbr (DEGREE ++ "F")
     then VNumber ((toNumber celsius * ofZ 9 / ofZ 5) + ofZ 32)%num
     else if String.eqb toAbbr "K"
     then VNumber (toNumber celsius + literal 27315 (-2))%num
     else standard) = VNumber n
    /\ isNaN n = false.
Proof.
  intros Hv Hfrom Hto standard.
  assert (C : exists c,
             (if String.eqb fromAbbr (DEGREE ++ "C") then Some value
              else if String.eqb fromAbbr (DEGREE ++ "F")
              then Some ((value - ofZ 32) * ofZ 5 / ofZ 9)%num
              else if String.eqb fromAbbr "K"
              then Some (value - literal 27315 (-2))%num
              else None) = Some c /\ isNaN c = false).
  { destruct Hfrom as [-> | [-> | ->]]; eexists; (split; [reflexivity |]);
      number_steps. }
  destruct C as (c & -> & Hc); cbv zeta; cbn [toNumber].
  destruct Hto as [-> | [-> | ->]]; eexists; (split; [reflexivity |]);
    number_steps.
Qed.

Lemma convertValue_result
    (value fromIndex toIndex : number) (category : string) :
  exists n,
    convertValue value fromIndex toIndex category = VNumber n
    /\ isNaN n = false.
Proof.
  unfold convertValue.
  destruct (isNaN value) eqn:Hv; [exists zero; auto |].
  rewrite getProperty_unitList.
  destruct (unitList category) as [units |] eqn:Hl;
    [| destruct (existsb _ _); exists zero; auto].
  destruct (elementAt units fromIndex) as [fromUnit |] eqn:Hf;
    [| exists zero; auto].
  destruct (elementAt units toIndex) as [toUnit |] eqn:Ht;
    [| exists zero; auto].
  apply elementAt_In in Hf; apply elementAt_In in Ht.
  destruct (String.eqb_spec category "temperature") as [-> | Hne].
  - apply temperature_route;
      [exact Hv | apply (catalog_temperature units); assumption
      | apply (catalog_temperature units); assumption].
  - destruct (catalog_factor category units fromUnit Hl Hf Hne)
      as (f & -> & Hpf).
    destruct (catalog_factor category units toUnit Hl Ht Hne)
      as (g & -> & Hpg).
    cbn [toNumber]; eexists; split; [reflexivity |].
    apply div_number, finitePositive_nonzero; [| exact Hpg].
    apply mul_number, finitePositive_nonzero; assumption.
Qed.

(** [convertValue] always returns a Number, never [undefined], and never
    NaN: the guards answer 0, the three temperature abbreviations cover
    the temperature list, and no factor is zero or missing. *)
Theorem convertValue_number
    (value fromIndex toIndex : number) (category : string) :
  exists n,
    convertValue value fromIndex toIndex category = VNumber n
    /\ isNaN n = false.
Proof.
  exact (convertValue_result value fromIndex toIndex category).
Qed.

End CatalogResults.

Section FactorCategories.

Lemma factorCategories_not_temperature (category : string) :
  In category factorCategories -> category <> "temperature"%string.
Proof.
  unfold factorCategories; simpl.
  intros [<- | [<- | [<- | [<- | []]]]]; discriminate.
Qed.

(** In a factor category, a value that is no NaN at two positions of the
    list is multiplied by one factor and divided by the other. *)
Lemma convertValue_by_factors
    (fromIndex toIndex : number) (category : string)
    (units : list UnitDefinition) :
  unitList category = Some units ->
  In category factorCategories ->
  inRange units fromIndex = true ->
  inRange units toIndex = true ->
  exists f g,
    finitePositive f = true /\ finitePositive g = true
    /\ forall v, isNaN v = false ->
         convertValue v fromIndex toIndex category
         = VNumber (v * f / g)%num.
Proof.
  intros Hl Hc Hfrom Hto.
  pose proof (factorCategories_not_temperature category Hc) as Hne.
  destruct (elementAt_in_range units fromIndex Hfrom) as [fromUnit Hf].
  destruct (elementAt_in_range units toIndex Hto) as [toUnit Ht].
  destruct (catalog_factor category units fromUnit Hl
              (elementAt_In _ _ _ Hf) Hne) as (f & Ef & Hpf).
  destruct (catalog_factor category units toUnit Hl
              (elementAt_In _ _ _ Ht) Hne) as (g & Eg & Hpg).
  exists f, g; repeat split; auto.
  intros v Hv; unfold convertValue.
  rewrite Hv, getProperty_unitList, Hl, Hf, Ht, Ef, Eg.
  apply String.eqb_neq in Hne; rewrite Hne; reflexivity.
Qed.

Lemma binary_round_aux_opp (s : bool) (m e : Z) (l : location) :
  binary_round_aux prec emax (negb s) m e l
  = SFopp (binary_round_aux prec emax s m e l).
Proof.
  unfold binary_round_aux.
  destruct (shr_fexp prec emax m e l) as [mrs' e'].
  destruct (shr_fexp prec emax _ e' loc_Exact) as [mrs'' e''].
  destruct (shr_m mrs''); try reflexivity.
  destruct (e'' <=? emax - prec); reflexivity.
Qed.

Lemma mul_opp (x c : number) :
  finitePositive c = true -> (SFopp x * c)%num = SFopp (x * c)%num.
Proof.
  destruct c as [| | | [] mc ec]; try discriminate; intros _.
  destruct x as [[] | [] | | s m e]; try reflexivity.
  unfold mul; cbn [SFopp SFmul]; rewrite !xorb_false_r.
  apply binary_round_aux_opp.
Qed.

Lemma div_opp (x c : number) :
  finitePositive c = true -> (SFopp x / c)%num = SFopp (x / c)%num.
Proof.
  destruct c as [| | | [] mc ec]; try discriminate; intros _.
  destruct x as [[] | [] | | s m e]; try reflexivity.
  unfold div; cbn [SFopp SFdiv]; rewrite !xorb_false_r.
  destruct (SFdiv_core_binary prec emax (Z.pos m) e (Z.pos mc) ec)
    as [[mz ez] lz].
  apply binary_round_aux_opp.
Qed.

Lemma opp_number (x : number) : isNaN (SFopp x) = isNaN x.
Proof.
  destruct x; reflexivity.
Qed.

(** In the categories that convert by factors, the negated value converts
    to the negated result. *)
Theorem convertValue_negated
    (value fromIndex toIndex : number) (category : string)
    (units : list UnitDefinition) :
  unitList category = Some units ->
  In category factorCategories ->
  inRange units fromIndex = true ->
  inRange units toIndex = true ->
  isNaN value = false ->
  exists n,
    convertValue value fromIndex toIndex category = VNumber n
    /\ convertValue (SFopp value) fromIndex toIndex category
       = VNumber (SFopp n).
Proof.
  intros Hl Hc Hfrom Hto Hv.
  destruct (convertValue_by_factors fromIndex toIndex category units
              Hl Hc Hfrom Hto) as (f & g & Hf & Hg & E).
  exists (value * f / g)%num; split; [exact (E value Hv) |].
  rewrite (E (SFopp value)) by (rewrite opp_number; exact Hv).
  rewrite (mul_opp value f Hf), (div_opp _ g Hg); reflexivity.
Qed.

(** In the categories that convert by factors, zero converts to zero,
    with its sign, between any two units. *)
Theorem convertValue_zero
    (sign : bool) (fromIndex toIndex : number) (category : string)
    (units : list UnitDefinition) :
  unitList category = Some units ->
  In category factorCategories ->
  inRange units fromIndex = true ->
  inRange units toIndex = true ->
  convertValue (S754_zero sign) fromIndex toIndex category
  = VNumber (S754_zero sign).
Proof.
  intros Hl Hc Hfrom Hto.
  destruct (convertValue_by_factors fromIndex toIndex category units
              Hl Hc Hfrom Hto) as (f & g & Hf & Hg & E).
  rewrite (E (S754_zero sign) eq_refl).
  destruct f as [| | | [] mf ef]; try discriminate Hf.
  destruct g as [| | | [] mg eg]; try discriminate Hg.
  destruct sign; reflexivity.
Qed.

End FactorCategories.

Lemma convertValue_negated_witness :
  In "length"%string factorCategories
  /\ isNaN (ofZ 5) = false
  /\ exists n,
       convertValue (ofZ 5) (ofZ 7) (ofZ 1) "length" = VNumber n
       /\ convertValue (SFopp (ofZ 5)) (ofZ 7) (ofZ 1) "length"
          = VNumber (SFopp n).
Proof.
  assert (C : In "length"%string factorCategories)
    by (unfold factorCategories; simpl; tauto).
  assert (V : isNaN (ofZ 5) = false) by reflexivity.
  split; [exact C | split; [exact V |]].
  refine (convertValue_negated (ofZ 5) (ofZ 7) (ofZ 1) "length" _
            _ C _ _ V); reflexivity.
Defined.

Lemma convertValue_zero_witness :
  In "time"%string factorCategories
  /\ convertValue negzero (ofZ 4) (ofZ 9) "time" = VNumber negzero.
Proof.
  assert (C : In "time"%string factorCategories)
    by (unfold factorCategories; simpl; tauto).
  split; [exact C |].
  refine (convertValue_zero true (ofZ 4) (ofZ 9) "time" _ _ C _ _);
    reflexivity.
Defined.

Section NumberTextShape.

Lemma allAscii_toStringPositive (m : positive) (e : Z) :
  allAscii (toStringPositive m e) = true.
Proof.
  unfold toStringPositive.
  destruct (fraction m e) as [p q].
  destruct (shortest 17 (S754_finite false m e) p q (ilog10 p q) 1) as [s t].
  pose proof (allAscii_digitsOf s) as D.
  repeat match goal with
         | |- context [if ?b then _ else _] => destruct b
         end;
    rewrite ?allAscii_append, ?allAscii_zeros, ?allAscii_exponentPart,
      ?allAscii_substring, ?D by exact D; reflexivity.
Qed.

Lemma allAscii_toString (x : number) : allAscii (toString x) = true.
Proof.
  destruct x as [s | s | | s m e]; try reflexivity.
  - destruct s; reflexivity.
  - unfold toString; rewrite allAscii_append, allAscii_toStringPositive.
    destruct s; reflexivity.
Qed.

Lemma digitsOf_length (n : Z) : (1 <= String.length (digitsOf n))%nat.
Proof.
  unfold digitsOf.
  assert (H : N.to_uint (Z.to_N n) <> Decimal.Nil).
  { destruct (Z.to_N n) as [| p]; [discriminate |].
    apply Unsigned.to_uint_nonnil. }
  destruct (N.to_uint (Z.to_N n)); [contradiction | | | | | | | | | |];
    simpl; lia.
Qed.

Lemma toStringPositive_length (m : positive) (e : Z) :
  (1 <= String.length (toStringPositive m e))%nat.
Proof.
  unfold toStringPositive.
  destruct (fraction m e) as [p q].
  destruct (shortest 17 (S754_finite false m e) p q (ilog10 p q) 1) as [s t].
  pose proof (digitsOf_length s) as D.
  repeat match goal with
         | |- context [if ?b then _ else _] => destruct b
         end;
    rewrite ?length_append; simpl; lia.
Qed.

Lemma toString_length (x : number) : (1 <= String.length (toString x))%nat.
Proof.
  destruct x as [s | s | | s m e]; try (simpl; lia).
  - destruct s; simpl; lia.
  - pose proof (toStringPositive_length m e).
    unfold toString; rewrite length_append; lia.
Qed.

Lemma allAscii_reducePrecision (count : nat) (value : number) (s : string) :
  allAscii s = true -> allAscii (reducePrecision count value s) = true.
Proof.
  revert s; induction count as [| count IH]; intros s Hs;
    cbn [reducePrecision]; [exact Hs |].
  destruct (8 <? getByteSize s)%nat; [| exact Hs].
  apply IH, allAscii_toString.
Qed.

Lemma length_reducePrecision (count : nat) (value : number) (s : string) :
  (1 <= String.length s)%nat ->
  (1 <= String.length (reducePrecision count value s))%nat.
Proof.
  revert s; induction count as [| count IH]; intros s Hs;
    cbn [reducePrecision]; [exact Hs |].
  destruct (8 <? getByteSize s)%nat; [| exact Hs].
  apply IH, toString_length.
Qed.

(** The text [limitOutputSize] makes of a Number that is no NaN: ASCII,
    between 1 and 8 characters. *)
Lemma limitOutputSize_shape (value : number) :
  isNaN value = false ->
  allAscii (limitOutputSize value) = true
  /\ (1 <= String.length (limitOutputSize value) <= 8)%nat.
Proof.
  intros Hv; unfold limitOutputSize; rewrite Hv.
  pose proof (allAscii_toString value) as A1.
  pose proof (toString_length value) as L1.
  pose proof (allAscii_reducePrecision 11 value _ A1) as A2.
  pose proof (length_reducePrecision 11 value _ L1) as L2.
  pose proof (allAscii_toExponential value 2) as A3.
  destruct (8 <? getByteSize (toString value))%nat eqn:E1.
  - destruct (8 <? getByteSize (reducePrecision 11 value (toString value)))%nat
      eqn:E2.
    + destruct (8 <? getByteSize (toExponential value 2))%nat eqn:E3.
      * split; [apply allAscii_substring, A3 |].
        apply Nat.ltb_lt in E3; unfold getByteSize in E3.
        rewrite (byteLength_ascii _ A3) in E3.
        unfold substringTo; rewrite length_substring_prefix by lia; lia.
      * split; [exact A3 |].
        apply Nat.ltb_ge in E3; apply Nat.ltb_lt in E2.
        unfold getByteSize in *.
        rewrite (byteLength_ascii _ A3) in E3.
        split; [| exact E3].
        destruct (toExponential value 2) eqn:T; [| simpl; lia].
        exfalso; revert T; clear.
        unfold toExponential.
        destruct value as [s | s | | s m e].
        -- cbn. discriminate.
        -- destruct s; discriminate.
        -- discriminate.
        -- destruct (fraction m e) as [p q].
           destruct (scaled p q (ilog10 p q - 2)) as [a b].
           intros T; apply (f_equal String.length) in T.
           rewrite length_append in T.
           destruct (nearest a b =? 10 ^ (2 + 1));
             cbn [Z.eqb] in T; rewrite !length_append in T;
             unfold exponentPart in T; rewrite !length_append in T;
             simpl in T; lia.
    + split; [exact A2 |].
      apply Nat.ltb_ge in E2; unfold getByteSize in E2.
      rewrite (byteLength_ascii _ A2) in E2; lia.
  - split; [exact A1 |].
    apply Nat.ltb_ge in E1; unfold getByteSize in E1.
    rewrite (byteLength_ascii _ A1) in E1; lia.
Qed.

Lemma limitOutputSize_nan (value : number) :
  isNaN value = true -> limitOutputSize value = ""%string.
Proof.
  intros Hv; unfold limitOutputSize; rewrite Hv; reflexivity.
Qed.

(** The output text is made of ASCII characters only, is at most 8
    characters long, and is empty for NaN and for nothing else. *)
Theorem limitOutputSize_text (value : number) :
  allAscii (limitOutputSize value) = true
  /\ (String.length (limitOutputSize value) <= 8)%nat
  /\ (limitOutputSize value = ""%string <-> isNaN value = true).
Proof.
  destruct (isNaN value) eqn:Hv.
  - rewrite (limitOutputSize_nan value Hv); repeat split; simpl; auto; lia.
  - destruct (limitOutputSize_shape value Hv) as (A & L1 & L8).
    repeat split; auto; [| discriminate].
    intros E; rewrite E in L1; simpl in L1; lia.
Qed.

End NumberTextShape.

Section InputField.

Local Open Scope string_scope.

Lemma round_number (x : number) : isNaN x = false -> isNaN (round x) = false.
Proof.
  destruct x as [s | s | | s m e]; auto; intros _; cbn [round].
  destruct (0 <=? e)%Z; [reflexivity |].
  destruct (_ =? 0)%Z; [reflexivity | apply binary_normalize_number].
Qed.

(** Rounding to nine decimals, as [updateConversion] and [calculate] do,
    keeps a Number a Number. *)
Lemma rounded_number (x : number) :
  isNaN x = false ->
  isNaN (round (x * ofZ 1000000000) / ofZ 1000000000)%num = false.
Proof.
  intros Hx; apply div_number; [| reflexivity].
  apply round_number, mul_number; [exact Hx | reflexivity].
Qed.

(** What [validateAndLimitInput] returns, by the kind of text. *)
Lemma validateAndLimitInput_cases (inputText : string) :
  validateAndLimitInput inputText
  = let inputString := trim inputText in
    if (inputString =? "") || (inputString =? "-") || (inputString =? ".")
    then inputString
    else if isNaN (parseFloat inputString)
    then if (getByteSize inputString <=? 8)%nat then inputString else ""
    else limitOutputSize (parseFloat inputString).
Proof.
  unfold validateAndLimitInput, limitOutputSize; cbv zeta.
  destruct ((trim inputText =? "") || (trim inputText =? "-")
            || (trim inputText =? ".")); [reflexivity |].
  destruct (isNaN (parseFloat (trim inputText))); reflexivity.
Qed.

Lemma limitOutputSize_bytes (value : number) :
  (getByteSize (limitOutputSize value) <= 8)%nat.
Proof.
  destruct (isNaN value) eqn:Hv.
  - rewrite (limitOutputSize_nan value Hv); simpl; lia.
  - destruct (limitOutputSize_shape value Hv) as (A & _ & L).
    unfold getByteSize; rewrite (byteLength_ascii _ A); exact L.
Qed.

(** A text that reads as a number is limited by the rule of the output
    field: [validateAndLimitInput] returns what [limitOutputSize] makes of
    the number read. *)
Theorem validateAndLimitInput_number (inputText : string) :
  isNaN (parseFloat (trim inputText)) = false ->
  validateAndLimitInput inputText
  = limitOutputSize (parseFloat (trim inputText)).
Proof.
  intros Hn; rewrite validateAndLimitInput_cases; cbv zeta.
  destruct ((trim inputText =? "") || (trim inputText =? "-")
            || (trim inputText =? ".")) eqn:P; [| rewrite Hn; reflexivity].
  exfalso.
  apply orb_true_iff in P; destruct P as [P | P];
    [apply orb_true_iff in P; destruct P as [P | P] |];
    apply String.eqb_eq in P; rewrite P in Hn; discriminate Hn.
Qed.

Lemma convertValue_guards
    (value fromIndex toIndex : number) (category : string) :
  isNaN value = true
  \/ unitList category = None
  \/ (exists units, unitList category = Some units
        /\ (inRange units fromIndex = false
            \/ inRange units toIndex = false)) ->
  convertValue value fromIndex toIndex category = VNumber zero.
Proof.
  intros H; unfold convertValue.
  destruct (isNaN value); [reflexivity |].
  rewrite getProperty_unitList.
  destruct H as [H | [H | (units & Hl & H)]]; [discriminate H | |].
  - rewrite H; destruct (existsb _ objectPrototype); reflexivity.
  - rewrite Hl; destruct H as [H | H];
      rewrite (elementAt_out_of_range units _ H);
      [| destruct (elementAt units fromIndex)]; reflexivity.
Qed.

(** The two fields after [updateConversion]: the input field holds what
    [validateAndLimitInput] returns, the output field at most 8 ASCII
    characters, and the output field is empty exactly when the input
    field is. *)
Theorem updateConversion_fields
    (inputText : string) (fromIndex toIndex : number) (category : string) :
  let fields := updateConversion inputText fromIndex toIndex category in
  fst fields = validateAndLimitInput inputText
  /\ allAscii (snd fields) = true
  /\ (String.length (snd fields) <= 8)%nat
  /\ (snd fields = "" <-> fst fields = "").
Proof.
  unfold updateConversion; cbv zeta.
  destruct (String.eqb_spec (validateAndLimitInput inputText) "")
    as [E | Hne]; cbn [fst snd].
  - repeat split; auto; simpl; lia.
  - destruct (convertValue_result
                (parseFloat (validateAndLimitInput inputText))
                fromIndex toIndex category) as (n & -> & Hn).
    destruct (limitOutputSize_shape _ (rounded_number n Hn)) as (A & L1 & L8).
    repeat split; auto; [| contradiction].
    intros E; rewrite E in L1; simpl in L1; lia.
Qed.

(** When the text in the input field is not empty but does not read as a
    number, or the category or one of the indices is unknown, the output
    field shows "0". *)
Theorem updateConversion_falls_back_to_zero
    (inputText : string) (fromIndex toIndex : number) (category : string) :
  validateAndLimitInput inputText <> "" ->
  isNaN (parseFloat (validateAndLimitInput inputText)) = true
  \/ unitList category = None
  \/ (exists units, unitList category = Some units
        /\ (inRange units fromIndex = false
            \/ inRange units toIndex = false)) ->
  snd (updateConversion inputText fromIndex toIndex category) = "0".
Proof.
  intros Hne H; unfold updateConversion; cbv zeta.
  apply String.eqb_neq in Hne; rewrite Hne; cbn [snd].
  rewrite (convertValue_guards _ fromIndex toIndex category H).
  reflexivity.
Qed.

End InputField.

Lemma validateAndLimitInput_number_witness :
  isNaN (parseFloat (trim " 123456789012 ")) = false
  /\ validateAndLimitInput " 123456789012 "
     = limitOutputSize (parseFloat (trim " 123456789012 ")).
Proof.
  assert (H : isNaN (parseFloat (trim " 123456789012 ")) = false)
    by reflexivity.
  split; [exact H |].
  exact (validateAndLimitInput_number " 123456789012 " H).
Defined.

Lemma updateConversion_falls_back_to_zero_witness :
  validateAndLimitInput "-" <> ""%string
  /\ isNaN (parseFloat (validateAndLimitInput "-")) = true
  /\ snd (updateConversion "-" (ofZ 0) (ofZ 1) "length") = "0"%string.
Proof.
  assert (N : validateAndLimitInput "-" <> ""%string) by discriminate.
  assert (P : isNaN (parseFloat (validateAndLimitInput "-")) = true)
    by reflexivity.
  split; [exact N | split; [exact P |]].
  exact (updateConversion_falls_back_to_zero "-" (ofZ 0) (ofZ 1) "length"
           N (or_introl P)).
Defined.

(** What the input field and the output field show for some texts. *)
Example updateConversion_examples :
  map (fun text => updateConversion text (ofZ 0) (ofZ 1) "length")
      ["1"; "-"; ""; "  "; "abc"; "123456789"; "2.54"]%string
  = [("1", "0.1"); ("-", "0"); ("", ""); ("", ""); ("abc", "0");
     ("1.23e+8", "12300000"); ("2.54", "0.254")]%string.
Proof. vm_compute; reflexivity. Qed.

Section FieldTexts.

Import UTF16.

Lemma text_eqb_eq (a b : text) : UTF16.eqb a b = true <-> a = b.
Proof.
  revert b; induction a as [| [h l] a IH]; intros [| [h' l'] b];
    cbn [UTF16.eqb fst snd]; split; try discriminate; try reflexivity.
  - intros H; apply andb_true_iff in H; destruct H as [H Hr].
    apply andb_true_iff in H; destruct H as [Hh Hl].
    apply Ascii.eqb_eq in Hh; apply Ascii.eqb_eq in Hl.
    apply IH in Hr; congruence.
  - intros H; injection H as -> -> ->.
    rewrite !Ascii.eqb_refl; cbn [andb]; apply IH; reflexivity.
Qed.

Lemma eqb_widen (a b : string) :
  UTF16.eqb (widen a) (widen b) = String.eqb a b.
Proof.
  revert b; induction a as [| c a IH]; intros [| d b];
    cbn [widen UTF16.eqb fst snd String.eqb]; try reflexivity.
  rewrite Ascii.eqb_refl, IH; cbn [andb].
  destruct (Ascii.eqb c d); reflexivity.
Qed.

Lemma isWhiteSpace_widen (c : ascii) :
  UTF16.isWhiteSpace (Ascii.zero, c) = JSString.isWhiteSpace c.
Proof.
  reflexivity.
Qed.

Lemma trimStart_widen (s : string) :
  UTF16.trimStart (widen s) = widen (JSString.trimStart s).
Proof.
  induction s as [| c s IH]; [reflexivity |].
  cbn [widen UTF16.trimStart JSString.trimStart].
  rewrite isWhiteSpace_widen.
  destruct (JSString.isWhiteSpace c); [exact IH | reflexivity].
Qed.

Lemma trimEnd_widen (s : string) :
  UTF16.trimEnd (widen s) = widen (JSString.trimEnd s).
Proof.
  induction s as [| c s IH]; [reflexivity |].
  cbn [widen UTF16.trimEnd JSString.trimEnd]; rewrite IH.
  destruct (JSString.trimEnd s) as [| k kept]; cbn [widen];
    [| reflexivity].
  rewrite isWhiteSpace_widen.
  destruct (JSString.isWhiteSpace c); reflexivity.
Qed.

Lemma trim_widen (s : string) :
  UTF16.trim (widen s) = widen (JSString.trim s).
Proof.
  unfold UTF16.trim, JSString.trim.
  rewrite trimStart_widen; apply trimEnd_widen.
Qed.

Lemma narrowPrefix_widen (s : string) : narrowPrefix (widen s) = s.
Proof.
  induction s as [| c s IH]; [reflexivity |].
  cbn [widen narrowPrefix]; change (highByte (Ascii.zero, c)) with 0%N.
  cbn [N.eqb snd]; rewrite IH; reflexivity.
Qed.

(** On the texts below U+0100 the scan of [parseFloat] is the one of the
    strings. *)
Lemma parseFloat_widen (s : string) :
  UTF16.parseFloat (widen s) = Conversions.parseFloat s.
Proof.
  unfold UTF16.parseFloat, Conversions.parseFloat.
  rewrite trimStart_widen, narrowPrefix_widen; reflexivity.
Qed.

(** On the texts below U+0100 the size in bytes is the one of the
    strings. *)
Lemma byteLength_widen (s : string) :
  UTF16.byteLength (widen s) = JSString.byteLength s.
Proof.
  induction s as [| c s IH]; [reflexivity |].
  cbn [widen UTF16.byteLength JSString.byteLength].
  change (isHighSurrogate (Ascii.zero, c)) with false.
  change (highByte (Ascii.zero, c)) with 0%N.
  change (lowByte (Ascii.zero, c)) with (codeUnit c).
  cbn [N.eqb andb N.ltb N.compare]; rewrite IH; unfold utf8Size.
  destruct (codeUnit c <? 128)%N; reflexivity.
Qed.

Lemma getByteSize_widen (s : string) :
  FieldText.getByteSize (widen s) = getByteSize s.
Proof.
  apply byteLength_widen.
Qed.

(** What [validateAndLimitInput] returns, by the kind of text. *)
Lemma field_validateAndLimitInput_cases (inputText : text) :
  FieldText.validateAndLimitInput inputText
  = let inputString := UTF16.trim inputText in
    if UTF16.eqb inputString (widen "") || UTF16.eqb inputString (widen "-")
       || UTF16.eqb inputString (widen ".")
    then inputString
    else if isNaN (UTF16.parseFloat inputString)
    then if (FieldText.getByteSize inputString <=? 8)%nat
         then inputString else []
    else widen (limitOutputSize (UTF16.parseFloat inputString)).
Proof.
  unfold FieldText.validateAndLimitInput, limitOutputSize; cbv zeta.
  destruct (UTF16.eqb (UTF16.trim inputText) (widen "")
            || UTF16.eqb (UTF16.trim inputText) (widen "-")
            || UTF16.eqb (UTF16.trim inputText) (widen "."));
    [reflexivity |].
  destruct (isNaN (UTF16.parseFloat (UTF16.trim inputText)));
    [reflexivity |].
  rewrite !getByteSize_widen.
  repeat match goal with
         | |- context [if ?c then _ else _] => destruct c
         end; reflexivity.
Qed.

(** On the texts below U+0100, [validateAndLimitInput] on texts is
    [validateAndLimitInput] on strings. *)
Lemma validateAndLimitInput_widen (s : string) :
  FieldText.validateAndLimitInput (widen s)
  = widen (Converter.validateAndLimitInput s).
Proof.
  rewrite field_validateAndLimitInput_cases, validateAndLimitInput_cases.
  cbv zeta; rewrite trim_widen, !eqb_widen, parseFloat_widen.
  rewrite getByteSize_widen.
  repeat match goal with
         | |- context [if ?c then _ else _] => destruct c
         end; reflexivity.
Qed.

(** Whatever text the input field holds, of any code units, the text
    [validateAndLimitInput] returns takes at most 8 bytes. *)
Theorem validateAndLimitInput_bound (inputText : text) :
  (FieldText.getByteSize (FieldText.validateAndLimitInput inputText) <= 8)%nat.
Proof.
  rewrite field_validateAndLimitInput_cases; cbv zeta.
  destruct (UTF16.eqb (UTF16.trim inputText) (widen "")
            || UTF16.eqb (UTF16.trim inputText) (widen "-")
            || UTF16.eqb (UTF16.trim inputText) (widen ".")) eqn:P.
  - apply orb_true_iff in P; destruct P as [P | P];
      [apply orb_true_iff in P; destruct P as [P | P] |];
      apply text_eqb_eq in P; rewrite P; cbn; lia.
  - destruct (isNaN (UTF16.parseFloat (UTF16.trim inputText))).
    + destruct (FieldText.getByteSize (UTF16.trim inputText) <=? 8)%nat
        eqn:L; [apply Nat.leb_le; exact L | cbn; lia].
    + rewrite getByteSize_widen; apply limitOutputSize_bytes.
Qed.

(** A key the [keydown] listener lets through, other than the editing
    keys, leaves a text of at most 8 bytes in the input field, whatever
    code units the field and the key hold; if that text has no white space
    around it, [validateAndLimitInput] returns it as it is or as the
    number it reads as, never cut or rounded to fit. *)
Theorem keydown_accepted
    (currentValue : text) (selectionStart selectionEnd : nat) (key : text) :
  FieldText.keydownPrevented currentValue selectionStart selectionEnd key
  = false ->
  ~ In key (map widen allowedKeys) ->
  let tested :=
    FieldText.testValue currentValue selectionStart selectionEnd key in
  (FieldText.getByteSize tested <= 8)%nat
  /\ (UTF16.trim tested = tested ->
      FieldText.validateAndLimitInput tested = tested
      \/ FieldText.validateAndLimitInput tested
         = widen (toString (UTF16.parseFloat tested))).
Proof.
  intros Hk Hallowed; cbv zeta.
  unfold FieldText.keydownPrevented in Hk.
  destruct (existsb (fun allowed => UTF16.eqb (widen allowed) key)
              allowedKeys) eqn:Ea.
  { exfalso; apply Hallowed.
    apply existsb_exists in Ea; destruct Ea as (allowed & Hin & E).
    apply text_eqb_eq in E; subst key; apply in_map; exact Hin. }
  set (tested :=
         FieldText.testValue currentValue selectionStart selectionEnd key)
    in *.
  destruct (8 <? FieldText.getByteSize tested)%nat eqn:Eb;
    [discriminate Hk |].
  apply Nat.ltb_ge in Eb; split; [exact Eb |].
  intros Ht; rewrite field_validateAndLimitInput_cases; cbv zeta; rewrite Ht.
  destruct (UTF16.eqb tested (widen "") || UTF16.eqb tested (widen "-")
            || UTF16.eqb tested (widen "."));
    [left; reflexivity |].
  destruct (isNaN (UTF16.parseFloat tested)) eqn:En; cbn [negb] in Hk.
  - apply Nat.leb_le in Eb; rewrite Eb; left; reflexivity.
  - right; rewrite getByteSize_widen in Hk.
    unfold limitOutputSize; rewrite En, Hk; reflexivity.
Qed.

End FieldTexts.

Lemma keydown_accepted_witness :
  let euro : UTF16.text := [(" "%char, "172"%char)] in
  FieldText.keydownPrevented (UTF16.widen "12") 2 2 euro = false
  /\ ~ In euro (map UTF16.widen allowedKeys)
  /\ FieldText.getByteSize (FieldText.testValue (UTF16.widen "12") 2 2 euro)
     = 5%nat
  /\ (FieldText.getByteSize
        (FieldText.testValue (UTF16.widen "12") 2 2 euro) <= 8)%nat
  /\ (FieldText.validateAndLimitInput
        (FieldText.testValue (UTF16.widen "12") 2 2 euro)
      = FieldText.testValue (UTF16.widen "12") 2 2 euro
      \/ FieldText.validateAndLimitInput
           (FieldText.testValue (UTF16.widen "12") 2 2 euro)
         = UTF16.widen "12").
Proof.
  cbv zeta.
  assert (K : FieldText.keydownPrevented (UTF16.widen "12") 2 2
                [(" "%char, "172"%char)] = false) by reflexivity.
  assert (A : ~ In [(" "%char, "172"%char)] (map UTF16.widen allowedKeys)).
  { unfold allowedKeys; simpl; intros H.
    repeat (destruct H as [H | H]; [discriminate H |]); exact H. }
  split; [exact K | split; [exact A | split; [reflexivity |]]].
  destruct (keydown_accepted (UTF16.widen "12") 2 2
              [(" "%char, "172"%char)] K A) as [B V].
  split; [exact B | exact (V eq_refl)].
Defined.

(** Sizes in bytes of texts beyond U+00FF: the euro sign (U+20AC), a
    surrogate pair (U+D83D U+DE00), a surrogate without its partner, and
    e with an acute accent (U+00E9). *)
Example byteLength_examples :
  map UTF16.byteLength
      [ [(" "%char, "172"%char)];
        [("216"%char, "061"%char); ("222"%char, "000"%char)];
        [("216"%char, "061"%char)];
        [("000"%char, "233"%char)];
        UTF16.widen "12.5" ]
  = [3; 4; 3; 2; 4]%nat.
Proof. vm_compute; reflexivity. Qed.

(** Nine euro signs are 27 bytes and no number: the validated text is
    empty.  Two of them are kept, three of them with a digit are not let
    through by the [keydown] listener. *)
Example validateAndLimitInput_wide_examples :
  let euro : UTF16.unit16 := (" "%char, "172"%char) in
  FieldText.validateAndLimitInput (repeat euro 9) = []
  /\ FieldText.validateAndLimitInput [euro; euro] = [euro; euro]
  /\ FieldText.keydownPrevented [euro; euro; euro] 3 3 (UTF16.widen "1")
     = true.
Proof. vm_compute; repeat split. Qed.

Section ShownResult.

Local Open Scope string_scope.

Variable displayResult : option Display.

Lemma calculate_shown (st : CalculatorSession) :
  expression st <> "" ->
  let shown := currentInput (calculate displayResult st) in
  (shown = "Error" \/ shown = "0"
   \/ canFitInDisplay displayResult shown = true)
  /\ shown <> "".
Proof.
  intros He; cbv zeta; unfold calculate.
  apply String.eqb_neq in He; rewrite He; cbn [currentInput].
  assert (K : forall x : number,
    let text := toString x in
    let shown :=
      if negb (canFitInDisplay displayResult text) then
        if truncateToFit displayResult (String.length text) text =? ""
        then "0"
        else truncateToFit displayResult (String.length text) text
      else text in
    (shown = "Error" \/ shown = "0"
     \/ canFitInDisplay displayResult shown = true) /\ shown <> "").
  { intros x; cbv zeta.
    destruct (canFitInDisplay displayResult (toString x)) eqn:F; cbn [negb].
    - split; [right; right; exact F |].
      pose proof (toString_length x) as L.
      intros E; rewrite E in L; simpl in L; lia.
    - destruct (String.eqb_spec
                  (truncateToFit displayResult
                     (String.length (toString x)) (toString x)) "")
        as [E | Hne].
      + split; [right; left; reflexivity | discriminate].
      + split; [| exact Hne].
        destruct (truncateToFit_exit displayResult
                    (String.length (toString x)) (toString x) (le_n _))
          as [E | Fit]; [contradiction | right; right; exact Fit]. }
  destruct (nth_error (split " " (expression st)) 1) as [operator |].
  - destruct (evaluateOperation_kinds
                (parseFloat (hd "" (split " " (expression st))))
                (parseFloat (currentInput st)) operator)
      as [[r ->] | ->].
    + apply K.
    + split; [left; reflexivity | discriminate].
  - apply K.
Qed.

(** After equals on a pending expression the current input is "Error",
    which is shown whatever its size, or "0", or a text the display has
    room for; it is never empty. *)
Theorem calculate_shows_what_fits (st : CalculatorSession) :
  expression st <> "" ->
  let shown := currentInput (calculate displayResult st) in
  (shown = "Error" \/ shown = "0"
   \/ canFitInDisplay displayResult shown = true)
  /\ shown <> "".
Proof.
  exact (calculate_shown st).
Qed.

End ShownResult.

Lemma calculate_shows_what_fits_witness :
  let display := Some (displayOf (fun s => (String.length s <=? 5)%nat)) in
  let st := mkSession "3" ("1 " ++ DIVIDE) true in
  expression st <> ""%string
  /\ currentInput (calculate display st) = "0.333"%string
  /\ currentInput (calculate display st) <> ""%string.
Proof.
  cbv zeta.
  assert (E : expression (mkSession "3" ("1 " ++ DIVIDE) true) <> ""%string)
    by discriminate.
  split; [exact E | split; [vm_compute; reflexivity |]].
  exact (proj2 (calculate_shows_what_fits
                  (Some (displayOf (fun s => (String.length s <=? 5)%nat)))
                  (mkSession "3" ("1 " ++ DIVIDE) true) E)).
Defined.

Section UnitSelectors.

Local Open Scope string_scope.

(** For each list of the catalog, [populateUnitSelectors] fills both
    selectors with one option per unit, in the order of the list; the
    value of each option reads back, through [parseInt], as the index at
    which [convertValue] finds that unit, and the values assigned to the
    selectors pick the first unit as source and the second as target. *)
Theorem populateUnitSelectors_offers_units
    (category : string) (units : list UnitDefinition) :
  unitList category = Some units ->
  exists selectors fromValue toValue fromUnit toUnit others,
    populateUnitSelectors category = Some selectors
    /\ outputOptions selectors = inputOptions selectors
    /\ map (fun o => elementAt units (parseInt (optionValue o)))
           (inputOptions selectors)
       = map Some units
    /\ units = fromUnit :: toUnit :: others
    /\ inputUnitValue selectors = Some fromValue
    /\ outputUnitValue selectors = Some toValue
    /\ elementAt units (parseInt fromValue) = Some fromUnit
    /\ elementAt units (parseInt toValue) = Some toUnit.
Proof.
  intros H; pose proof (unitList_category category units H) as Hc.
  unfold categories in Hc; cbn [In] in Hc.
  destruct Hc as [<- | [<- | [<- | [<- | [<- | []]]]]];
    vm_compute in H; injection H as <-;
    (eexists; exists "0", "1"; eexists; eexists; eexists;
     split; [vm_compute; reflexivity |];
     split; [reflexivity |];
     split; [vm_compute; reflexivity |];
     split; [reflexivity |];
     split; [reflexivity |];
     split; [reflexivity |];
     split; vm_compute; reflexivity).
Qed.

End UnitSelectors.

Lemma populateUnitSelectors_offers_units_witness :
  unitList "temperature"
  = Some [ mkUnit "Celsius" (DEGREE ++ "C") None;
           mkUnit "Fahrenheit" (DEGREE ++ "F") None;
           mkUnit "Kelvin" "K" None ]
  /\ exists selectors,
       populateUnitSelectors "temperature" = Some selectors
       /\ map optionValue (inputOptions selectors) = ["0"; "1"; "2"]%string.
Proof.
  assert (U : unitList "temperature"
              = Some [ mkUnit "Celsius" (DEGREE ++ "C") None;
                       mkUnit "Fahrenheit" (DEGREE ++ "F") None;
                       mkUnit "Kelvin" "K" None ]) by reflexivity.
  split; [exact U |].
  destruct (populateUnitSelectors_offers_units "temperature" _ U)
    as (selectors & fromValue & toValue & fromUnit & toUnit & others
        & P & _).
  exists selectors; split; [exact P |].
  vm_compute in P; injection P as <-; reflexivity.
Defined.

(** [parseInt] on some texts. *)
Example parseInt_examples :
  map parseInt ["0"; "11"; " 7px"; "-0x1F"; "+12.9"; ""; "abc"; "-0"]%string
  = [ofZ 0; ofZ 11; ofZ 7; ofZ (-31); ofZ 12; NaN; NaN; negzero].
Proof. vm_compute; reflexivity. Qed.

Section DisplayRoom.

Local Open Scope string_scope.

Variable displayResult : option Display.

(** The display has room for "0" and for "Error", and a text that fits
    still fits without its last character. *)
Hypothesis room_zero : canFitInDisplay displayResult "0" = true.
Hypothesis room_error : canFitInDisplay displayResult "Error" = true.
Hypothesis room_shorter :
  forall s, (1 < String.length s)%nat ->
    canFitInDisplay displayResult s = true ->
    canFitInDisplay displayResult (sliceDropLast s) = true.

Lemma inputNumber_fits (st : CalculatorSession) (num : string) :
  canFitInDisplay displayResult (currentInput st) = true ->
  canFitInDisplay displayResult
    (currentInput (inputNumber displayResult st num)) = true.
Proof.
  intros H; unfold inputNumber.
  destruct (shouldResetInput st).
  - destruct (canFitInDisplay displayResult num) eqn:F; cbn; auto.
  - destruct ((currentInput st =? "0") && negb (num =? ".")).
    + destruct (canFitInDisplay displayResult num) eqn:F; cbn; auto.
    + destruct ((num =? ".") && includes (currentInput st) "."); [exact H |].
      destruct (canFitInDisplay displayResult (currentInput st ++ num))
        eqn:F; cbn; auto.
Qed.

Lemma calculate_fits (st : CalculatorSession) :
  canFitInDisplay displayResult (currentInput st) = true ->
  canFitInDisplay displayResult
    (currentInput (calculate displayResult st)) = true.
Proof.
  intros H.
  destruct (String.eqb_spec (expression st) "") as [E | Hne].
  - rewrite (calculate_no_expression displayResult st E); exact H.
  - destruct (calculate_shown displayResult st Hne) as [[E | [E | F]] _];
      [rewrite E; exact room_error | rewrite E; exact room_zero | exact F].
Qed.

Lemma inputOperator_fits (st : CalculatorSession) (op : string) :
  canFitInDisplay displayResult (currentInput st) = true ->
  canFitInDisplay displayResult
    (currentInput (inputOperator displayResult st op)) = true.
Proof.
  intros H; unfold inputOperator.
  destruct (negb (expression st =? "") && negb (shouldResetInput st));
    [| exact H].
  cbv zeta; destruct (updateDisplayThrows displayResult);
    cbn [currentInput]; apply calculate_fits; exact H.
Qed.

Lemma toggleSign_fits (st : CalculatorSession) :
  canFitInDisplay displayResult (currentInput st) = true ->
  canFitInDisplay displayResult
    (currentInput (toggleSign displayResult st)) = true.
Proof.
  intros H; rewrite toggleSign_signToggled.
  destruct (negb (currentInput st =? "0")); [| exact H].
  destruct (canFitInDisplay displayResult (signToggled (currentInput st)))
    eqn:F; cbn; auto.
Qed.

Lemma backspace_fits (st : CalculatorSession) :
  canFitInDisplay displayResult (currentInput st) = true ->
  canFitInDisplay displayResult (currentInput (backspace st)) = true.
Proof.
  intros H; unfold backspace.
  destruct (1 <? String.length (currentInput st))%nat eqn:L; cbn.
  - apply room_shorter; [apply Nat.ltb_lt; exact L | exact H].
  - exact room_zero.
Qed.

Lemma step_fits (st : CalculatorSession) (a : Action) :
  checkedAction a ->
  canFitInDisplay displayResult (currentInput st) = true ->
  canFitInDisplay displayResult (currentInput (step displayResult st a))
  = true.
Proof.
  intros [Ha Hp] H; destruct a as [value |];
    [| apply backspace_fits; exact H].
  cbn [step]; unfold handleButtonClick.
  destruct (value =? "C"); [exact room_zero |].
  destruct (value =? PLUSMINUS); [apply toggleSign_fits; exact H |].
  destruct (String.eqb_spec value "%") as [E | _];
    [exfalso; apply Hp; rewrite E; reflexivity |].
  destruct ((value =? "+") || (value =? "-")
            || (value =? MULTIPLY) || (value =? DIVIDE));
    [apply inputOperator_fits; exact H |].
  destruct (value =? "="); [apply calculate_fits; exact H |].
  apply inputNumber_fits; exact H.
Qed.

(** On a display with room for "0" and for "Error", where a text that fits
    still fits one character shorter, the current input fits the display
    after any run of buttons and backspaces that leaves out the percent
    button. *)
Theorem display_never_overflows (actions : list Action) :
  Forall checkedAction actions ->
  canFitInDisplay displayResult
    (currentInput (run displayResult initialSession actions)) = true.
Proof.
  assert (G : forall st,
    Forall checkedAction actions ->
    canFitInDisplay displayResult (currentInput st) = true ->
    canFitInDisplay displayResult
      (currentInput (run displayResult st actions)) = true).
  { induction actions as [| a rest IH]; intros st Hall Hst; [exact Hst |].
    inversion Hall as [| ? ? Ha Hrest]; subst.
    apply IH; [exact Hrest | apply step_fits; assumption]. }
  intros Hall; apply G; [exact Hall | exact room_zero].
Qed.

End DisplayRoom.

Lemma twelveCharacters_shorter (s : string) :
  (1 < String.length s)%nat ->
  canFitInDisplay twelveCharacters s = true ->
  canFitInDisplay twelveCharacters (sliceDropLast s) = true.
Proof.
  unfold twelveCharacters, canFitInDisplay; cbn [fitsDisplayLines].
  intros L H; apply Nat.leb_le in H; apply Nat.leb_le.
  unfold sliceDropLast.
  rewrite length_substring_prefix by lia; lia.
Qed.

Lemma display_never_overflows_witness :
  Forall checkedAction
    [Click "2"; Click DIVIDE; Click "3"; Click "="; BackspaceKey]
  /\ run twelveCharacters initialSession
       [Click "2"; Click DIVIDE; Click "3"; Click "="; BackspaceKey]
     = mkSession "0.66666666"%string ""%string true
  /\ canFitInDisplay twelveCharacters
       (currentInput
          (run twelveCharacters initialSession
             [Click "2"; Click DIVIDE; Click "3"; Click "="; BackspaceKey]))
     = true.
Proof.
  assert (V : Forall checkedAction
                [Click "2"; Click DIVIDE; Click "3"; Click "=";
                 BackspaceKey]).
  { repeat (apply Forall_cons;
            [split; [unfold inVocabulary, buttons; simpl; tauto
                    | discriminate] |]).
    apply Forall_nil. }
  split; [exact V | split; [vm_compute; reflexivity |]].
  exact (display_never_overflows twelveCharacters
           (eq_refl : canFitInDisplay twelveCharacters "0" = true)
           (eq_refl : canFitInDisplay twelveCharacters "Error" = true)
           twelveCharacters_shorter _ V).
Defined.

(** The percent button does not ask the display: two presses after 7
    leave a text of 21 characters on a display with room for twelve. *)
Example percentage_overflows :
  run twelveCharacters initialSession [Click "7"; Click "%"; Click "%"]
  = mkSession "0.0007000000000000001" "" false
  /\ canFitInDisplay twelveCharacters "0.0007000000000000001" = false.
Proof. vm_compute; split; reflexivity. Qed.
